(** * A driver-binary cache for shader programs

    Shallow embedding of [src/1.getting_started/3.7.shaders_binary/shaders_binary.cpp]:
    [checkProgramBinarySupport], [saveProgramBinary], [loadProgramBinary],
    [createShaderProgramFromSource] and [createOrLoadShaderProgram].

    The OpenGL driver is outside the program; it is an interface ([Driver]) over
    an abstract driver state, every entry point a state transition.  The file
    streams of <fstream> act on a small file system.  Every driver call, every
    stream operation and every line sent to [std::cout] is appended to a trace,
    so that the order of the program's actions can be stated.

    Conventions.  [GLenum], [GLuint], [GLint] and [GLsizei] are 32 bits wide
    and what a driver call leaves in such an object is reduced to its range;
    an object is laid out least significant byte first.  Allocating a
    [std::vector] succeeds.  A call through a null function pointer and a
    read outside a buffer have no defined behaviour ([Undefined]). *)

From Stdlib Require Import ZArith Lia List String.
From Stdlib.Strings Require Import Byte.
From stdpp Require Import base gmap strings list.

Local Open Scope Z_scope.

(** ** Machine integers and object representations *)

Module Int32.

(** [GLenum], [GLuint]: unsigned 32-bit. *)
Definition u32 (z : Z) : Z := z mod 2 ^ 32.

(** [GLint], [GLsizei]: signed 32-bit, two's complement. *)
Definition s32 (z : Z) : Z := (z + 2 ^ 31) mod 2 ^ 32 - 2 ^ 31.

Definition byte_to_Z (b : byte) : Z := Z.of_N (Byte.to_N b).

Definition byte_of_Z (z : Z) : byte :=
  match Byte.of_N (Z.to_N (z mod 256)) with
  | Some b => b
  | None => x00
  end.

(** The [n] low-order bytes of [z], least significant first:
    what [reinterpret_cast<const char*>(&v)] exposes of a 32-bit [v]. *)
Fixpoint le_encode (n : nat) (z : Z) : list byte :=
  match n with
  | O => []
  | S n' => byte_of_Z z :: le_encode n' (z / 256)
  end.

Fixpoint le_decode (bs : list byte) : Z :=
  match bs with
  | [] => 0
  | b :: bs' => byte_to_Z b + 256 * le_decode bs'
  end.

(** [istream::read] into an object: the extracted bytes replace the first
    bytes of the object, the others keep what they held. *)
Definition overlay (got old : list byte) : list byte :=
  got ++ drop (length got) old.

End Int32.
Import Int32.

(** ** Constants of <glad/glad.h> *)

Definition GL_FALSE : Z := 0.
Definition GL_TRUE : Z := 1.
Definition GL_NO_ERROR : Z := 0.

Inductive IntegerParam := GL_NUM_PROGRAM_BINARY_FORMATS.
Inductive ProgramParam := GL_LINK_STATUS | GL_PROGRAM_BINARY_LENGTH | GL_INFO_LOG_LENGTH.
Inductive ShaderParam := GL_COMPILE_STATUS.
Inductive ShaderType := GL_VERTEX_SHADER | GL_FRAGMENT_SHADER.

(** What [glGetProgramBinary] leaves in its three out-parameters. *)
Record ProgramBinary := {
  pb_length : Z;
  pb_format : Z;
  pb_bytes : list byte
}.

(** ** The driver

    One field per entry point the program calls.  A query returns the value
    found in its out-parameter after the call.  [drv_glGetProgramBinary_loaded]
    is [false] when the loader left the function pointer null. *)
Record Driver (D : Type) := {
  drv_glGetProgramBinary_loaded : bool;
  drv_glGetIntegerv : D -> IntegerParam -> Z * D;
  drv_glGetProgramiv : D -> Z -> ProgramParam -> Z * D;
  drv_glGetProgramBinary : D -> Z -> Z -> ProgramBinary * D;
  drv_glGetError : D -> Z * D;
  drv_glCreateProgram : D -> Z * D;
  drv_glProgramBinary : D -> Z -> Z -> list byte -> Z -> D;
  drv_glDeleteProgram : D -> Z -> D;
  drv_glGetProgramInfoLog : D -> Z -> Z -> string * D;
  drv_glCreateShader : D -> ShaderType -> Z * D;
  drv_glShaderSource : D -> Z -> string -> D;
  drv_glCompileShader : D -> Z -> D;
  drv_glGetShaderiv : D -> Z -> ShaderParam -> Z * D;
  drv_glGetShaderInfoLog : D -> Z -> Z -> string * D;
  drv_glDeleteShader : D -> Z -> D;
  drv_glAttachShader : D -> Z -> Z -> D;
  drv_glLinkProgram : D -> Z -> D
}.
Arguments drv_glGetProgramBinary_loaded {D}.
Arguments drv_glGetIntegerv {D}.
Arguments drv_glGetProgramiv {D}.
Arguments drv_glGetProgramBinary {D}.
Arguments drv_glGetError {D}.
Arguments drv_glCreateProgram {D}.
Arguments drv_glProgramBinary {D}.
Arguments drv_glDeleteProgram {D}.
Arguments drv_glGetProgramInfoLog {D}.
Arguments drv_glCreateShader {D}.
Arguments drv_glShaderSource {D}.
Arguments drv_glCompileShader {D}.
Arguments drv_glGetShaderiv {D}.
Arguments drv_glGetShaderInfoLog {D}.
Arguments drv_glDeleteShader {D}.
Arguments drv_glAttachShader {D}.
Arguments drv_glLinkProgram {D}.

(** ** Observable actions *)

(** One [<<] operand. *)
Inductive Tok := Str (s : string) | Num (z : Z).

Inductive Event :=
| E_glGetIntegerv (pname : IntegerParam) (v : Z)
| E_glGetProgramiv (program : Z) (pname : ProgramParam) (v : Z)
| E_glGetProgramBinary (program bufSize : Z) (r : ProgramBinary)
| E_glGetError (e : Z)
| E_glCreateProgram (p : Z)
| E_glProgramBinary (program format : Z) (data : list byte) (len : Z)
| E_glDeleteProgram (program : Z)
| E_glGetProgramInfoLog (program bufSize : Z) (log : string)
| E_glCreateShader (ty : ShaderType) (s : Z)
| E_glShaderSource (s : Z) (src : string)
| E_glCompileShader (s : Z)
| E_glGetShaderiv (s : Z) (pname : ShaderParam) (v : Z)
| E_glGetShaderInfoLog (s bufSize : Z) (log : string)
| E_glDeleteShader (s : Z)
| E_glAttachShader (program s : Z)
| E_glLinkProgram (program : Z)
| E_open_in (path : string) (ok : bool)
| E_read (path : string) (n : Z) (got : list byte)
| E_close_in (path : string)
| E_open_out (path : string) (ok : bool)
| E_write (path : string) (put : list byte)
| E_close_out (path : string)
| E_cout (line : list Tok).

(** The path a stream event is about. *)
Definition file_path (e : Event) : option string :=
  match e with
  | E_open_in p _ | E_read p _ _ | E_close_in p
  | E_open_out p _ | E_write p _ | E_close_out p => Some p
  | _ => None
  end.

Definition is_file_event (e : Event) : bool :=
  match file_path e with Some _ => true | None => false end.

Definition is_driver_event (e : Event) : bool :=
  match e with
  | E_cout _ => false
  | _ => negb (is_file_event e)
  end.

(** ** The file system and the streams of <fstream> *)

Record FileSystem := {
  files : gmap string (list byte);
  readonly : gset string;      (* paths that cannot be opened for writing *)
  room : nat                   (* bytes the device still takes *)
}.

Record ofstream := { of_path : string; of_open : bool; of_good : bool }.

Record ifstream := {
  if_path : string;
  if_open : bool;
  if_good : bool;
  if_rest : list byte;         (* not yet extracted *)
  if_gcount : Z
}.

(** ** The program *)

Section Program.

Context {D : Type} (drv : Driver D).

(** What the uninitialised locals [binaryFormat] and [length] of
    [loadProgramBinary] hold before the header is read into them. *)
Variables (indet_binaryFormat indet_length : Z).

(** The driver, the disk, everything done so far, and the function-local
    [static bool binarySupported] of [createOrLoadShaderProgram]
    ([None] until its initialiser has run). *)
Record World := {
  gl : D;
  disk : FileSystem;
  trace : list Event;
  binarySupported : option bool
}.

(** A call either returns, or has no defined behaviour (a call through a
    null function pointer, a read outside a buffer). *)
Inductive Outcome (A : Type) :=
| Returns (a : A) (w : World)
| Undefined (w : World).
Arguments Returns {A}.
Arguments Undefined {A}.

Definition M (A : Type) : Type := World -> Outcome A.

#[local] Instance M_ret : MRet M := fun A a w => Returns a w.
#[local] Instance M_bind : MBind M := fun A B k m w =>
  match m w with
  | Returns a w' => k a w'
  | Undefined w' => Undefined w'
  end.

Definition undefined {A} : M A := fun w => Undefined w.

Definition emit (e : Event) (w : World) : World :=
  {| gl := gl w; disk := disk w; trace := trace w ++ [e];
     binarySupported := binarySupported w |}.

Definition set_gl (d : D) (w : World) : World :=
  {| gl := d; disk := disk w; trace := trace w;
     binarySupported := binarySupported w |}.

Definition set_disk (fs : FileSystem) (w : World) : World :=
  {| gl := gl w; disk := fs; trace := trace w;
     binarySupported := binarySupported w |}.

Definition set_binarySupported (b : bool) (w : World) : World :=
  {| gl := gl w; disk := disk w; trace := trace w;
     binarySupported := Some b |}.

(** [std::cout << ... << std::endl] *)
Definition cout (line : list Tok) : M unit :=
  fun w => Returns tt (emit (E_cout line) w).

(** A driver entry point with a result: the result is stored in a C object
    of the entry point's type ([conv]). *)
Definition query {A} (f : D -> A * D) (conv : A -> A) (ev : A -> Event) : M A :=
  fun w => let '(a, d) := f (gl w) in
           Returns (conv a) (emit (ev (conv a)) (set_gl d w)).

Definition command (f : D -> D) (ev : Event) : M unit :=
  fun w => Returns tt (emit ev (set_gl (f (gl w)) w)).

Definition conv_binary (r : ProgramBinary) : ProgramBinary :=
  {| pb_length := s32 (pb_length r); pb_format := u32 (pb_format r);
     pb_bytes := pb_bytes r |}.

Definition glGetIntegerv (pname : IntegerParam) : M Z :=
  query (fun d => drv_glGetIntegerv drv d pname) s32 (E_glGetIntegerv pname).
Definition glGetProgramiv (program : Z) (pname : ProgramParam) : M Z :=
  query (fun d => drv_glGetProgramiv drv d program pname) s32
        (E_glGetProgramiv program pname).
Definition glGetProgramBinary (program bufSize : Z) : M ProgramBinary :=
  if drv_glGetProgramBinary_loaded drv then
    query (fun d => drv_glGetProgramBinary drv d program bufSize) conv_binary
          (E_glGetProgramBinary program bufSize)
  else undefined.
Definition glGetError : M Z :=
  query (drv_glGetError drv) u32 E_glGetError.
Definition glCreateProgram : M Z :=
  query (drv_glCreateProgram drv) u32 E_glCreateProgram.
Definition glProgramBinary (program format : Z) (data : list byte) (len : Z) : M unit :=
  command (fun d => drv_glProgramBinary drv d program format data len)
          (E_glProgramBinary program format data len).
Definition glDeleteProgram (program : Z) : M unit :=
  command (fun d => drv_glDeleteProgram drv d program) (E_glDeleteProgram program).
Definition glGetProgramInfoLog (program bufSize : Z) : M string :=
  query (fun d => drv_glGetProgramInfoLog drv d program bufSize) id
        (E_glGetProgramInfoLog program bufSize).
Definition glCreateShader (ty : ShaderType) : M Z :=
  query (fun d => drv_glCreateShader drv d ty) u32 (E_glCreateShader ty).
Definition glShaderSource (s : Z) (src : string) : M unit :=
  command (fun d => drv_glShaderSource drv d s src) (E_glShaderSource s src).
Definition glCompileShader (s : Z) : M unit :=
  command (fun d => drv_glCompileShader drv d s) (E_glCompileShader s).
Definition glGetShaderiv (s : Z) (pname : ShaderParam) : M Z :=
  query (fun d => drv_glGetShaderiv drv d s pname) s32 (E_glGetShaderiv s pname).
Definition glGetShaderInfoLog (s bufSize : Z) : M string :=
  query (fun d => drv_glGetShaderInfoLog drv d s bufSize) id
        (E_glGetShaderInfoLog s bufSize).
Definition glDeleteShader (s : Z) : M unit :=
  command (fun d => drv_glDeleteShader drv d s) (E_glDeleteShader s).
Definition glAttachShader (program s : Z) : M unit :=
  command (fun d => drv_glAttachShader drv d program s) (E_glAttachShader program s).
Definition glLinkProgram (program : Z) : M unit :=
  command (fun d => drv_glLinkProgram drv d program) (E_glLinkProgram program).

(** *** std::ofstream *)

(** [std::ofstream file(path, std::ios::binary)]: truncates. *)
Definition ofstream_open (path : string) : M ofstream := fun w =>
  let fs := disk w in
  if bool_decide (path ∈ readonly fs) then
    Returns {| of_path := path; of_open := false; of_good := false |}
            (emit (E_open_out path false) w)
  else
    Returns {| of_path := path; of_open := true; of_good := true |}
            (emit (E_open_out path true)
               (set_disk {| files := <[path := []]> (files fs);
                            readonly := readonly fs; room := room fs |} w)).

(** [file.write(s, n)] with the [n] bytes at [s] given as a list: what the
    device takes is appended; a short write leaves the stream bad. *)
Definition ofstream_write (f : ofstream) (bytes : list byte) : M ofstream := fun w =>
  if of_good f then
    let fs := disk w in
    let put := take (room fs) bytes in
    let old := default [] (files fs !! of_path f) in
    Returns {| of_path := of_path f; of_open := of_open f;
               of_good := bool_decide (length bytes ≤ room fs)%nat |}
            (emit (E_write (of_path f) put)
               (set_disk {| files := <[of_path f := old ++ put]> (files fs);
                            readonly := readonly fs;
                            room := (room fs - length put)%nat |} w))
  else Returns f w.

(** [file.write(buf.data(), n)]: reads [n] bytes of the buffer. *)
Definition ofstream_write_n (f : ofstream) (buf : list byte) (n : Z) : M ofstream :=
  if of_good f then
    if (0 <=? n) && (n <=? Z.of_nat (length buf)) then
      ofstream_write f (take (Z.to_nat n) buf)
    else undefined
  else mret f.

Definition ofstream_close (f : ofstream) : M ofstream := fun w =>
  if of_open f then
    Returns {| of_path := of_path f; of_open := false; of_good := of_good f |}
            (emit (E_close_out (of_path f)) w)
  else
    Returns {| of_path := of_path f; of_open := false; of_good := false |} w.

(** *** std::ifstream *)

Definition ifstream_open (path : string) : M ifstream := fun w =>
  match files (disk w) !! path with
  | Some content =>
      Returns {| if_path := path; if_open := true; if_good := true;
                 if_rest := content; if_gcount := 0 |}
              (emit (E_open_in path true) w)
  | None =>
      Returns {| if_path := path; if_open := false; if_good := false;
                 if_rest := []; if_gcount := 0 |}
              (emit (E_open_in path false) w)
  end.

(** [file.read(s, n)]: extracts up to [n] bytes; fewer than [n] sets
    eofbit and failbit; on a stream that is not good nothing is extracted. *)
Definition ifstream_read (f : ifstream) (n : Z) : M (list byte * ifstream) := fun w =>
  if if_good f then
    let got := take (Z.to_nat n) (if_rest f) in
    Returns (got,
             {| if_path := if_path f; if_open := if_open f;
                if_good := bool_decide (Z.of_nat (length got) = n);
                if_rest := drop (Z.to_nat n) (if_rest f);
                if_gcount := Z.of_nat (length got) |})
            (emit (E_read (if_path f) n got) w)
  else
    Returns ([],
             {| if_path := if_path f; if_open := if_open f; if_good := false;
                if_rest := if_rest f; if_gcount := 0 |})
            (emit (E_read (if_path f) n []) w).

Definition ifstream_close (f : ifstream) : M ifstream := fun w =>
  if if_open f then
    Returns {| if_path := if_path f; if_open := false; if_good := if_good f;
               if_rest := if_rest f; if_gcount := if_gcount f |}
            (emit (E_close_in (if_path f)) w)
  else
    Returns {| if_path := if_path f; if_open := false; if_good := false;
               if_rest := if_rest f; if_gcount := if_gcount f |} w.

(** *** shaders_binary.cpp *)

Definition nl : string := String (Ascii.ascii_of_nat 10) EmptyString.

Definition vertexShaderSource : string :=
  "#version 330 core" +:+ nl +:+
  "layout (location = 0) in vec3 aPos;" +:+ nl +:+
  "void main()" +:+ nl +:+
  "{" +:+ nl +:+
  "   gl_Position = vec4(aPos, 1.0);" +:+ nl +:+
  "}".

Definition fragmentShaderSource : string :=
  "#version 330 core" +:+ nl +:+
  "out vec4 FragColor;" +:+ nl +:+
  "uniform vec4 ourColor;" +:+ nl +:+
  "void main()" +:+ nl +:+
  "{" +:+ nl +:+
  "   FragColor = ourColor;" +:+ nl +:+
  "}" +:+ nl.

Definition checkProgramBinarySupport : M bool :=
  formats ← glGetIntegerv GL_NUM_PROGRAM_BINARY_FORMATS;
  if formats <? 1 then
    cout [Str "Driver reports no program binary formats supported"];;
    mret false
  else if negb (drv_glGetProgramBinary_loaded drv) then
    cout [Str "glGetProgramBinary function not available"];;
    mret true
  else
    cout [Str "Program binary supported. Number of formats: "; Num formats];;
    mret true.

Definition saveProgramBinary (program : Z) (filename : string) : M bool :=
  if program =? 0 then
    cout [Str "Invalid program object"];;
    mret false
  else
  linkStatus ← glGetProgramiv program GL_LINK_STATUS;
  if negb (linkStatus =? GL_TRUE) then
    cout [Str "Program is not successfully linked"];;
    mret false
  else
  supported ← checkProgramBinarySupport;
  if negb supported then
    cout [Str "Program binary not supported, cannot save"];;
    mret false
  else
  length ← glGetProgramiv program GL_PROGRAM_BINARY_LENGTH;
  if length <=? 0 then
    cout [Str "Program binary length is 0 or invalid: "; Num length];;
    mret false
  else
  cout [Str "Program binary length: "; Num length; Str " bytes"];;
  let binaryData := replicate (Z.to_nat length) x00 in
  r ← glGetProgramBinary program length;
  let actualLength := pb_length r in
  let binaryFormat := pb_format r in
  (* the driver writes at most [bufSize] bytes *)
  let binaryData := take (Z.to_nat length) (overlay (pb_bytes r) binaryData) in
  error ← glGetError;
  if negb (error =? GL_NO_ERROR) then
    cout [Str "OpenGL error after glGetProgramBinary: "; Num error];;
    mret false
  else
  (if negb (actualLength =? length) then
     cout [Str "Warning: Actual binary length ("; Num actualLength;
           Str ") differs from reported length ("; Num length; Str ")"]
   else mret tt);;
  if actualLength =? 0 then
    cout [Str "No binary data retrieved"];;
    mret false
  else
  file ← ofstream_open filename;
  if negb (of_open file) then
    cout [Str "Failed to open file for writing: "; Str filename];;
    mret false
  else
  file ← ofstream_write file (le_encode 4 binaryFormat);
  file ← ofstream_write file (le_encode 4 actualLength);
  file ← ofstream_write_n file binaryData actualLength;
  file ← ofstream_close file;
  if negb (of_good file) then
    cout [Str "Failed to write program binary to file"];;
    mret false
  else
  cout [Str "Program binary saved successfully: "; Str filename;
        Str " (format: "; Num binaryFormat; Str ", size: "; Num actualLength;
        Str " bytes)"];;
  mret true.

Definition loadProgramBinary (filename : string) : M Z :=
  supported ← checkProgramBinarySupport;
  if negb supported then
    cout [Str "Program binary not supported, cannot load"];;
    mret 0
  else
  file ← ifstream_open filename;
  if negb (if_open file) then
    cout [Str "Failed to open file for reading: "; Str filename];;
    mret 0
  else
  '(got, file) ← ifstream_read file 4;
  let binaryFormat := u32 (le_decode (overlay got (le_encode 4 indet_binaryFormat))) in
  '(got, file) ← ifstream_read file 4;
  let length := s32 (le_decode (overlay got (le_encode 4 indet_length))) in
  if length <=? 0 then
    cout [Str "Invalid binary length in file: "; Num length];;
    _ ← ifstream_close file;
    mret 0
  else
  let binaryData := replicate (Z.to_nat length) x00 in
  '(got, file) ← ifstream_read file length;
  let binaryData := overlay got binaryData in
  file ← ifstream_close file;
  if negb (if_gcount file =? length) then
    cout [Str "File read incomplete. Expected: "; Num length;
          Str ", Actual: "; Num (if_gcount file)];;
    mret 0
  else
  program ← glCreateProgram;
  glProgramBinary program binaryFormat binaryData length;;
  error ← glGetError;
  if negb (error =? GL_NO_ERROR) then
    cout [Str "OpenGL error after glProgramBinary: "; Num error];;
    glDeleteProgram program;;
    mret 0
  else
  success ← glGetProgramiv program GL_LINK_STATUS;
  if success =? GL_FALSE then
    cout [Str "Failed to load program binary"];;
    infoLogLength ← glGetProgramiv program GL_INFO_LOG_LENGTH;
    (if 0 <? infoLogLength then
       infoLog ← glGetProgramInfoLog program infoLogLength;
       cout [Str "Program binary load error: "; Str infoLog]
     else mret tt);;
    glDeleteProgram program;;
    mret 0
  else
  cout [Str "Program binary loaded successfully: "; Str filename];;
  mret program.

Definition createShaderProgramFromSource : M Z :=
  cout [Str "Compiling shaders from source..."];;
  vertexShader ← glCreateShader GL_VERTEX_SHADER;
  glShaderSource vertexShader vertexShaderSource;;
  glCompileShader vertexShader;;
  success ← glGetShaderiv vertexShader GL_COMPILE_STATUS;
  if success =? 0 then
    infoLog ← glGetShaderInfoLog vertexShader 512;
    cout [Str ("ERROR::SHADER::VERTEX::COMPILATION_FAILED" +:+ nl); Str infoLog];;
    mret 0
  else
  fragmentShader ← glCreateShader GL_FRAGMENT_SHADER;
  glShaderSource fragmentShader fragmentShaderSource;;
  glCompileShader fragmentShader;;
  success ← glGetShaderiv fragmentShader GL_COMPILE_STATUS;
  if success =? 0 then
    infoLog ← glGetShaderInfoLog fragmentShader 512;
    cout [Str ("ERROR::SHADER::FRAGMENT::COMPILATION_FAILED" +:+ nl); Str infoLog];;
    glDeleteShader vertexShader;;
    mret 0
  else
  shaderProgram ← glCreateProgram;
  glAttachShader shaderProgram vertexShader;;
  glAttachShader shaderProgram fragmentShader;;
  glLinkProgram shaderProgram;;
  success ← glGetProgramiv shaderProgram GL_LINK_STATUS;
  if success =? 0 then
    infoLog ← glGetProgramInfoLog shaderProgram 512;
    cout [Str ("ERROR::SHADER::PROGRAM::LINKING_FAILED" +:+ nl); Str infoLog];;
    glDeleteShader vertexShader;;
    glDeleteShader fragmentShader;;
    glDeleteProgram shaderProgram;;
    mret 0
  else
  glDeleteShader vertexShader;;
  glDeleteShader fragmentShader;;
  cout [Str "Shader program compiled and linked successfully from source"];;
  mret shaderProgram.

Definition binaryFilename : string := "shader_program.bin".

(** [static bool binarySupported = checkProgramBinarySupport();]
    the initialiser runs the first time control passes the declaration. *)
Definition static_binarySupported : M bool := fun w =>
  match binarySupported w with
  | Some b => Returns b w
  | None =>
      match checkProgramBinarySupport w with
      | Returns b w' => Returns b (set_binarySupported b w')
      | Undefined w' => Undefined w'
      end
  end.

Definition createOrLoadShaderProgram : M Z :=
  binarySupported ← static_binarySupported;
  cached ←
    (if binarySupported : bool then
       program ← loadProgramBinary binaryFilename;
       if negb (program =? 0) then
         cout [Str "Successfully loaded program from binary cache"];;
         mret (Some program)
       else
         cout [Str "Binary cache not found or invalid, compiling from source..."];;
         mret None
     else
       cout [Str "Program binary not supported, compiling from source..."];;
       mret None);
  match cached with
  | Some program => mret program
  | None =>
      program ← createShaderProgramFromSource;
      if program =? 0 then
        cout [Str "Failed to compile shader program from source"];;
        mret 0
      else
      (if binarySupported : bool then
         saved ← saveProgramBinary program binaryFilename;
         if negb saved then
           cout [Str "Warning: Failed to save program binary, but program compiled successfully"]
         else
           cout [Str "Program binary cached for future use"]
       else mret tt);;
      mret program
  end.

End Program.

Arguments Returns {D A}.
Arguments Undefined {D A}.
#[global] Existing Instance M_ret.
#[global] Existing Instance M_bind.

(** What a call appended to the trace, and what it returned. *)
Definition events_of {D A} (m : M (D:=D) A) (w : World) : list Event :=
  match m w with
  | Returns _ w' | Undefined w' => drop (length (trace w)) (trace w')
  end.

Definition result_of {D A} (m : M (D:=D) A) (w : World) : option A :=
  match m w with
  | Returns a _ => Some a
  | Undefined _ => None
  end.

(** The world a call leaves. *)
Definition final_world {D A} (o : Outcome (D:=D) A) : World :=
  match o with Returns _ w | Undefined w => w end.

(** ** A reference driver

    A small deterministic driver on which the program can be run.  It knows
    one binary format and hands out the same blob for every linked program;
    [accepts] says whether [glProgramBinary] takes that blob back. *)
Module Ref.

Definition GL_INVALID_ENUM : Z := 1280.
Definition GL_INVALID_OPERATION : Z := 1282.

Record State := {
  formats : Z;            (* GL_NUM_PROGRAM_BINARY_FORMATS *)
  compiler_ok : bool;     (* do the GLSL sources compile and link *)
  padding : Z;            (* what GL_PROGRAM_BINARY_LENGTH reports beyond the blob *)
  error : Z;              (* the error flag *)
  next : Z;               (* object names handed out so far *)
  linked : list Z         (* names of the linked programs *)
}.

Definition format : Z := 36385.
Definition blob : list byte := [xde; xad; xbe; xef; x01].

Definition set_error (e : Z) (s : State) : State :=
  {| formats := formats s; compiler_ok := compiler_ok s; padding := padding s;
     error := e; next := next s; linked := linked s |}.

Definition raise (e : Z) (s : State) : State :=
  if error s =? 0 then set_error e s else s.

(** Object names are never 0. *)
Definition fresh (s : State) : Z * State :=
  (next s mod 4294967295 + 1,
   {| formats := formats s; compiler_ok := compiler_ok s; padding := padding s;
      error := error s; next := next s + 1; linked := linked s |}).

Definition set_linked (l : list Z) (s : State) : State :=
  {| formats := formats s; compiler_ok := compiler_ok s; padding := padding s;
     error := error s; next := next s; linked := l |}.

Definition is_linked (p : Z) (s : State) : bool := bool_decide (p ∈ linked s).

Definition bytes_eqb (a b : list byte) : bool :=
  bool_decide (Byte.to_N <$> a = Byte.to_N <$> b).

Definition driver (loaded accepts : bool) : Driver State := {|
  drv_glGetProgramBinary_loaded := loaded;
  drv_glGetIntegerv := fun s _ => (formats s, s);
  drv_glGetProgramiv := fun s p pname =>
    match pname with
    | GL_LINK_STATUS => (if is_linked p s then GL_TRUE else GL_FALSE, s)
    | GL_PROGRAM_BINARY_LENGTH =>
        (if is_linked p s then Z.of_nat (length blob) + padding s else 0, s)
    | GL_INFO_LOG_LENGTH => (if is_linked p s then 0 else 7, s)
    end;
  drv_glGetProgramBinary := fun s p bufSize =>
    if is_linked p s && (Z.of_nat (length blob) <=? bufSize) && (1 <=? s32 (formats s)) then
      ({| pb_length := Z.of_nat (length blob); pb_format := format;
          pb_bytes := blob |}, s)
    else
      ({| pb_length := 0; pb_format := 0; pb_bytes := [] |},
       raise GL_INVALID_OPERATION s);
  drv_glGetError := fun s => (error s, set_error 0 s);
  drv_glCreateProgram := fresh;
  drv_glProgramBinary := fun s p fmt data len =>
    if negb (fmt =? format) then raise GL_INVALID_ENUM s
    else if accepts && bytes_eqb data blob then set_linked (p :: linked s) s
    else s;
  drv_glDeleteProgram := fun s p =>
    set_linked (filter (fun q => q ≠ p) (linked s)) s;
  drv_glGetProgramInfoLog := fun s _ _ => ("refused", s);
  drv_glCreateShader := fun s _ => fresh s;
  drv_glShaderSource := fun s _ _ => s;
  drv_glCompileShader := fun s _ => s;
  drv_glGetShaderiv := fun s _ _ => (if compiler_ok s then GL_TRUE else GL_FALSE, s);
  drv_glGetShaderInfoLog := fun s _ _ => ("syntax error", s);
  drv_glDeleteShader := fun s _ => s;
  drv_glAttachShader := fun s _ _ => s;
  drv_glLinkProgram := fun s p =>
    if compiler_ok s then set_linked (p :: linked s) s else s
|}.

(** A fresh context reporting [n] formats. *)
Definition boot (n : Z) : State :=
  {| formats := n; compiler_ok := true; padding := 0; error := 0; next := 0;
     linked := [] |}.

(** A context in which program 7 is linked; the driver reports [pad] more
    bytes for its binary than it then hands out. *)
Definition with_program (pad : Z) : State :=
  {| formats := 1; compiler_ok := true; padding := pad; error := 0; next := 7;
     linked := [7] |}.

Definition empty_disk : FileSystem :=
  {| files := ∅; readonly := ∅; room := 4096 |}.

(** The cache file cannot be opened for writing. *)
Definition readonly_disk : FileSystem :=
  {| files := ∅; readonly := {["shader_program.bin"]}; room := 4096 |}.

(** A disk holding one file. *)
Definition disk_with (path : string) (content : list byte) : FileSystem :=
  {| files := {[path := content]}; readonly := ∅; room := 4096 |}.

(** A disk with room for six more bytes. *)
Definition cramped_disk : FileSystem :=
  {| files := ∅; readonly := ∅; room := 6 |}.

(** A context whose compiler rejects every shader. *)
Definition no_compiler : State :=
  {| formats := 1; compiler_ok := false; padding := 0; error := 0; next := 0;
     linked := [] |}.

Definition world (s : State) (fs : FileSystem) : World :=
  {| gl := s; disk := fs; trace := []; binarySupported := None |}.

End Ref.

(** ** Concrete runs on the reference driver *)
Module Runs.

Definition drv : Driver Ref.State := Ref.driver true true.

(** Saving program 7, for which the driver reports 8 bytes and hands out 5. *)
Definition before_save : World := Ref.world (Ref.with_program 3) Ref.empty_disk.
Definition after_save : World :=
  final_world (saveProgramBinary drv 7 "cache.bin" before_save).

(** A first start with the cache file not writable. *)
Definition cold : World := Ref.world (Ref.boot 1) Ref.readonly_disk.
Definition cold_probed : World := final_world (static_binarySupported drv cold).
Definition cold_missed : World :=
  final_world (loadProgramBinary drv 0 0 binaryFilename cold_probed).
Definition cold_compiled : World :=
  final_world
    (createShaderProgramFromSource drv
       (emit (E_cout [Str "Binary cache not found or invalid, compiling from source..."])
          cold_missed)).
Definition cold_saved : World :=
  final_world (saveProgramBinary drv 3 binaryFilename cold_compiled).

(** A driver without binary formats. *)
Definition bare : World := Ref.world (Ref.boot 0) Ref.empty_disk.
Definition bare_probed : World := final_world (static_binarySupported drv bare).

(** Cache files: a header declaring 5 bytes followed by 2; a header declaring 0. *)
Definition tag : list byte := [x21; x8e; x00; x00].
Definition truncated : World :=
  Ref.world (Ref.boot 1)
    (Ref.disk_with "cache.bin" (tag ++ [x05; x00; x00; x00] ++ [xde; xad])).
Definition zero_length : World :=
  Ref.world (Ref.boot 1)
    (Ref.disk_with "cache.bin" (tag ++ [x00; x00; x00; x00] ++ [xde])).

(** A first start with an empty, writable disk; one on which nothing compiles. *)
Definition fresh_start : World := Ref.world (Ref.boot 1) Ref.empty_disk.
Definition broken : World := Ref.world Ref.no_compiler Ref.empty_disk.

(** Saving program 7 to a disk that takes six bytes, and what that leaves;
    saving it to the path that cannot be written. *)
Definition cramped : World := Ref.world (Ref.with_program 3) Ref.cramped_disk.
Definition torn : World := final_world (saveProgramBinary drv 7 "cache.bin" cramped).
Definition unwritable : World := Ref.world (Ref.with_program 3) Ref.readonly_disk.

(** The first start on a writable disk, stage by stage. *)
Definition fresh_probed : World := final_world (static_binarySupported drv fresh_start).
Definition fresh_missed : World :=
  final_world (loadProgramBinary drv 0 0 "shader_program.bin" fresh_probed).
Definition fresh_compiled : World :=
  final_world
    (createShaderProgramFromSource drv
       (emit (E_cout [Str "Binary cache not found or invalid, compiling from source..."])
          fresh_missed)).
Definition fresh_saved : World :=
  final_world (saveProgramBinary drv 3 "shader_program.bin" fresh_compiled).

(** The same driver with the pointer [glGetProgramBinary] null, as after a
    loader that did not find the entry point. *)
Definition null_drv : Driver Ref.State := Ref.driver false true.

(** A cache file that ends inside its header. *)
Definition short_header : World :=
  Ref.world (Ref.boot 1) (Ref.disk_with "cache.bin" (tag ++ [x05; x00])).

End Runs.

(** ** Notions the statements use *)

(** The binary-format count the driver reports in the state of [w]. *)
Definition reported_formats {D} (drv : Driver D) (w : World) : Z :=
  s32 (fst (drv_glGetIntegerv drv (gl w) GL_NUM_PROGRAM_BINARY_FORMATS)).

(** The line [checkProgramBinarySupport] prints for a format count. *)
Definition probe_line {D} (drv : Driver D) (formats : Z) : list Tok :=
  if formats <? 1 then [Str "Driver reports no program binary formats supported"]
  else if drv_glGetProgramBinary_loaded drv
       then [Str "Program binary supported. Number of formats: "; Num formats]
       else [Str "glGetProgramBinary function not available"].

(** [binaryData] of [saveProgramBinary] after [glGetProgramBinary] has filled
    it: a buffer of [bufSize] bytes, zero where the driver wrote nothing. *)
Definition retrieved_buffer (bufSize : Z) (r : ProgramBinary) : list byte :=
  take (Z.to_nat bufSize) (overlay (pb_bytes r) (replicate (Z.to_nat bufSize) x00)).


(** Events by kind. *)
Definition is_retrieval (e : Event) : bool :=
  match e with E_glGetProgramBinary _ _ _ => true | _ => false end.

Definition is_delete (e : Event) : bool :=
  match e with E_glDeleteProgram _ => true | _ => false end.

Definition is_create (e : Event) : bool :=
  match e with E_glCreateProgram _ => true | _ => false end.

Definition is_read (e : Event) : bool :=
  match e with E_read _ _ _ => true | _ => false end.

Definition is_submission (e : Event) : bool :=
  match e with E_glProgramBinary _ _ _ _ => true | _ => false end.

(** What has become of a program object a run created, given the value [h]
    the run returned and the events [evs] it produced: either [h] is that
    object, nothing was deleted, and the driver reported no error and a link
    status other than [GL_FALSE]; or the driver reported an error or
    [GL_FALSE], the run ended by deleting the object, and [h] is 0. *)
Definition handle_accounted (h : Z) (evs : list Event) : Prop :=
  forall p,
    In (E_glCreateProgram p) evs ->
    (h = p /\
     Forall (fun e => is_delete e = false) evs /\
     In (E_glGetError GL_NO_ERROR) evs /\
     exists s, s <> GL_FALSE /\ In (E_glGetProgramiv p GL_LINK_STATUS s) evs)
    \/
    (h = 0 /\
     last evs = Some (E_glDeleteProgram p) /\
     ((exists e, e <> GL_NO_ERROR /\ In (E_glGetError e) evs) \/
      In (E_glGetProgramiv p GL_LINK_STATUS GL_FALSE) evs)).

(** The driver calls only the binary cache makes. *)
Definition is_binary_call (e : Event) : bool :=
  match e with
  | E_glGetProgramBinary _ _ _ | E_glProgramBinary _ _ _ _
  | E_glGetProgramiv _ GL_PROGRAM_BINARY_LENGTH _ => true
  | _ => false
  end.

(** A stream event is about [path]; other events pass. *)
Definition on_path (path : string) (e : Event) : Prop :=
  forall p, file_path e = Some p -> p = path.

(** The driver takes back, in the same context, a binary it has just handed
    out: whenever a retrieval into a buffer of [bufSize] bytes is followed by
    no error and returned a length [n] with [0 < n <= bufSize], then from that
    state the driver still reports a binary format, creates a program object
    with a name other than 0, and [glProgramBinary] on that object with the
    returned format and the [n] retrieved bytes leaves no error and the link
    status [GL_TRUE]. *)
Definition accepts_own_binaries {D} (drv : Driver D) : Prop :=
  forall d program bufSize r d1 e d2,
    drv_glGetProgramBinary drv d program bufSize = (r, d1) ->
    drv_glGetError drv d1 = (e, d2) ->
    u32 e = GL_NO_ERROR ->
    0 < s32 (pb_length r) <= bufSize ->
    let n := s32 (pb_length r) in
    let data := take (Z.to_nat n) (retrieved_buffer bufSize r) in
    exists f d3 p d4 e' d5 s d6,
      drv_glGetIntegerv drv d2 GL_NUM_PROGRAM_BINARY_FORMATS = (f, d3) /\
      1 <= s32 f /\
      drv_glCreateProgram drv d3 = (p, d4) /\
      u32 p <> 0 /\
      drv_glGetError drv (drv_glProgramBinary drv d4 (u32 p) (u32 (pb_format r)) data n)
        = (e', d5) /\
      u32 e' = GL_NO_ERROR /\
      drv_glGetProgramiv drv d5 (u32 p) GL_LINK_STATUS = (s, d6) /\
      s32 s = GL_TRUE.

(** The driver never reports more bytes than the buffer it was given holds,
    nor a negative count. *)
Definition respects_buffer {D} (drv : Driver D) : Prop :=
  forall d program bufSize r d',
    0 < bufSize ->
    drv_glGetProgramBinary drv d program bufSize = (r, d') ->
    0 <= s32 (pb_length r) <= bufSize.

(** Every computation of the program only appends to the trace; [emits P Q m]
    says moreover that all it appends satisfies [P] and that what it returns
    satisfies [Q]. *)
Definition emits {D A} (P : Event -> Prop) (Q : A -> Prop) (m : M (D:=D) A) : Prop :=
  forall w, exists evs, Forall P evs /\
    match m w with
    | Returns a w' => trace w' = trace w ++ evs /\ Q a
    | Undefined w' => trace w' = trace w ++ evs
    end.

Definition any {A} (a : A) : Prop := True.

(** [keeps I Q m]: started in a world satisfying [I], [m] ends in a world
    satisfying [I], and what it returns satisfies [Q]. *)
Definition keeps {D A} (I : World -> Prop) (Q : A -> Prop) (m : M (D:=D) A) : Prop :=
  forall w, I w ->
    match m w with
    | Returns a w' => I w' /\ Q a
    | Undefined w' => I w'
    end.

(** A file system that differs from [fs] at most in the file [path]. *)
Definition same_but (path : string) (fs fs' : FileSystem) : Prop :=
  (forall p, p <> path -> files fs' !! p = files fs !! p) /\
  readonly fs' = readonly fs.

(** [Inv] survives a change of the one file [path]: what the streams that
    write need. *)
Definition survives {D} (Inv : World (D:=D) -> Prop) (path : string) : Prop :=
  forall fs w, Inv w -> same_but path (disk w) fs -> Inv (set_disk fs w).

(** What the static [binarySupported] holds once its declaration has been
    passed in the world [w]: its value if it was initialised before, the
    result of the probe otherwise. *)
Definition memoised {D} (drv : Driver D) (w : World) : bool :=
  match binarySupported w with
  | Some b => b
  | None => negb (reported_formats drv w <? 1)
  end.

(** A file that [loadProgramBinary] can read to the end of what its header
    declares: eight bytes of header, of which the second four, read as a
    [GLint], are a positive number, and at least that many bytes after them. *)
Definition complete_cache (content : list byte) : bool :=
  let declared := s32 (le_decode (take 4 (drop 4 content))) in
  (8 <=? Z.of_nat (length content)) && (0 <? declared) &&
  (declared <=? Z.of_nat (length content) - 8).

(** The four ways [createShaderProgramFromSource] runs, as the value returned
    and the events produced: the vertex shader does not compile; the fragment
    shader does not compile; the program does not link; all three succeed. *)
Inductive compile_run : Z -> list Event -> Prop :=
| vertex_failed v log :
    compile_run 0
      [E_cout [Str "Compiling shaders from source..."];
       E_glCreateShader GL_VERTEX_SHADER v;
       E_glShaderSource v vertexShaderSource;
       E_glCompileShader v;
       E_glGetShaderiv v GL_COMPILE_STATUS 0;
       E_glGetShaderInfoLog v 512 log;
       E_cout [Str ("ERROR::SHADER::VERTEX::COMPILATION_FAILED" +:+ nl); Str log]]
| fragment_failed v sv f log :
    sv <> 0 ->
    compile_run 0
      [E_cout [Str "Compiling shaders from source..."];
       E_glCreateShader GL_VERTEX_SHADER v;
       E_glShaderSource v vertexShaderSource;
       E_glCompileShader v;
       E_glGetShaderiv v GL_COMPILE_STATUS sv;
       E_glCreateShader GL_FRAGMENT_SHADER f;
       E_glShaderSource f fragmentShaderSource;
       E_glCompileShader f;
       E_glGetShaderiv f GL_COMPILE_STATUS 0;
       E_glGetShaderInfoLog f 512 log;
       E_cout [Str ("ERROR::SHADER::FRAGMENT::COMPILATION_FAILED" +:+ nl); Str log];
       E_glDeleteShader v]
| link_failed v sv f sf p log :
    sv <> 0 -> sf <> 0 ->
    compile_run 0
      [E_cout [Str "Compiling shaders from source..."];
       E_glCreateShader GL_VERTEX_SHADER v;
       E_glShaderSource v vertexShaderSource;
       E_glCompileShader v;
       E_glGetShaderiv v GL_COMPILE_STATUS sv;
       E_glCreateShader GL_FRAGMENT_SHADER f;
       E_glShaderSource f fragmentShaderSource;
       E_glCompileShader f;
       E_glGetShaderiv f GL_COMPILE_STATUS sf;
       E_glCreateProgram p;
       E_glAttachShader p v;
       E_glAttachShader p f;
       E_glLinkProgram p;
       E_glGetProgramiv p GL_LINK_STATUS 0;
       E_glGetProgramInfoLog p 512 log;
       E_cout [Str ("ERROR::SHADER::PROGRAM::LINKING_FAILED" +:+ nl); Str log];
       E_glDeleteShader v;
       E_glDeleteShader f;
       E_glDeleteProgram p]
| linked v sv f sf p sl :
    sv <> 0 -> sf <> 0 -> sl <> 0 ->
    compile_run p
      [E_cout [Str "Compiling shaders from source..."];
       E_glCreateShader GL_VERTEX_SHADER v;
       E_glShaderSource v vertexShaderSource;
       E_glCompileShader v;
       E_glGetShaderiv v GL_COMPILE_STATUS sv;
       E_glCreateShader GL_FRAGMENT_SHADER f;
       E_glShaderSource f fragmentShaderSource;
       E_glCompileShader f;
       E_glGetShaderiv f GL_COMPILE_STATUS sf;
       E_glCreateProgram p;
       E_glAttachShader p v;
       E_glAttachShader p f;
       E_glLinkProgram p;
       E_glGetProgramiv p GL_LINK_STATUS sl;
       E_glDeleteShader v;
       E_glDeleteShader f;
       E_cout [Str "Shader program compiled and linked successfully from source"]].

(** The ways [loadProgramBinary filename] runs, as the value returned and the
    events produced after the two events of the probe: probe failed; file not
    opened; length in the header not positive; payload read short; error
    after the submission; link status [GL_FALSE], with and without an info
    log; success.  [got1], [got2], [got3] are what the three reads extracted
    and [len] is what the local [length] held after the second. *)
Inductive load_run (filename : string) : Z -> list Event -> Prop :=
| load_unsupported :
    load_run filename 0
      [E_cout [Str "Program binary not supported, cannot load"]]
| load_not_opened :
    load_run filename 0
      [E_open_in filename false;
       E_cout [Str "Failed to open file for reading: "; Str filename]]
| load_bad_length got1 got2 len :
    len <= 0 ->
    load_run filename 0
      [E_open_in filename true; E_read filename 4 got1; E_read filename 4 got2;
       E_cout [Str "Invalid binary length in file: "; Num len];
       E_close_in filename]
| load_short got1 got2 len got3 :
    0 < len -> Z.of_nat (length got3) <> len ->
    load_run filename 0
      [E_open_in filename true; E_read filename 4 got1; E_read filename 4 got2;
       E_read filename len got3; E_close_in filename;
       E_cout [Str "File read incomplete. Expected: "; Num len;
               Str ", Actual: "; Num (Z.of_nat (length got3))]]
| load_error got1 got2 len got3 p fmt e :
    0 < len -> Z.of_nat (length got3) = len -> e <> GL_NO_ERROR ->
    load_run filename 0
      [E_open_in filename true; E_read filename 4 got1; E_read filename 4 got2;
       E_read filename len got3; E_close_in filename;
       E_glCreateProgram p; E_glProgramBinary p fmt got3 len; E_glGetError e;
       E_cout [Str "OpenGL error after glProgramBinary: "; Num e];
       E_glDeleteProgram p]
| load_refused_log got1 got2 len got3 p fmt n log :
    0 < len -> Z.of_nat (length got3) = len -> 0 < n ->
    load_run filename 0
      [E_open_in filename true; E_read filename 4 got1; E_read filename 4 got2;
       E_read filename len got3; E_close_in filename;
       E_glCreateProgram p; E_glProgramBinary p fmt got3 len;
       E_glGetError GL_NO_ERROR; E_glGetProgramiv p GL_LINK_STATUS GL_FALSE;
       E_cout [Str "Failed to load program binary"];
       E_glGetProgramiv p GL_INFO_LOG_LENGTH n;
       E_glGetProgramInfoLog p n log;
       E_cout [Str "Program binary load error: "; Str log];
       E_glDeleteProgram p]
| load_refused got1 got2 len got3 p fmt n :
    0 < len -> Z.of_nat (length got3) = len -> n <= 0 ->
    load_run filename 0
      [E_open_in filename true; E_read filename 4 got1; E_read filename 4 got2;
       E_read filename len got3; E_close_in filename;
       E_glCreateProgram p; E_glProgramBinary p fmt got3 len;
       E_glGetError GL_NO_ERROR; E_glGetProgramiv p GL_LINK_STATUS GL_FALSE;
       E_cout [Str "Failed to load program binary"];
       E_glGetProgramiv p GL_INFO_LOG_LENGTH n;
       E_glDeleteProgram p]
| load_ok got1 got2 len got3 p fmt st :
    0 < len -> Z.of_nat (length got3) = len -> st <> GL_FALSE ->
    load_run filename p
      [E_open_in filename true; E_read filename 4 got1; E_read filename 4 got2;
       E_read filename len got3; E_close_in filename;
       E_glCreateProgram p; E_glProgramBinary p fmt got3 len;
       E_glGetError GL_NO_ERROR; E_glGetProgramiv p GL_LINK_STATUS st;
       E_cout [Str "Program binary loaded successfully: "; Str filename]].

(** The two events of a run of [checkProgramBinarySupport] in which the
    driver reported [n] formats. *)
Definition probe_events {D} (drv : Driver D) (n : Z) : list Event :=
  [E_glGetIntegerv GL_NUM_PROGRAM_BINARY_FORMATS n; E_cout (probe_line drv n)].

(** Events of an output stream, and the driver calls that build a program
    from source. *)
Definition is_output (e : Event) : bool :=
  match e with E_open_out _ _ | E_write _ _ | E_close_out _ => true | _ => false end.

Definition compiles (e : Event) : bool :=
  match e with
  | E_glCreateShader _ _ | E_glShaderSource _ _ | E_glCompileShader _
  | E_glAttachShader _ _ | E_glLinkProgram _ => true
  | _ => false
  end.

(** The ways [createOrLoadShaderProgram] runs once the static is initialised,
    as the value returned ([None] when the run ends in undefined behaviour)
    and the events produced: capability unsupported; cache hit; cache miss and
    the sources do not yield a program; cache miss, the sources compiled and
    the save returned; the same, the save did not return.  [sevs] are the
    events of the save, of which [P] is known. *)
Inductive cache_run {D} (drv : Driver D) (P : Event -> Prop) :
  option Z -> list Event -> Prop :=
| cache_unsupported p cevs :
    compile_run p cevs ->
    cache_run drv P (Some p)
      (E_cout [Str "Program binary not supported, compiling from source..."] :: cevs ++
       (if p =? 0 then [E_cout [Str "Failed to compile shader program from source"]]
        else []))
| cache_hit n h levs :
    h <> 0 -> load_run binaryFilename h levs ->
    cache_run drv P (Some h)
      (probe_events drv n ++ levs ++
       [E_cout [Str "Successfully loaded program from binary cache"]])
| cache_miss_failed n levs cevs :
    load_run binaryFilename 0 levs -> compile_run 0 cevs ->
    cache_run drv P (Some 0)
      (probe_events drv n ++ levs ++
       E_cout [Str "Binary cache not found or invalid, compiling from source..."] ::
       cevs ++ [E_cout [Str "Failed to compile shader program from source"]])
| cache_miss_saved n levs p cevs sevs (saved : bool) :
    load_run binaryFilename 0 levs -> compile_run p cevs -> p <> 0 -> Forall P sevs ->
    cache_run drv P (Some p)
      (probe_events drv n ++ levs ++
       E_cout [Str "Binary cache not found or invalid, compiling from source..."] ::
       cevs ++ sevs ++
       [E_cout (if saved
                then [Str "Program binary cached for future use"]
                else [Str "Warning: Failed to save program binary, but program compiled successfully"])])
| cache_miss_undefined n levs p cevs sevs :
    load_run binaryFilename 0 levs -> compile_run p cevs -> p <> 0 -> Forall P sevs ->
    cache_run drv P None
      (probe_events drv n ++ levs ++
       E_cout [Str "Binary cache not found or invalid, compiling from source..."] ::
       cevs ++ sevs).

(** * Proofs *)

(** ** 32-bit object representations *)

Section Int32_facts.

Lemma byte_to_Z_range (b : byte) : 0 <= byte_to_Z b < 256.
Proof.
  unfold byte_to_Z. pose proof (Byte.to_N_bounded b). lia.
Qed.

Lemma byte_to_of_Z (z : Z) : byte_to_Z (byte_of_Z z) = z mod 256.
Proof.
  unfold byte_of_Z, byte_to_Z.
  assert (Hr : 0 <= z mod 256 < 256) by (apply Z.mod_pos_bound; lia).
  destruct (Byte.of_N (Z.to_N (z mod 256))) as [b|] eqn:E.
  - apply Byte.to_of_N in E. rewrite E. lia.
  - apply Byte.of_N_None_iff in E. lia.
Qed.

Lemma byte_of_to_Z (b : byte) : byte_of_Z (byte_to_Z b) = b.
Proof.
  unfold byte_of_Z, byte_to_Z.
  pose proof (Byte.to_N_bounded b) as Hb.
  rewrite Z.mod_small by lia.
  rewrite N2Z.id, Byte.of_to_N. reflexivity.
Qed.

Lemma le_encode_length (n : nat) (z : Z) : length (le_encode n z) = n.
Proof. revert z. induction n as [|n IH]; intros z; simpl; [|rewrite IH]; reflexivity. Qed.

Lemma le_decode_encode (n : nat) (z : Z) :
  le_decode (le_encode n z) = z mod 256 ^ Z.of_nat n.
Proof.
  revert z. induction n as [|n IH]; intros z.
  - simpl. rewrite Z.mod_1_r. reflexivity.
  - cbn [le_encode le_decode]. rewrite IH, byte_to_of_Z.
    rewrite Nat2Z.inj_succ, Z.pow_succ_r by lia.
    rewrite (Z.rem_mul_r z 256 (256 ^ Z.of_nat n)) by lia.
    reflexivity.
Qed.

Lemma le_decode_u32 (z : Z) : u32 (le_decode (le_encode 4 z)) = u32 z.
Proof.
  rewrite le_decode_encode. unfold u32.
  change (256 ^ Z.of_nat 4) with (2 ^ 32). apply Z.mod_mod. lia.
Qed.

Lemma le_decode_s32 (z : Z) : s32 (le_decode (le_encode 4 z)) = s32 z.
Proof.
  rewrite le_decode_encode. unfold s32.
  change (256 ^ Z.of_nat 4) with (2 ^ 32).
  rewrite Zplus_mod_idemp_l. reflexivity.
Qed.

Lemma u32_range (z : Z) : 0 <= u32 z < 2 ^ 32.
Proof. unfold u32. apply Z.mod_pos_bound. lia. Qed.

Lemma s32_range (z : Z) : - 2 ^ 31 <= s32 z < 2 ^ 31.
Proof. unfold s32. pose proof (Z.mod_pos_bound (z + 2 ^ 31) (2 ^ 32)). lia. Qed.

Lemma u32_idem (z : Z) : u32 (u32 z) = u32 z.
Proof. unfold u32. apply Z.mod_mod. lia. Qed.

Lemma s32_idem (z : Z) : s32 (s32 z) = s32 z.
Proof.
  unfold s32. replace ((z + 2 ^ 31) mod 2 ^ 32 - 2 ^ 31 + 2 ^ 31)
    with ((z + 2 ^ 31) mod 2 ^ 32) by lia.
  rewrite Z.mod_mod by lia. reflexivity.
Qed.

Lemma overlay_full (got old : list byte) :
  length got = length old -> overlay got old = got.
Proof.
  intros H. unfold overlay. rewrite H, drop_all. apply app_nil_r.
Qed.

Lemma overlay_length (got old : list byte) :
  (length got <= length old)%nat -> length (overlay got old) = length old.
Proof.
  intros H. unfold overlay. rewrite length_app, length_drop. lia.
Qed.

End Int32_facts.


(** ** The trace discipline *)

Section Emits.

Context {D : Type} (drv : Driver D).
Variable P : Event -> Prop.

Lemma emits_events_of {A} (Q : A -> Prop) (m : M (D:=D) A) (w : World) :
  emits P Q m -> Forall P (events_of m w).
Proof.
  intros H. destruct (H w) as (evs & HP & Ht). unfold events_of.
  destruct (m w); [destruct Ht as [Ht _]|]; rewrite Ht, drop_app_length; exact HP.
Qed.

Lemma emits_weaken {A} (Q Q' : A -> Prop) (m : M (D:=D) A) :
  emits P Q m -> (forall a, Q a -> Q' a) -> emits P Q' m.
Proof.
  intros H HQ w. destruct (H w) as (evs & HP & Ht). exists evs. split; [exact HP|].
  destruct (m w); [|exact Ht]. destruct Ht; split; auto.
Qed.

Lemma emits_ret {A} (Q : A -> Prop) (a : A) : Q a -> emits P Q (mret (M:=M (D:=D)) a).
Proof.
  intros HQ w. exists []. split; [constructor|]. cbn. split; [|exact HQ].
  symmetry. apply app_nil_r.
Qed.

Lemma emits_undefined {A} (Q : A -> Prop) : emits P Q (undefined (D:=D) (A:=A)).
Proof. intros w. exists []. split; [constructor|]. cbn. symmetry. apply app_nil_r. Qed.

Lemma emits_bind {A B} (Q : A -> Prop) (R : B -> Prop)
      (m : M (D:=D) A) (k : A -> M (D:=D) B) :
  emits P Q m -> (forall a, Q a -> emits P R (k a)) -> emits P R (mbind k m).
Proof.
  intros Hm Hk w. destruct (Hm w) as (e1 & HP1 & Ht1).
  unfold mbind, M_bind. destruct (m w) as [a w1|w1].
  - destruct Ht1 as [Ht1 HQ].
    destruct (Hk a HQ w1) as (e2 & HP2 & Ht2). exists (e1 ++ e2). split.
    + apply Forall_app; split; assumption.
    + destruct (k a w1); [destruct Ht2 as [Ht2 HR]; split; [|exact HR]|];
        rewrite Ht2, Ht1, app_assoc; reflexivity.
  - exists e1. split; assumption.
Qed.

Lemma emits_cout (line : list Tok) : P (E_cout line) -> emits P any (cout (D:=D) line).
Proof.
  intros HP w. exists [E_cout line].
  split; [repeat constructor; exact HP|split; [reflexivity|exact I]].
Qed.

Lemma emits_query {A} (f : D -> A * D) (conv : A -> A) (ev : A -> Event) :
  (forall a, P (ev a)) -> emits P any (query f conv ev).
Proof.
  intros HP w. unfold query. destruct (f (gl w)) as [a d].
  exists [ev (conv a)]. split; [repeat constructor; apply HP|split; [reflexivity|exact I]].
Qed.

Lemma emits_command (f : D -> D) (ev : Event) : P ev -> emits P any (command f ev).
Proof.
  intros HP w. exists [ev].
  split; [repeat constructor; exact HP|split; [reflexivity|exact I]].
Qed.

Lemma emits_ofstream_open (path : string) :
  (forall ok, P (E_open_out path ok)) ->
  emits P (fun f => of_path f = path) (ofstream_open (D:=D) path).
Proof.
  intros HP w. unfold ofstream_open. destruct (bool_decide _).
  - exists [E_open_out path false]. split; [repeat constructor; apply HP|split; reflexivity].
  - exists [E_open_out path true]. split; [repeat constructor; apply HP|split; reflexivity].
Qed.

Lemma emits_ofstream_write (f : ofstream) (bytes : list byte) :
  (forall put, P (E_write (of_path f) put)) ->
  emits P (fun f' => of_path f' = of_path f) (ofstream_write (D:=D) f bytes).
Proof.
  intros HP w. unfold ofstream_write. destruct (of_good f).
  - eexists [_]. split; [repeat constructor; apply HP|split; reflexivity].
  - exists []. split; [constructor|]. cbn. split; [|reflexivity].
    symmetry. apply app_nil_r.
Qed.

Lemma emits_ofstream_write_n (f : ofstream) (buf : list byte) (n : Z) :
  (forall put, P (E_write (of_path f) put)) ->
  emits P (fun f' => of_path f' = of_path f) (ofstream_write_n (D:=D) f buf n).
Proof.
  intros HP. unfold ofstream_write_n. destruct (of_good f) eqn:Hg.
  - destruct (_ && _).
    + apply emits_ofstream_write, HP.
    + apply emits_undefined.
  - apply emits_ret. reflexivity.
Qed.

Lemma emits_ofstream_close (f : ofstream) :
  P (E_close_out (of_path f)) ->
  emits P (fun f' => of_path f' = of_path f) (ofstream_close (D:=D) f).
Proof.
  intros HP w. unfold ofstream_close. destruct (of_open f).
  - eexists [_]. split; [repeat constructor; apply HP|split; reflexivity].
  - exists []. split; [constructor|]. cbn. split; [|reflexivity].
    symmetry. apply app_nil_r.
Qed.

Lemma emits_ifstream_open (path : string) :
  (forall ok, P (E_open_in path ok)) ->
  emits P (fun f => if_path f = path) (ifstream_open (D:=D) path).
Proof.
  intros HP w. unfold ifstream_open. destruct (_ !! _).
  - eexists [_]. split; [repeat constructor; apply HP|split; reflexivity].
  - eexists [_]. split; [repeat constructor; apply HP|split; reflexivity].
Qed.

Lemma emits_ifstream_read (f : ifstream) (n : Z) :
  (forall got, P (E_read (if_path f) n got)) ->
  emits P (fun r => if_path (snd r) = if_path f) (ifstream_read (D:=D) f n).
Proof.
  intros HP w. unfold ifstream_read. destruct (if_good f).
  - eexists [_]. split; [repeat constructor; apply HP|split; reflexivity].
  - eexists [_]. split; [repeat constructor; apply HP|split; reflexivity].
Qed.

Lemma emits_ifstream_close (f : ifstream) :
  P (E_close_in (if_path f)) ->
  emits P (fun f' => if_path f' = if_path f) (ifstream_close (D:=D) f).
Proof.
  intros HP w. unfold ifstream_close. destruct (if_open f).
  - eexists [_]. split; [repeat constructor; apply HP|split; reflexivity].
  - exists []. split; [constructor|]. cbn. split; [|reflexivity].
    symmetry. apply app_nil_r.
Qed.

End Emits.

(** Syntax-directed proof of [emits P Q m]; [tac] settles that [P] holds of
    each event. *)
Ltac emits_prim tac :=
  first
    [ apply emits_cout; tac
    | apply emits_query; intros; tac
    | apply emits_command; tac
    | apply emits_ofstream_open; intros; tac
    | apply emits_ofstream_write; intros; tac
    | apply emits_ofstream_write_n; intros; tac
    | apply emits_ofstream_close; tac
    | apply emits_ifstream_open; intros; tac
    | apply emits_ifstream_read; intros; tac
    | apply emits_ifstream_close; tac ].

Ltac emits_go tac :=
  cbv zeta;
  lazymatch goal with
  | |- emits _ _ (mbind _ _) =>
      first
        [ eapply emits_bind; [solve [emits_prim tac] | cbv beta; intros ? ?; emits_go tac]
        | eapply (emits_bind _ any); [emits_go tac | cbv beta; intros ? _; emits_go tac] ]
  | |- emits _ _ (mret _) => apply emits_ret; first [exact I | reflexivity | assumption | idtac]
  | |- emits _ _ undefined => apply emits_undefined
  | |- emits _ _ (if ?b then _ else _) => destruct b; emits_go tac
  | |- emits _ _ (match ?x with pair _ _ => _ end) => destruct x; cbn [fst snd] in *; emits_go tac
  | |- emits _ _ (match ?x with Some _ => _ | None => _ end) => destruct x; emits_go tac
  | |- _ =>
      first
        [ solve [emits_prim tac]
        | eapply emits_weaken; [solve [emits_prim tac] | cbv beta; intros; exact I]
        | assumption
        | solve [auto]
        | eapply emits_weaken; [eassumption | cbv beta; intros; exact I] ]
  end.

(** ** Invariants of the world *)

Section Keeps.

Context {D : Type} (drv : Driver D).
Variable Inv : World (D:=D) -> Prop.
Hypothesis I_emit : forall e w, Inv w -> Inv (emit e w).
Hypothesis I_gl : forall d w, Inv w -> Inv (set_gl d w).

Lemma keeps_weaken {A} (Q Q' : A -> Prop) (m : M (D:=D) A) :
  keeps Inv Q m -> (forall a, Q a -> Q' a) -> keeps Inv Q' m.
Proof.
  intros H HQ w Hw. specialize (H w Hw). destruct (m w); [|exact H].
  destruct H; split; auto.
Qed.

Lemma keeps_ret {A} (Q : A -> Prop) (a : A) : Q a -> keeps Inv Q (mret (M:=M (D:=D)) a).
Proof. intros HQ w Hw. cbn. split; assumption. Qed.

Lemma keeps_undefined {A} (Q : A -> Prop) : keeps Inv Q (undefined (D:=D) (A:=A)).
Proof. intros w Hw. exact Hw. Qed.

Lemma keeps_bind {A B} (Q : A -> Prop) (R : B -> Prop)
      (m : M (D:=D) A) (k : A -> M (D:=D) B) :
  keeps Inv Q m -> (forall a, Q a -> keeps Inv R (k a)) -> keeps Inv R (mbind k m).
Proof.
  intros Hm Hk w Hw. specialize (Hm w Hw). unfold mbind, M_bind.
  destruct (m w) as [a w1|w1]; [|exact Hm].
  destruct Hm as [Hw1 HQ]. exact (Hk a HQ w1 Hw1).
Qed.

Lemma keeps_cout (line : list Tok) : keeps Inv any (cout (D:=D) line).
Proof. intros w Hw. split; [apply I_emit, Hw|exact I]. Qed.

Lemma keeps_query {A} (f : D -> A * D) (conv : A -> A) (ev : A -> Event) :
  keeps Inv any (query f conv ev).
Proof.
  intros w Hw. unfold query. destruct (f (gl w)) as [a d].
  split; [apply I_emit, I_gl, Hw|exact I].
Qed.

Lemma keeps_command (f : D -> D) (ev : Event) : keeps Inv any (command f ev).
Proof. intros w Hw. split; [apply I_emit, I_gl, Hw|exact I]. Qed.

Lemma keeps_ifstream_open (path : string) :
  keeps Inv (fun f => if_path f = path) (ifstream_open (D:=D) path).
Proof.
  intros w Hw. unfold ifstream_open.
  destruct (_ !! _); (split; [apply I_emit, Hw|reflexivity]).
Qed.

Lemma keeps_ifstream_read (f : ifstream) (n : Z) :
  keeps Inv (fun r => if_path (snd r) = if_path f) (ifstream_read (D:=D) f n).
Proof.
  intros w Hw. unfold ifstream_read.
  destruct (if_good f); (split; [apply I_emit, Hw|reflexivity]).
Qed.

Lemma keeps_ifstream_close (f : ifstream) :
  keeps Inv (fun f' => if_path f' = if_path f) (ifstream_close (D:=D) f).
Proof.
  intros w Hw. unfold ifstream_close.
  destruct (if_open f); (split; [first [apply I_emit, Hw | exact Hw]|reflexivity]).
Qed.

Lemma keeps_ofstream_open (path : string) :
  survives Inv path ->
  keeps Inv (fun f => of_path f = path) (ofstream_open (D:=D) path).
Proof.
  intros HI w Hw. unfold ofstream_open. destruct (bool_decide _).
  - split; [apply I_emit, Hw|reflexivity].
  - split; [|reflexivity]. apply I_emit, HI; [exact Hw|].
    split; [|reflexivity]. intros p Hp. cbn. apply lookup_insert_ne. congruence.
Qed.

Lemma keeps_ofstream_write (f : ofstream) (bytes : list byte) :
  survives Inv (of_path f) ->
  keeps Inv (fun f' => of_path f' = of_path f) (ofstream_write (D:=D) f bytes).
Proof.
  intros HI w Hw. unfold ofstream_write. destruct (of_good f).
  - split; [|reflexivity]. apply I_emit, HI; [exact Hw|].
    split; [|reflexivity]. intros p Hp. cbn. apply lookup_insert_ne. congruence.
  - split; [exact Hw|reflexivity].
Qed.

Lemma keeps_ofstream_write_n (f : ofstream) (buf : list byte) (n : Z) :
  survives Inv (of_path f) ->
  keeps Inv (fun f' => of_path f' = of_path f) (ofstream_write_n (D:=D) f buf n).
Proof.
  intros HI. unfold ofstream_write_n. destruct (of_good f).
  - destruct (_ && _).
    + apply keeps_ofstream_write, HI.
    + apply keeps_undefined.
  - apply keeps_ret. reflexivity.
Qed.

Lemma keeps_ofstream_close (f : ofstream) :
  keeps Inv (fun f' => of_path f' = of_path f) (ofstream_close (D:=D) f).
Proof.
  intros w Hw. unfold ofstream_close.
  destruct (of_open f); (split; [first [apply I_emit, Hw | exact Hw]|reflexivity]).
Qed.

End Keeps.

(** Syntax-directed proof of [keeps I Q m]; [tac] settles [survives]. *)
Ltac keeps_prim He Hg tac :=
  first
    [ apply (keeps_cout _ He)
    | apply (keeps_query _ He Hg)
    | apply (keeps_command _ He Hg)
    | apply (keeps_ifstream_open _ He)
    | apply (keeps_ifstream_read _ He)
    | apply (keeps_ifstream_close _ He)
    | apply (keeps_ofstream_open _ He); tac
    | apply (keeps_ofstream_write _ He); tac
    | apply (keeps_ofstream_write_n _ He); tac
    | apply (keeps_ofstream_close _ He) ].

Ltac keeps_go He Hg tac :=
  cbv zeta;
  lazymatch goal with
  | |- keeps _ _ (mbind _ _) =>
      first
        [ eapply keeps_bind;
          [solve [keeps_prim He Hg tac] | cbv beta; intros ? ?; keeps_go He Hg tac]
        | eapply (keeps_bind _ any);
          [keeps_go He Hg tac | cbv beta; intros ? _; keeps_go He Hg tac] ]
  | |- keeps _ _ (mret _) => apply keeps_ret; first [exact I | reflexivity | assumption]
  | |- keeps _ _ undefined => apply keeps_undefined
  | |- keeps _ _ (if ?b then _ else _) => destruct b; keeps_go He Hg tac
  | |- keeps _ _ (match ?x with pair _ _ => _ end) =>
      destruct x; cbn [fst snd] in *; keeps_go He Hg tac
  | |- keeps _ _ (match ?x with Some _ => _ | None => _ end) =>
      destruct x; keeps_go He Hg tac
  | |- _ =>
      first
        [ solve [keeps_prim He Hg tac]
        | eapply keeps_weaken; [solve [keeps_prim He Hg tac] | cbv beta; intros; exact I]
        | solve [auto]
        | eapply keeps_weaken; [solve [eauto] | cbv beta; intros; exact I] ]
  end.

(** ** Running the program *)

Section Proofs.

Context {D : Type} (drv : Driver D).
Variables (indet_binaryFormat indet_length : Z).

Ltac unfold_gl :=
  unfold glGetIntegerv, glGetProgramiv, glGetProgramBinary, glGetError,
    glCreateProgram, glProgramBinary, glDeleteProgram, glGetProgramInfoLog,
    glCreateShader, glShaderSource, glCompileShader, glGetShaderiv,
    glGetShaderInfoLog, glDeleteShader, glAttachShader, glLinkProgram in *.

Ltac unfold_m :=
  unfold_gl; unfold query, command, cout, undefined, mbind, mret, M_bind, M_ret in *.

(** [drop (length t) (((t ++ [a]) ++ [b]) ++ ...)] *)
Ltac norm_trace :=
  cbn [trace emit set_gl set_disk set_binarySupported gl disk binarySupported] in *;
  rewrite <- ?app_assoc in *; rewrite ?drop_app_length in *; cbn [app] in *.

Ltac simpl_io H :=
  cbn [of_path of_open of_good if_path if_open if_good if_rest if_gcount
       disk gl trace binarySupported emit set_disk set_gl set_binarySupported
       files readonly room] in H.

Lemma run_bind {A B} (m : M (D:=D) A) (k : A -> M (D:=D) B) w a w' :
  m w = Returns a w' -> mbind k m w = k a w'.
Proof. intros H. unfold mbind, M_bind. rewrite H. reflexivity. Qed.

Lemma run_query {A} (f : D -> A * D) (conv : A -> A) (ev : A -> Event) w a d :
  f (gl w) = (a, d) ->
  query f conv ev w = Returns (conv a) (emit (ev (conv a)) (set_gl d w)).
Proof. intros H. unfold query. rewrite H. reflexivity. Qed.

Lemma run_cout {B} (line : list Tok) (k : unit -> M (D:=D) B) w :
  mbind k (cout line) w = k tt (emit (E_cout line) w).
Proof. reflexivity. Qed.

Lemma run_ret {A B} (a : A) (k : A -> M (D:=D) B) w : mbind k (mret a) w = k a w.
Proof. reflexivity. Qed.

Lemma run_command {B} (f : D -> D) (ev : Event) (k : unit -> M (D:=D) B) w :
  mbind k (command f ev) w = k tt (emit ev (set_gl (f (gl w)) w)).
Proof. reflexivity. Qed.

Lemma run_assoc {A B C} (m : M (D:=D) A) (g : A -> M (D:=D) B) (k : B -> M (D:=D) C) w :
  mbind k (mbind g m) w = mbind (fun a => mbind k (g a)) m w.
Proof. unfold mbind, M_bind. destruct (m w); reflexivity. Qed.

Lemma checkProgramBinarySupport_run (w : World) :
  checkProgramBinarySupport drv w =
  Returns (negb (reported_formats drv w <? 1))
    (emit (E_cout (probe_line drv (reported_formats drv w)))
       (emit (E_glGetIntegerv GL_NUM_PROGRAM_BINARY_FORMATS (reported_formats drv w))
          (set_gl (snd (drv_glGetIntegerv drv (gl w) GL_NUM_PROGRAM_BINARY_FORMATS)) w))).
Proof.
  unfold checkProgramBinarySupport, reported_formats, probe_line. unfold_m.
  destruct (drv_glGetIntegerv drv (gl w) GL_NUM_PROGRAM_BINARY_FORMATS) as [v d].
  cbn [fst snd].
  destruct (s32 v <? 1); [reflexivity|].
  destruct (drv_glGetProgramBinary_loaded drv); reflexivity.
Qed.

(** C5.  [checkProgramBinarySupport] returns [false] exactly when the driver
    reports fewer than one binary format.  With at least one format and the
    pointer [glGetProgramBinary] null it still returns [true], and that is
    the one case in which it prints the line about the missing function. *)
Theorem checkProgramBinarySupport_asymmetry (w : World) :
  let formats := reported_formats drv w in
  let evs := events_of (checkProgramBinarySupport drv) w in
  let warning := E_cout [Str "glGetProgramBinary function not available"] in
  exists b, result_of (checkProgramBinarySupport drv) w = Some b /\
    (b = false <-> formats < 1) /\
    (1 <= formats -> drv_glGetProgramBinary_loaded drv = false ->
     b = true /\ In warning evs) /\
    (In warning evs -> 1 <= formats /\ drv_glGetProgramBinary_loaded drv = false).
Proof.
  cbn zeta. unfold events_of, result_of.
  rewrite checkProgramBinarySupport_run. norm_trace.
  eexists; split; [reflexivity|]. unfold probe_line.
  destruct (Z.ltb_spec (reported_formats drv w) 1) as [Hlt|Hge]; cbn [negb].
  - split; [split; [intros _; exact Hlt|reflexivity]|]. split.
    + intros ?; lia.
    + intros [H|[H|[]]]; discriminate H.
  - split; [split; [discriminate|intros ?; lia]|]. split.
    + intros _ ->. split; [reflexivity|]. right; left; reflexivity.
    + destruct (drv_glGetProgramBinary_loaded drv).
      * intros [H|[H|[]]]; discriminate H.
      * intros _. split; [exact Hge|reflexivity].
Qed.

(** C7.  [saveProgramBinary] checks, in this order: the handle is not zero;
    the driver reports the program linked; the capability probe succeeds;
    the queried binary length is positive.  Each failed check returns
    [false] with a line of its own; the final world of each case shows what
    was done before: nothing, the link-status query, then the probe, then
    the length query. *)
Theorem saveProgramBinary_preconditions (program : Z) (filename : string) (w : World) :
  let save := saveProgramBinary drv program filename in
  let invalid := [Str "Invalid program object"] in
  let not_linked := [Str "Program is not successfully linked"] in
  let unsupported := [Str "Program binary not supported, cannot save"] in
  let bad_length := fun len => [Str "Program binary length is 0 or invalid: "; Num len] in
  (program = 0 -> save w = Returns false (emit (E_cout invalid) w)) /\
  (forall ls d1,
     program <> 0 ->
     drv_glGetProgramiv drv (gl w) program GL_LINK_STATUS = (ls, d1) ->
     let w1 := emit (E_glGetProgramiv program GL_LINK_STATUS (s32 ls)) (set_gl d1 w) in
     (s32 ls <> GL_TRUE -> save w = Returns false (emit (E_cout not_linked) w1)) /\
     (s32 ls = GL_TRUE ->
      forall b w2,
        checkProgramBinarySupport drv w1 = Returns b w2 ->
        (b = false -> save w = Returns false (emit (E_cout unsupported) w2)) /\
        (b = true ->
         forall len d3,
           drv_glGetProgramiv drv (gl w2) program GL_PROGRAM_BINARY_LENGTH = (len, d3) ->
           s32 len <= 0 ->
           save w = Returns false
                      (emit (E_cout (bad_length (s32 len)))
                         (emit (E_glGetProgramiv program GL_PROGRAM_BINARY_LENGTH (s32 len))
                            (set_gl d3 w2)))))) /\
  (forall len, NoDup [invalid; not_linked; unsupported; bad_length len]).
Proof.
  cbn zeta. split; [|split].
  - intros ->. reflexivity.
  - intros ls d1 Hp Hls. apply Z.eqb_neq in Hp.
    unfold saveProgramBinary. rewrite Hp. unfold_gl.
    rewrite (run_bind _ _ _ _ _ (run_query _ _ _ _ _ _ Hls)).
    split.
    + intros Hne. apply Z.eqb_neq in Hne. rewrite Hne. reflexivity.
    + intros Heq b w2 Hb. rewrite Heq in Hb |- *. rewrite Z.eqb_refl. cbn [negb].
      rewrite (run_bind _ _ _ _ _ Hb). split.
      * intros ->. reflexivity.
      * intros -> len d3 Hlen Hle. cbn [negb].
        rewrite (run_bind _ _ _ _ _ (run_query _ _ _ _ _ _ Hlen)).
        apply Z.leb_le in Hle. rewrite Hle. reflexivity.
  - intros len. rewrite !NoDup_cons, !not_elem_of_cons.
    repeat split; try discriminate; try apply not_elem_of_nil. apply NoDup_nil_2.
Qed.

Lemma retrieved_buffer_length (bufSize : Z) (r : ProgramBinary) :
  length (retrieved_buffer bufSize r) = Z.to_nat bufSize.
Proof.
  unfold retrieved_buffer, overlay.
  rewrite length_take, length_app, length_drop, length_replicate. lia.
Qed.

(** What a successful save has gone through. *)
Lemma saveProgramBinary_true_inv (program : Z) (filename : string) (w w1 : World) :
  saveProgramBinary drv program filename w = Returns true w1 ->
  exists ls d1 wp len d3 r d4 e d5,
    program <> 0 /\
    drv_glGetProgramiv drv (gl w) program GL_LINK_STATUS = (ls, d1) /\
    s32 ls = GL_TRUE /\
    checkProgramBinarySupport drv
      (emit (E_glGetProgramiv program GL_LINK_STATUS (s32 ls)) (set_gl d1 w))
      = Returns true wp /\
    drv_glGetProgramiv drv (gl wp) program GL_PROGRAM_BINARY_LENGTH = (len, d3) /\
    0 < s32 len /\
    drv_glGetProgramBinary_loaded drv = true /\
    drv_glGetProgramBinary drv d3 program (s32 len) = (r, d4) /\
    drv_glGetError drv d4 = (e, d5) /\
    u32 e = GL_NO_ERROR /\
    0 < s32 (pb_length r) <= s32 len /\
    let n := s32 (pb_length r) in
    let payload := take (Z.to_nat n) (retrieved_buffer (s32 len) r) in
    let b1 := le_encode 4 (u32 (pb_format r)) in
    let b2 := le_encode 4 n in
    gl w1 = d5 /\
    files (disk w1) = <[filename := b1 ++ b2 ++ payload]> (files (disk w)) /\
    trace w1 = trace wp ++
      [E_glGetProgramiv program GL_PROGRAM_BINARY_LENGTH (s32 len);
       E_cout [Str "Program binary length: "; Num (s32 len); Str " bytes"];
       E_glGetProgramBinary program (s32 len) (conv_binary r);
       E_glGetError (u32 e)] ++
      (if n =? s32 len then []
       else [E_cout [Str "Warning: Actual binary length ("; Num n;
                     Str ") differs from reported length ("; Num (s32 len);
                     Str ")"]]) ++
      [E_open_out filename true;
       E_write filename b1; E_write filename b2; E_write filename payload;
       E_close_out filename;
       E_cout [Str "Program binary saved successfully: "; Str filename;
               Str " (format: "; Num (u32 (pb_format r)); Str ", size: "; Num n;
               Str " bytes)"]].
Proof.
  intros H. unfold saveProgramBinary in H.
  destruct (program =? 0) eqn:Hp; [discriminate|]. apply Z.eqb_neq in Hp.
  unfold_gl.
  destruct (drv_glGetProgramiv drv (gl w) program GL_LINK_STATUS) as [ls d1] eqn:Hls.
  rewrite (run_bind _ _ _ _ _ (run_query _ _ _ _ _ _ Hls)) in H.
  destruct (s32 ls =? GL_TRUE) eqn:Hlink; [|discriminate]. cbn [negb] in H.
  apply Z.eqb_eq in Hlink.
  rewrite (run_bind _ _ _ _ _ (checkProgramBinarySupport_run _)) in H.
  destruct (reported_formats _ _ <? 1) eqn:Hf; [discriminate|]. cbn [negb] in H.
  pose proof (checkProgramBinarySupport_run
    (emit (E_glGetProgramiv program GL_LINK_STATUS (s32 ls)) (set_gl d1 w))) as Hprobe.
  rewrite Hf in Hprobe. cbn [negb] in Hprobe.
  match type of Hprobe with _ = Returns true ?x => set (wp := x) in * end.
  destruct (drv_glGetProgramiv drv (gl wp) program GL_PROGRAM_BINARY_LENGTH)
    as [len d3] eqn:Hlen.
  rewrite (run_bind _ _ _ _ _ (run_query _ _ _ _ _ _ Hlen)) in H.
  destruct (Z.leb_spec (s32 len) 0) as [|Hpos]; [discriminate|].
  rewrite run_cout in H.
  destruct (drv_glGetProgramBinary_loaded drv) eqn:Hloaded; [|discriminate].
  destruct (drv_glGetProgramBinary drv d3 program (s32 len)) as [r d4] eqn:Hbin.
  rewrite (run_bind _ _ _ (conv_binary r)
             (emit (E_glGetProgramBinary program (s32 len) (conv_binary r))
                (set_gl d4 (emit (E_cout [Str "Program binary length: ";
                                          Num (s32 len); Str " bytes"])
                   (emit (E_glGetProgramiv program GL_PROGRAM_BINARY_LENGTH (s32 len))
                      (set_gl d3 wp)))))) in H
    by (apply run_query; exact Hbin).
  destruct (drv_glGetError drv d4) as [e d5] eqn:Herr.
  erewrite run_bind in H by (apply run_query; exact Herr).
  destruct (u32 e =? GL_NO_ERROR) eqn:He; [|discriminate]. cbn [negb] in H.
  apply Z.eqb_eq in He.
  cbn [conv_binary pb_length pb_format pb_bytes] in H.
  exists ls, d1, wp, len, d3, r, d4, e, d5.
  do 10 (split; [first [assumption | reflexivity]|]).
  fold (retrieved_buffer (s32 len) r) in H.
  match type of H with (_ ≫= ?k) ?x = _ => set (w5 := x) in *; set (kont := k) in * end.
  assert (Htail : exists w6,
            gl w6 = d5 /\ disk w6 = disk w /\
            trace w6 = trace wp ++
              [E_glGetProgramiv program GL_PROGRAM_BINARY_LENGTH (s32 len);
               E_cout [Str "Program binary length: "; Num (s32 len); Str " bytes"];
               E_glGetProgramBinary program (s32 len) (conv_binary r);
               E_glGetError (u32 e)] ++
              (if s32 (pb_length r) =? s32 len then []
               else [E_cout [Str "Warning: Actual binary length (";
                             Num (s32 (pb_length r));
                             Str ") differs from reported length (";
                             Num (s32 len); Str ")"]]) /\
            kont tt w6 = Returns true w1).
  { destruct (s32 (pb_length r) =? s32 len); cbn [negb] in H.
    - exists w5. rewrite run_ret in H. subst w5 wp. norm_trace. repeat split. exact H.
    - rewrite run_cout in H. eexists (emit _ w5). subst w5 wp. norm_trace.
      repeat split. exact H. }
  clear H. destruct Htail as (w6 & Hg6 & Hd6 & Ht6 & H). subst kont. cbv beta in H.
  destruct (Z.eqb_spec (s32 (pb_length r)) 0) as [|Hn0]; [discriminate|].
  unfold mbind at 1, M_bind at 1, ofstream_open at 1 in H.
  destruct (bool_decide (filename ∈ readonly (disk w6))) eqn:Hro; [discriminate|].
  cbn [of_open negb] in H.
  unfold mbind at 1, M_bind at 1, ofstream_write at 1 in H. simpl_io H.
  rewrite lookup_insert_eq, insert_insert_eq in H.
  cbn [default from_option id app] in H.
  destruct (bool_decide (length (le_encode 4 (u32 (pb_format r))) <= room (disk w6))%nat)
    eqn:Hw1; [|discriminate].
  apply bool_decide_eq_true in Hw1. rewrite (take_ge _ _ Hw1) in H.
  unfold mbind at 1, M_bind at 1, ofstream_write at 1 in H. simpl_io H.
  rewrite lookup_insert_eq, insert_insert_eq in H.
  cbn [default from_option id app] in H.
  match type of H with context [bool_decide ?P] =>
    destruct (bool_decide P) eqn:Hw2; [|discriminate] end.
  apply bool_decide_eq_true in Hw2. rewrite (take_ge _ _ Hw2) in H.
  unfold mbind at 1, M_bind at 1, ofstream_write_n at 1 in H. simpl_io H.
  rewrite retrieved_buffer_length in H.
  destruct ((0 <=? s32 (pb_length r)) && (s32 (pb_length r) <=? Z.of_nat (Z.to_nat (s32 len))))
    eqn:Hbounds; [|discriminate].
  apply andb_true_iff in Hbounds. destruct Hbounds as [Hb0 Hb1].
  apply Z.leb_le in Hb0, Hb1.
  unfold ofstream_write at 1 in H. simpl_io H.
  rewrite lookup_insert_eq, insert_insert_eq in H.
  cbn [default from_option id app] in H.
  match type of H with context [bool_decide ?P] =>
    destruct (bool_decide P) eqn:Hw3; [|discriminate] end.
  apply bool_decide_eq_true in Hw3. rewrite (take_ge _ _ Hw3) in H.
  unfold mbind, M_bind, ofstream_close, cout, mret, M_ret in H. simpl_io H.
  cbn [negb] in H. injection H as <-. simpl_io Ht6.
  cbn [gl disk trace emit set_disk set_gl files].
  split; [lia|]. split; [exact Hg6|]. split.
  - rewrite Hd6. reflexivity.
  - rewrite Ht6, <- !app_assoc. reflexivity.
Qed.

(** [saveProgramBinary] returns, provided the pointer it calls through is
    loaded and the driver respects the buffer. *)
Lemma saveProgramBinary_returns (program : Z) (filename : string) (w : World) :
  drv_glGetProgramBinary_loaded drv = true ->
  respects_buffer drv ->
  exists b w', saveProgramBinary drv program filename w = Returns b w'.
Proof.
  intros Hloaded Hbuf. unfold saveProgramBinary.
  destruct (program =? 0); [eauto|].
  unfold_gl. rewrite Hloaded.
  destruct (drv_glGetProgramiv drv (gl w) program GL_LINK_STATUS) as [ls d1] eqn:Hls.
  rewrite (run_bind _ _ _ _ _ (run_query _ _ _ _ _ _ Hls)).
  destruct (s32 ls =? GL_TRUE); cbn [negb]; [|eauto].
  rewrite (run_bind _ _ _ _ _ (checkProgramBinarySupport_run _)).
  destruct (reported_formats _ _ <? 1); cbn [negb]; [eauto|].
  match goal with |- context [(query ?f s32 ?ev ≫= _) ?x] =>
    destruct (f (gl x)) as [len d3] eqn:Hlen end.
  rewrite (run_bind _ _ _ _ _ (run_query _ _ _ _ _ _ Hlen)).
  destruct (Z.leb_spec (s32 len) 0) as [|Hpos]; [eauto|].
  rewrite run_cout.
  destruct (drv_glGetProgramBinary drv d3 program (s32 len)) as [r d4] eqn:Hbin.
  erewrite run_bind by (apply run_query; exact Hbin).
  destruct (drv_glGetError drv d4) as [e d5] eqn:Herr.
  erewrite run_bind by (apply run_query; exact Herr).
  destruct (u32 e =? GL_NO_ERROR); cbn [negb]; [|eauto].
  cbn [conv_binary pb_length pb_format pb_bytes].
  fold (retrieved_buffer (s32 len) r).
  assert (Hin : (0 <=? s32 (pb_length r))
                && (s32 (pb_length r) <=? Z.of_nat (length (retrieved_buffer (s32 len) r)))
                = true).
  { pose proof (Hbuf _ _ _ _ _ Hpos Hbin). rewrite retrieved_buffer_length.
    apply andb_true_iff. split; apply Z.leb_le; lia. }
  unfold ofstream_write_n. rewrite Hin.
  unfold mbind, M_bind, cout, mret, M_ret, ofstream_open, ofstream_write, ofstream_close.
  repeat match goal with
         | |- context [if ?b then _ else _] => destruct b; cbn [of_open of_good negb]
         end; eauto.
Qed.


Abbreviation load := (loadProgramBinary drv indet_binaryFormat indet_length).

Lemma run_ifstream_open {B} (path : string) (content : list byte)
      (k : ifstream -> M (D:=D) B) (w : World) :
  files (disk w) !! path = Some content ->
  mbind k (ifstream_open path) w =
  k {| if_path := path; if_open := true; if_good := true;
       if_rest := content; if_gcount := 0 |}
    (emit (E_open_in path true) w).
Proof. intros H. unfold mbind, M_bind, ifstream_open. rewrite H. reflexivity. Qed.

Lemma run_ifstream_read {B} (f : ifstream) (n : Z)
      (k : list byte * ifstream -> M (D:=D) B) (w : World) :
  if_good f = true ->
  mbind k (ifstream_read f n) w =
  k (take (Z.to_nat n) (if_rest f),
     {| if_path := if_path f; if_open := if_open f;
        if_good := bool_decide (Z.of_nat (length (take (Z.to_nat n) (if_rest f))) = n);
        if_rest := drop (Z.to_nat n) (if_rest f);
        if_gcount := Z.of_nat (length (take (Z.to_nat n) (if_rest f))) |})
    (emit (E_read (if_path f) n (take (Z.to_nat n) (if_rest f))) w).
Proof. intros H. unfold mbind, M_bind, ifstream_read. rewrite H. reflexivity. Qed.

Lemma run_ifstream_close {B} (f : ifstream) (k : ifstream -> M (D:=D) B) (w : World) :
  if_open f = true ->
  mbind k (ifstream_close f) w =
  k {| if_path := if_path f; if_open := false; if_good := if_good f;
       if_rest := if_rest f; if_gcount := if_gcount f |}
    (emit (E_close_in (if_path f)) w).
Proof. intros H. unfold mbind, M_bind, ifstream_close. rewrite H. reflexivity. Qed.

Lemma take_header (a b : list byte) : length a = 4%nat -> take (Z.to_nat 4) (a ++ b) = a.
Proof. intros H. change (Z.to_nat 4) with 4%nat. rewrite <- H. apply take_app_length. Qed.

Lemma drop_header (a b : list byte) : length a = 4%nat -> drop (Z.to_nat 4) (a ++ b) = b.
Proof. intros H. change (Z.to_nat 4) with 4%nat. rewrite <- H. apply drop_app_length. Qed.

Lemma overlay_header (a : list byte) (z : Z) :
  length a = 4%nat -> overlay a (le_encode 4 z) = a.
Proof. intros H. apply overlay_full. rewrite le_encode_length. exact H. Qed.

(** C9.  A cache file whose header declares a length that is zero or negative
    makes [loadProgramBinary] return 0, and the only reads it has made of the
    file are the two four-byte reads of the header (none at all when the
    probe already failed). *)
Theorem loadProgramBinary_rejects_nonpositive_length
        (filename : string) (w : World) (fmtb lenb rest : list byte) :
  files (disk w) !! filename = Some (fmtb ++ lenb ++ rest) ->
  length fmtb = 4%nat ->
  length lenb = 4%nat ->
  s32 (le_decode lenb) <= 0 ->
  result_of (load filename) w = Some 0 /\
  exists supported,
    result_of (checkProgramBinarySupport drv) w = Some supported /\
    filter is_file_event (events_of (load filename) w) =
      if supported
      then [E_open_in filename true; E_read filename 4 fmtb; E_read filename 4 lenb;
            E_close_in filename]
      else [].
Proof.
  intros Hfile Hf Hl Hle.
  unfold events_of, result_of. rewrite checkProgramBinarySupport_run.
  unfold loadProgramBinary.
  rewrite (run_bind _ _ _ _ _ (checkProgramBinarySupport_run _)).
  destruct (reported_formats drv w <? 1); cbn [negb].
  - rewrite run_cout. unfold mret, M_ret. norm_trace. split; [reflexivity|].
    exists false. split; reflexivity.
  - rewrite (run_ifstream_open _ (fmtb ++ lenb ++ rest)) by exact Hfile.
    cbn [if_open negb].
    rewrite run_ifstream_read by reflexivity. cbn [if_rest if_path if_open].
    rewrite (take_header _ _ Hf), (drop_header _ _ Hf), Hf.
    rewrite run_ifstream_read by (apply bool_decide_eq_true_2; reflexivity).
  cbn [if_rest if_path if_open].
  rewrite (take_header _ _ Hl), (drop_header _ _ Hl), Hl, (overlay_header _ _ Hl).
  apply Z.leb_le in Hle. rewrite Hle.
  rewrite run_cout. unfold mbind, M_bind, ifstream_close, mret, M_ret.
  cbn [if_open]. norm_trace. split; [reflexivity|].
  exists true. split; reflexivity.
Qed.

(** C8.  A cache file whose header declares a positive length larger than the
    number of bytes that follow makes [loadProgramBinary] return 0: no program
    object is created and nothing is submitted to the driver; when the probe
    passed, the third read came back short and the mismatch is reported. *)
Theorem loadProgramBinary_rejects_truncated
        (filename : string) (w : World) (fmtb lenb payload : list byte) :
  files (disk w) !! filename = Some (fmtb ++ lenb ++ payload) ->
  length fmtb = 4%nat ->
  length lenb = 4%nat ->
  0 < s32 (le_decode lenb) ->
  Z.of_nat (length payload) < s32 (le_decode lenb) ->
  let declared := s32 (le_decode lenb) in
  result_of (load filename) w = Some 0 /\
  Forall (fun e => is_create e = false /\ is_submission e = false)
         (events_of (load filename) w) /\
  exists supported,
    result_of (checkProgramBinarySupport drv) w = Some supported /\
    (supported = true ->
     events_of (load filename) w =
       events_of (checkProgramBinarySupport drv) w ++
       [E_open_in filename true; E_read filename 4 fmtb; E_read filename 4 lenb;
        E_read filename declared payload; E_close_in filename;
        E_cout [Str "File read incomplete. Expected: "; Num declared;
                Str ", Actual: "; Num (Z.of_nat (length payload))]]).
Proof.
  intros Hfile Hf Hl Hpos Hshort. cbn zeta.
  unfold events_of, result_of. rewrite checkProgramBinarySupport_run.
  unfold loadProgramBinary.
  rewrite (run_bind _ _ _ _ _ (checkProgramBinarySupport_run _)).
  destruct (reported_formats drv w <? 1); cbn [negb].
  - rewrite run_cout. unfold mret, M_ret. norm_trace. split; [reflexivity|].
    split; [repeat constructor|]. exists false. split; [reflexivity|discriminate].
  - rewrite (run_ifstream_open _ (fmtb ++ lenb ++ payload)) by exact Hfile.
    cbn [if_open negb].
    rewrite run_ifstream_read by reflexivity. cbn [if_rest if_path if_open].
    rewrite (take_header _ _ Hf), (drop_header _ _ Hf), Hf.
    rewrite run_ifstream_read by (apply bool_decide_eq_true_2; reflexivity).
    cbn [if_rest if_path if_open].
    rewrite (take_header _ _ Hl), (drop_header _ _ Hl), Hl, (overlay_header _ _ Hl).
    destruct (Z.leb_spec (s32 (le_decode lenb)) 0) as [|_]; [lia|].
    rewrite run_ifstream_read by (apply bool_decide_eq_true_2; reflexivity).
    cbn [if_rest if_path if_open].
    rewrite take_ge by lia.
    rewrite run_ifstream_close by reflexivity. cbn [if_open if_gcount if_path].
    destruct (Z.eqb_spec (Z.of_nat (length payload)) (s32 (le_decode lenb))) as [|_]; [lia|].
    cbn [negb]. rewrite run_cout. unfold mret, M_ret. norm_trace.
    split; [reflexivity|]. split; [repeat constructor|].
    exists true. split; reflexivity.
Qed.

Lemma run_ifstream_read_any {B} (f : ifstream) (n : Z)
      (k : list byte * ifstream -> M (D:=D) B) (w : World) :
  exists got f',
    mbind k (ifstream_read f n) w = k (got, f') (emit (E_read (if_path f) n got) w) /\
    if_open f' = if_open f /\ if_path f' = if_path f.
Proof.
  unfold mbind, M_bind, ifstream_read. destruct (if_good f); eauto.
Qed.

Lemma run_ifstream_close_any {B} (f : ifstream) (k : ifstream -> M (D:=D) B) (w : World) :
  if_open f = true ->
  exists f', mbind k (ifstream_close f) w = k f' (emit (E_close_in (if_path f)) w) /\
             if_gcount f' = if_gcount f.
Proof.
  intros H. unfold mbind, M_bind, ifstream_close. rewrite H. eauto.
Qed.

Lemma no_create_accounted (evs : list Event) :
  Forall (fun e => is_create e = false) evs -> handle_accounted 0 evs.
Proof.
  intros Hl p Hin. exfalso.
  rewrite Forall_forall in Hl. apply list_elem_of_In, Hl in Hin. discriminate Hin.
Qed.

Ltac exit_early :=
  unfold mret, M_ret; do 3 eexists;
  split; [reflexivity|]; split; [norm_trace; reflexivity|];
  apply no_create_accounted; repeat constructor.

Lemma loadProgramBinary_outcome (filename : string) (w : World) :
  exists h w' evs,
    load filename w = Returns h w' /\ trace w' = trace w ++ evs /\
    handle_accounted h evs.
Proof.
  unfold loadProgramBinary.
  rewrite (run_bind _ _ _ _ _ (checkProgramBinarySupport_run _)).
  destruct (reported_formats drv w <? 1); cbn [negb].
  { rewrite run_cout. exit_early. }
  match goal with |- context [(ifstream_open _ ≫= _) ?x] => set (w1 := x) end.
  destruct (files (disk w1) !! filename) as [content|] eqn:Hfile.
  2:{ unfold mbind at 1, M_bind at 1, ifstream_open. rewrite Hfile. cbn [if_open negb].
      rewrite run_cout. subst w1. exit_early. }
  rewrite (run_ifstream_open _ content) by exact Hfile. cbn [if_open negb].
  match goal with |- context [(ifstream_read ?f ?n ≫= ?k) ?x] =>
    destruct (run_ifstream_read_any f n k x) as (got1 & f1 & -> & Ho1 & Hp1) end.
  match goal with |- context [(ifstream_read ?f ?n ≫= ?k) ?x] =>
    destruct (run_ifstream_read_any f n k x) as (got2 & f2 & -> & Ho2 & Hp2) end.
  cbn [if_path if_open] in *.
  match goal with |- context [?len <=? 0] => set (length := len) end.
  destruct (length <=? 0).
  { rewrite run_cout.
    destruct (run_ifstream_close_any f2 (fun _ => mret 0)
                (emit (E_cout [Str "Invalid binary length in file: "; Num length])
                   (emit (E_read filename 4 got2)
                      (emit (E_read filename 4 got1)
                         (emit (E_open_in filename true) w1)))))
      as (f3 & Hc & _); [congruence|].
    rewrite Hp1 in *. rewrite Hc. subst w1. exit_early. }
  match goal with |- context [(ifstream_read ?f ?n ≫= ?k) ?x] =>
    destruct (run_ifstream_read_any f n k x) as (got3 & f3 & -> & Ho3 & Hp3) end.
  match goal with |- context [(ifstream_close ?f ≫= ?k) ?x] =>
    destruct (run_ifstream_close_any f k x) as (f4 & -> & Hg4); [congruence|] end.
  rewrite Hp3, Hp2, Hp1. cbn [if_path].
  destruct (if_gcount f4 =? length); cbn [negb].
  2:{ rewrite run_cout. subst w1. exit_early. }
  unfold_gl.
  match goal with |- context [(query ?f u32 ?ev ≫= _) ?x] =>
    destruct (f (gl x)) as [p0 d1] eqn:Hcreate end.
  rewrite (run_bind _ _ _ _ _ (run_query _ _ _ _ _ _ Hcreate)).
  rewrite run_command.
  match goal with |- context [(query ?f u32 ?ev ≫= _) ?x] =>
    destruct (f (gl x)) as [e d2] eqn:Herr end.
  rewrite (run_bind _ _ _ _ _ (run_query _ _ _ _ _ _ Herr)).
  destruct (Z.eqb_spec (u32 e) GL_NO_ERROR) as [He|He]; cbn [negb].
  2:{ rewrite run_cout, run_command. unfold mret, M_ret. do 3 eexists.
      split; [reflexivity|]. subst w1. split; [norm_trace; reflexivity|].
      intros p Hin. right. cbn [In] in Hin.
      repeat (destruct Hin as [Hin|Hin]; [try discriminate Hin|]); [|contradiction].
      injection Hin as <-. split; [reflexivity|]. split; [reflexivity|].
      left. exists (u32 e). split; [exact He|]. cbn [In]. tauto. }
  match goal with |- context [(query ?f s32 ?ev ≫= _) ?x] =>
    destruct (f (gl x)) as [st d3] eqn:Hstatus end.
  rewrite (run_bind _ _ _ _ _ (run_query _ _ _ _ _ _ Hstatus)).
  destruct (Z.eqb_spec (s32 st) GL_FALSE) as [Hst|Hst].
  - rewrite run_cout.
    match goal with |- context [(query ?f s32 ?ev ≫= _) ?x] =>
      destruct (f (gl x)) as [ll d4] eqn:Hll end.
    rewrite (run_bind _ _ _ _ _ (run_query _ _ _ _ _ _ Hll)).
    destruct (0 <? s32 ll).
    + rewrite run_assoc.
      match goal with |- context [(query ?f id ?ev ≫= _) ?x] =>
        destruct (f (gl x)) as [msg d5] eqn:Hmsg end.
      rewrite (run_bind _ _ _ _ _ (run_query _ _ _ _ _ _ Hmsg)).
      rewrite run_cout, run_command. unfold mret, M_ret. do 3 eexists.
      split; [reflexivity|]. subst w1. split; [norm_trace; reflexivity|].
      intros p Hin. right. cbn [In] in Hin.
      repeat (destruct Hin as [Hin|Hin]; [try discriminate Hin|]); [|contradiction].
      injection Hin as <-. split; [reflexivity|]. split; [reflexivity|].
      right. rewrite Hst. cbn [In]. tauto.
    + rewrite run_ret, run_command. unfold mret, M_ret. do 3 eexists.
      split; [reflexivity|]. subst w1. split; [norm_trace; reflexivity|].
      intros p Hin. right. cbn [In] in Hin.
      repeat (destruct Hin as [Hin|Hin]; [try discriminate Hin|]); [|contradiction].
      injection Hin as <-. split; [reflexivity|]. split; [reflexivity|].
      right. rewrite Hst. cbn [In]. tauto.
  - rewrite run_cout. unfold mret, M_ret. do 3 eexists.
    split; [reflexivity|]. subst w1. split; [norm_trace; reflexivity|].
    intros p Hin. left. cbn [In] in Hin.
    repeat (destruct Hin as [Hin|Hin]; [try discriminate Hin|]); [|contradiction].
    injection Hin as <-. split; [reflexivity|].
    split; [repeat constructor|]. split; [rewrite He; cbn [In]; tauto|].
    exists (s32 st). split; [exact Hst|]. cbn [In]. tauto.
Qed.

(** C2.  [loadProgramBinary] always returns.  If it has created a program
    object [p], then either it returns [p], having deleted nothing, after the
    driver reported no error and a link status other than [GL_FALSE]; or the
    driver reported an error or [GL_FALSE], the last thing it did was
    [glDeleteProgram p], and it returns 0. *)
Theorem loadProgramBinary_cleanup (filename : string) (w : World) :
  exists h,
    result_of (load filename) w = Some h /\
    handle_accounted h (events_of (load filename) w).
Proof.
  destruct (loadProgramBinary_outcome filename w) as (h & w' & evs & Hrun & Ht & Hacc).
  exists h. unfold result_of, events_of. rewrite Hrun, Ht, drop_app_length.
  split; [reflexivity|exact Hacc].
Qed.

(** C1.  On a driver that takes back the binaries it hands out, a save that
    returned [true] is followed by a load of the same file that returns a
    handle other than 0, for which the driver has just reported the link
    status [GL_TRUE], and which has not been deleted. *)
Theorem save_then_load (program : Z) (filename : string) (w w1 : World) :
  accepts_own_binaries drv ->
  saveProgramBinary drv program filename w = Returns true w1 ->
  exists h,
    result_of (load filename) w1 = Some h /\
    h <> 0 /\
    last (filter is_driver_event (events_of (load filename) w1))
      = Some (E_glGetProgramiv h GL_LINK_STATUS GL_TRUE) /\
    Forall (fun e => is_delete e = false) (events_of (load filename) w1).
Proof.
  intros Hdrv H.
  apply saveProgramBinary_true_inv in H.
  destruct H as (ls & d1 & wp & len & d3 & r & d4 & e & d5 & Hp & Hls & Hlink
                 & Hprobe & Hlen & Hpos & Hloaded & Hbin & Herr & He & Hn & H).
  cbn zeta in H. destruct H as (Hgl & Hfiles & _).
  destruct (Hdrv _ _ _ _ _ _ _ Hbin Herr He Hn)
    as (f & d6 & p & d7 & e' & d8 & st & d9 & Hf & Hf1 & Hcreate & Hp0 & Herr' & He' & Hst & Hst1).
  set (n := s32 (pb_length r)) in *.
  set (payload := take (Z.to_nat n) (retrieved_buffer (s32 len) r)) in *.
  assert (Hlenp : length payload = Z.to_nat n).
  { subst payload. rewrite length_take, retrieved_buffer_length. lia. }
  assert (Hformats : reported_formats drv w1 = s32 f).
  { unfold reported_formats. rewrite Hgl, Hf. reflexivity. }
  exists (u32 p).
  unfold events_of, result_of, loadProgramBinary.
  rewrite (run_bind _ _ _ _ _ (checkProgramBinarySupport_run _)).
  rewrite Hformats, Hgl, Hf. cbn [snd].
  destruct (Z.ltb_spec (s32 f) 1) as [|_]; [lia|]. cbn [negb].
  rewrite (run_ifstream_open _ (le_encode 4 (u32 (pb_format r)) ++ le_encode 4 n ++ payload))
    by (cbn [disk emit set_gl]; rewrite Hfiles; apply lookup_insert_eq).
  cbn [if_open negb].
  rewrite run_ifstream_read by reflexivity. cbn [if_rest if_path if_open].
  rewrite (take_header _ _ (le_encode_length 4 _)), (drop_header _ _ (le_encode_length 4 _)).
  rewrite le_encode_length.
  rewrite run_ifstream_read by (apply bool_decide_eq_true_2; reflexivity).
  cbn [if_rest if_path if_open].
  rewrite (take_header _ _ (le_encode_length 4 _)), (drop_header _ _ (le_encode_length 4 _)).
  rewrite !le_encode_length.
  rewrite !(overlay_header _ _ (le_encode_length 4 _)).
  rewrite le_decode_s32, le_decode_u32, u32_idem.
  replace (s32 n) with n by (subst n; symmetry; apply s32_idem).
  destruct (Z.leb_spec n 0) as [|_]; [lia|].
  rewrite run_ifstream_read by (apply bool_decide_eq_true_2; reflexivity).
  cbn [if_rest if_path if_open].
  rewrite take_ge by lia.
  rewrite run_ifstream_close by reflexivity. cbn [if_gcount if_path].
  rewrite Hlenp, Z2Nat.id, Z.eqb_refl by lia. cbn [negb].
  rewrite overlay_full by (rewrite length_replicate; exact Hlenp).
  unfold_gl.
  erewrite run_bind by (apply run_query; exact Hcreate).
  rewrite run_command.
  erewrite run_bind by (apply run_query; exact Herr').
  rewrite He', Z.eqb_refl. cbn [negb].
  erewrite run_bind by (apply run_query; exact Hst).
  rewrite Hst1. cbn [Z.eqb GL_TRUE GL_FALSE].
  rewrite run_cout. unfold mret, M_ret. norm_trace.
  split; [reflexivity|]. split; [exact Hp0|]. split; [reflexivity|].
  repeat constructor.
Qed.

(** *** What each function may append *)

Section Emitted.

Variable P : Event -> Prop.
Hypothesis P_other : forall e, file_path e = None -> P e.

Ltac settle H := first [apply P_other; reflexivity | apply H; cbn [file_path]; congruence].

Lemma checkProgramBinarySupport_emits : emits P any (checkProgramBinarySupport drv).
Proof.
  unfold checkProgramBinarySupport. unfold_gl. emits_go ltac:(apply P_other; reflexivity).
Qed.

Lemma createShaderProgramFromSource_emits : emits P any (createShaderProgramFromSource drv).
Proof.
  unfold createShaderProgramFromSource. unfold_gl.
  emits_go ltac:(apply P_other; reflexivity).
Qed.

Lemma static_binarySupported_emits : emits P any (static_binarySupported drv).
Proof.
  intros w. unfold static_binarySupported.
  destruct (binarySupported w).
  - exists []. split; [constructor|]. split; [symmetry; apply app_nil_r|exact I].
  - destruct (checkProgramBinarySupport_emits w) as (evs & HP & Ht). exists evs.
    split; [exact HP|]. destruct (checkProgramBinarySupport drv w); [|exact Ht].
    destruct Ht as [Ht _]. split; [exact Ht|exact I].
Qed.

Lemma saveProgramBinary_emits (program : Z) (filename : string) :
  (forall e, file_path e = Some filename -> P e) ->
  emits P any (saveProgramBinary drv program filename).
Proof.
  intros P_file. pose proof checkProgramBinarySupport_emits as Hprobe.
  unfold saveProgramBinary. unfold_gl. emits_go ltac:(settle P_file).
Qed.

Lemma loadProgramBinary_emits (filename : string) :
  (forall e, file_path e = Some filename -> P e) ->
  emits P any (load filename).
Proof.
  intros P_file. pose proof checkProgramBinarySupport_emits as Hprobe.
  unfold loadProgramBinary. unfold_gl. emits_go ltac:(settle P_file).
Qed.

Lemma createOrLoadShaderProgram_emits :
  (forall e, file_path e = Some binaryFilename -> P e) ->
  emits P any (createOrLoadShaderProgram drv indet_binaryFormat indet_length).
Proof.
  intros P_file.
  pose proof static_binarySupported_emits as Hstatic.
  pose proof (loadProgramBinary_emits binaryFilename P_file) as Hload.
  pose proof createShaderProgramFromSource_emits as Hcompile.
  assert (Hsave : forall program,
            emits P any (saveProgramBinary drv program binaryFilename))
    by (intros; apply saveProgramBinary_emits, P_file).
  unfold createOrLoadShaderProgram. emits_go ltac:(settle P_file).
Qed.

End Emitted.

Abbreviation createOrLoad := (createOrLoadShaderProgram drv indet_binaryFormat indet_length).

Lemma createShaderProgramFromSource_returns (w : World) :
  exists p w', createShaderProgramFromSource drv w = Returns p w'.
Proof.
  unfold createShaderProgramFromSource. unfold_m.
  repeat first
    [ match goal with
      | |- context [let '(a, d) := ?x in _] => destruct x
      end
    | match goal with
      | |- context [if ?b then _ else _] => destruct b
      end ];
    eauto.
Qed.

(** C4.  When the memoised probe says unsupported, [createOrLoadShaderProgram]
    returns what [createShaderProgramFromSource] returns; it performs no stream
    operation and makes none of the driver calls of the binary cache. *)
Theorem createOrLoadShaderProgram_unsupported (w w1 : World) :
  static_binarySupported drv w = Returns false w1 ->
  exists p w2,
    createShaderProgramFromSource drv
      (emit (E_cout [Str "Program binary not supported, compiling from source..."]) w1)
      = Returns p w2 /\
    result_of createOrLoad w = Some p /\
    Forall (fun e => is_file_event e = false /\ is_binary_call e = false)
           (events_of createOrLoad w).
Proof.
  intros Hstatic.
  set (P := fun e => is_file_event e = false /\ is_binary_call e = false).
  assert (Hprobe : emits P any (checkProgramBinarySupport drv)).
  { unfold checkProgramBinarySupport. unfold_gl. emits_go ltac:(split; reflexivity). }
  assert (Hcompile : emits P any (createShaderProgramFromSource drv)).
  { unfold createShaderProgramFromSource. unfold_gl. emits_go ltac:(split; reflexivity). }
  assert (Ht1 : exists evs, Forall P evs /\ trace w1 = trace w ++ evs).
  { unfold static_binarySupported in Hstatic.
    destruct (binarySupported w).
    - injection Hstatic as _ <-. exists []. split; [constructor|]. symmetry. apply app_nil_r.
    - destruct (Hprobe w) as (evs & HP & Ht).
      destruct (checkProgramBinarySupport drv w); [|discriminate].
      injection Hstatic as _ <-. exists evs. split; [exact HP|apply Ht]. }
  destruct Ht1 as (evs1 & HP1 & Ht1).
  set (w1' := emit (E_cout [Str "Program binary not supported, compiling from source..."]) w1).
  destruct (createShaderProgramFromSource_returns w1') as (p & w2 & Hc).
  destruct (Hcompile w1') as (evs2 & HP2 & Ht2). rewrite Hc in Ht2. destruct Ht2 as [Ht2 _].
  exists p, w2. split; [exact Hc|].
  unfold result_of, events_of, createOrLoadShaderProgram.
  rewrite (run_bind _ _ _ _ _ Hstatic). cbv iota.
  rewrite run_assoc, run_cout, run_ret. fold w1'.
  rewrite (run_bind _ _ _ _ _ Hc).
  destruct (Z.eqb_spec p 0) as [Hz|Hnz].
  - rewrite run_cout. unfold mret, M_ret. split; [rewrite Hz; reflexivity|].
    cbn [trace emit]. rewrite Ht2. subst w1'. cbn [trace emit]. rewrite Ht1.
    rewrite <- !app_assoc, drop_app_length.
    repeat (apply Forall_app; split); try assumption; repeat constructor.
  - rewrite run_ret. unfold mret, M_ret. split; [reflexivity|].
    rewrite Ht2. subst w1'. cbn [trace emit]. rewrite Ht1.
    rewrite <- !app_assoc, drop_app_length.
    repeat (apply Forall_app; split); try assumption; repeat constructor.
Qed.

(** X16.  With the capability supported, the cache missed and the sources
    compiled to a program [p] other than 0: whenever [saveProgramBinary]
    returns, whatever it returns, and in particular when it returns [false],
    [createOrLoadShaderProgram] returns [p]; a failed save only adds a warning
    line, and the save has deleted no program object.  A save that does not
    return (the call through a null pointer) is outside this statement. *)
Theorem createOrLoadShaderProgram_save_failure (w w1 w2 w3 w4 : World) (p : Z) (saved : bool) :
  static_binarySupported drv w = Returns true w1 ->
  load binaryFilename w1 = Returns 0 w2 ->
  createShaderProgramFromSource drv
    (emit (E_cout [Str "Binary cache not found or invalid, compiling from source..."]) w2)
    = Returns p w3 ->
  p <> 0 ->
  saveProgramBinary drv p binaryFilename w3 = Returns saved w4 ->
  createOrLoad w =
    Returns p
      (emit (E_cout (if saved
                     then [Str "Program binary cached for future use"]
                     else [Str "Warning: Failed to save program binary, but program compiled successfully"]))
         w4) /\
  Forall (fun e => is_delete e = false)
         (events_of (saveProgramBinary drv p binaryFilename) w3).
Proof.
  intros Hstatic Hload Hcompile Hp Hsave. split.
  - unfold createOrLoadShaderProgram.
    rewrite (run_bind _ _ _ _ _ Hstatic). cbv iota.
    rewrite run_assoc, (run_bind _ _ _ _ _ Hload). cbn [Z.eqb negb].
    rewrite run_assoc, run_cout, run_ret, (run_bind _ _ _ _ _ Hcompile).
    apply Z.eqb_neq in Hp. rewrite Hp.
    rewrite run_assoc, (run_bind _ _ _ _ _ Hsave).
    destruct saved; reflexivity.
  - apply (emits_events_of _ any).
    unfold saveProgramBinary, checkProgramBinarySupport. unfold_gl.
    emits_go ltac:(reflexivity).
Qed.

(** ** More about the five functions *)

Lemma keeps_final {A} (Inv : World -> Prop) (Q : A -> Prop) (m : M (D:=D) A) (w : World) :
  keeps Inv Q m -> Inv w -> Inv (final_world (m w)).
Proof.
  intros H Hw. specialize (H w Hw). unfold final_world.
  destruct (m w); [apply H|exact H].
Qed.

(** *** What the functions leave alone *)

Section Untouched.

(** Neither the file system nor the static of [createOrLoadShaderProgram]. *)
Variable w0 : World (D:=D).
Let same (w : World (D:=D)) : Prop :=
  disk w = disk w0 /\ binarySupported w = binarySupported w0.

Lemma same_emit e w : same w -> same (emit e w).
Proof. intros H. exact H. Qed.

Lemma same_gl d w : same w -> same (set_gl d w).
Proof. intros H. exact H. Qed.

Lemma checkProgramBinarySupport_keeps_same : keeps same any (checkProgramBinarySupport drv).
Proof.
  unfold checkProgramBinarySupport. unfold_gl. keeps_go same_emit same_gl idtac.
Qed.

Lemma createShaderProgramFromSource_keeps_same :
  keeps same any (createShaderProgramFromSource drv).
Proof.
  unfold createShaderProgramFromSource. unfold_gl. keeps_go same_emit same_gl idtac.
Qed.

Lemma loadProgramBinary_keeps_same (filename : string) : keeps same any (load filename).
Proof.
  pose proof checkProgramBinarySupport_keeps_same as Hprobe.
  unfold loadProgramBinary. unfold_gl. keeps_go same_emit same_gl idtac.
Qed.

End Untouched.

(** X1.  [loadProgramBinary] changes neither the file system nor the static: a
    cache file it rejects stays as it is.  The same holds for the probe and
    for the compilation. *)
Theorem loadProgramBinary_leaves_disk (filename : string) (w : World) :
  disk (final_world (load filename w)) = disk w /\
  binarySupported (final_world (load filename w)) = binarySupported w /\
  disk (final_world (checkProgramBinarySupport drv w)) = disk w /\
  disk (final_world (createShaderProgramFromSource drv w)) = disk w.
Proof.
  pose proof (keeps_final _ _ _ w (loadProgramBinary_keeps_same w filename)
                (conj eq_refl eq_refl)) as [H1 H2].
  pose proof (keeps_final _ _ _ w (checkProgramBinarySupport_keeps_same w)
                (conj eq_refl eq_refl)) as [H3 _].
  pose proof (keeps_final _ _ _ w (createShaderProgramFromSource_keeps_same w)
                (conj eq_refl eq_refl)) as [H4 _].
  auto.
Qed.

Section Framed.

(** At most the one file [path] changes; the static does not. *)
Variable w0 : World (D:=D).
Variable path : string.
Let framed (w : World (D:=D)) : Prop :=
  same_but path (disk w0) (disk w) /\ binarySupported w = binarySupported w0.

Lemma framed_emit e w : framed w -> framed (emit e w).
Proof. intros H. exact H. Qed.

Lemma framed_gl d w : framed w -> framed (set_gl d w).
Proof. intros H. exact H. Qed.

Lemma framed_survives : survives framed path.
Proof.
  intros fs w [[Hf Hr] Hb] [Hf' Hr']. split; [|exact Hb]. split.
  - intros p Hp. cbn. rewrite (Hf' p Hp). apply Hf, Hp.
  - cbn. rewrite Hr'. exact Hr.
Qed.

Lemma framed_of_same w :
  disk w = disk w0 /\ binarySupported w = binarySupported w0 -> framed w.
Proof. intros [Hd Hb]. split; [|exact Hb]. rewrite Hd. split; reflexivity. Qed.

Lemma saveProgramBinary_keeps_framed (program : Z) :
  keeps framed any (saveProgramBinary drv program path).
Proof.
  assert (Hprobe : keeps framed any (checkProgramBinarySupport drv)).
  { unfold checkProgramBinarySupport. unfold_gl. keeps_go framed_emit framed_gl idtac. }
  unfold saveProgramBinary. unfold_gl.
  keeps_go framed_emit framed_gl
    ltac:(match goal with
          | H : of_path _ = _ |- _ => rewrite H; clear H
          | _ => idtac
          end;
          repeat match goal with
            | H : of_path _ = _ |- _ => rewrite H; clear H
            end;
          exact framed_survives).
Qed.

End Framed.

(** X2.  [saveProgramBinary] changes no file but [filename] (whether it succeeds
    or not), nor which paths are read-only, nor the static. *)
Theorem saveProgramBinary_frame (program : Z) (filename : string) (w : World) :
  same_but filename (disk w) (disk (final_world (saveProgramBinary drv program filename w))) /\
  binarySupported (final_world (saveProgramBinary drv program filename w))
    = binarySupported w.
Proof.
  apply (keeps_final _ _ _ w (saveProgramBinary_keeps_framed w filename program)).
  split; [split|]; reflexivity.
Qed.

Lemma static_binarySupported_run (w : World) :
  exists w1,
    static_binarySupported drv w = Returns (memoised drv w) w1 /\
    binarySupported w1 = Some (memoised drv w) /\
    disk w1 = disk w /\
    (binarySupported w = Some (memoised drv w) -> w1 = w).
Proof.
  unfold static_binarySupported, memoised.
  destruct (binarySupported w) as [b|] eqn:Hb.
  - exists w. auto.
  - rewrite checkProgramBinarySupport_run. eexists. split; [reflexivity|].
    split; [reflexivity|]. split; [reflexivity|discriminate].
Qed.

Section Memo.

Variable b : bool.
Variable fs : FileSystem.
Let settled (w : World (D:=D)) : Prop :=
  binarySupported w = Some b /\ same_but binaryFilename fs (disk w).

Lemma settled_emit e w : settled w -> settled (emit e w).
Proof. intros H. exact H. Qed.

Lemma settled_gl d w : settled w -> settled (set_gl d w).
Proof. intros H. exact H. Qed.

Lemma settled_survives : survives settled binaryFilename.
Proof.
  intros fs' w [Hb [Hf Hr]] [Hf' Hr']. split; [exact Hb|]. split.
  - intros p Hp. cbn. rewrite (Hf' p Hp). apply Hf, Hp.
  - cbn. rewrite Hr'. exact Hr.
Qed.

Lemma createOrLoadShaderProgram_keeps_settled :
  keeps settled any createOrLoad.
Proof.
  assert (Hprobe : keeps settled any (checkProgramBinarySupport drv)).
  { unfold checkProgramBinarySupport. unfold_gl. keeps_go settled_emit settled_gl idtac. }
  assert (Hstatic : keeps settled any (static_binarySupported drv)).
  { intros w Hw. unfold static_binarySupported. destruct Hw as [Hb Hd]. rewrite Hb.
    split; [split; assumption|exact I]. }
  assert (Hload : keeps settled any (load binaryFilename)).
  { unfold loadProgramBinary. unfold_gl. keeps_go settled_emit settled_gl idtac. }
  assert (Hcompile : keeps settled any (createShaderProgramFromSource drv)).
  { unfold createShaderProgramFromSource. unfold_gl.
    keeps_go settled_emit settled_gl idtac. }
  assert (Hsave : forall program,
            keeps settled any (saveProgramBinary drv program binaryFilename)).
  { intros program. unfold saveProgramBinary. unfold_gl.
    keeps_go settled_emit settled_gl
      ltac:(repeat match goal with
              | H : of_path _ = _ |- _ => rewrite H; clear H
              end;
            exact settled_survives). }
  unfold createOrLoadShaderProgram. keeps_go settled_emit settled_gl idtac.
Qed.

End Memo.

(** X3.  After [createOrLoadShaderProgram] the static is initialised, to the value
    it had if it was initialised before (whatever the driver reports now) and
    to the result of the probe otherwise; and no file but "shader_program.bin"
    has changed. *)
Theorem createOrLoadShaderProgram_memo_and_frame (w : World) :
  binarySupported (final_world (createOrLoad w)) = Some (memoised drv w) /\
  same_but "shader_program.bin" (disk w) (disk (final_world (createOrLoad w))).
Proof.
  destruct (static_binarySupported_run w) as (w1 & Hrun & Hb & Hd & _).
  pose proof (createOrLoadShaderProgram_keeps_settled (memoised drv w) (disk w)) as Hall.
  pose proof (keeps_final _ _ _ w1 Hall) as Hfin.
  assert (Heq : final_world (createOrLoad w) = final_world (createOrLoad w1)).
  { unfold createOrLoadShaderProgram.
    rewrite (run_bind _ _ _ _ _ Hrun).
    assert (Hrun1 : static_binarySupported drv w1 = Returns (memoised drv w) w1).
    { unfold static_binarySupported. rewrite Hb. reflexivity. }
    rewrite (run_bind _ _ _ _ _ Hrun1). reflexivity. }
  rewrite Heq. apply Hfin. split; [exact Hb|]. rewrite Hd. split; reflexivity.
Qed.

(** *** Compilation from source *)

Lemma createShaderProgramFromSource_outcome (w : World) :
  exists h w' evs,
    createShaderProgramFromSource drv w = Returns h w' /\
    trace w' = trace w ++ evs /\ compile_run h evs.
Proof.
  unfold createShaderProgramFromSource. unfold_gl.
  rewrite run_cout.
  match goal with |- context [(query ?f u32 ?ev ≫= _) ?x] =>
    destruct (f (gl x)) as [v d1] eqn:Hv end.
  rewrite (run_bind _ _ _ _ _ (run_query _ _ _ _ _ _ Hv)).
  rewrite !run_command.
  match goal with |- context [(query ?f s32 ?ev ≫= _) ?x] =>
    destruct (f (gl x)) as [sv d2] eqn:Hsv end.
  rewrite (run_bind _ _ _ _ _ (run_query _ _ _ _ _ _ Hsv)).
  destruct (Z.eqb_spec (s32 sv) 0) as [Hsv0|Hsv0].
  { match goal with |- context [(query ?f id ?ev ≫= _) ?x] =>
      destruct (f (gl x)) as [log d3] eqn:Hlog end.
    rewrite (run_bind _ _ _ _ _ (run_query _ _ _ _ _ _ Hlog)).
    rewrite run_cout. unfold mret, M_ret. do 3 eexists.
    split; [reflexivity|]. split; [norm_trace; reflexivity|].
    rewrite Hsv0. constructor. }
  match goal with |- context [(query ?f u32 ?ev ≫= _) ?x] =>
    destruct (f (gl x)) as [f0 d3] eqn:Hf end.
  rewrite (run_bind _ _ _ _ _ (run_query _ _ _ _ _ _ Hf)).
  rewrite !run_command.
  match goal with |- context [(query ?f s32 ?ev ≫= _) ?x] =>
    destruct (f (gl x)) as [sf d4] eqn:Hsf end.
  rewrite (run_bind _ _ _ _ _ (run_query _ _ _ _ _ _ Hsf)).
  destruct (Z.eqb_spec (s32 sf) 0) as [Hsf0|Hsf0].
  { match goal with |- context [(query ?f id ?ev ≫= _) ?x] =>
      destruct (f (gl x)) as [log d5] eqn:Hlog end.
    rewrite (run_bind _ _ _ _ _ (run_query _ _ _ _ _ _ Hlog)).
    rewrite run_cout, run_command. unfold mret, M_ret. do 3 eexists.
    split; [reflexivity|]. split; [norm_trace; reflexivity|].
    rewrite Hsf0. constructor. exact Hsv0. }
  match goal with |- context [(query ?f u32 ?ev ≫= _) ?x] =>
    destruct (f (gl x)) as [p d5] eqn:Hp end.
  rewrite (run_bind _ _ _ _ _ (run_query _ _ _ _ _ _ Hp)).
  rewrite !run_command.
  match goal with |- context [(query ?f s32 ?ev ≫= _) ?x] =>
    destruct (f (gl x)) as [sl d6] eqn:Hsl end.
  rewrite (run_bind _ _ _ _ _ (run_query _ _ _ _ _ _ Hsl)).
  destruct (Z.eqb_spec (s32 sl) 0) as [Hsl0|Hsl0].
  { match goal with |- context [(query ?f id ?ev ≫= _) ?x] =>
      destruct (f (gl x)) as [log d7] eqn:Hlog end.
    rewrite (run_bind _ _ _ _ _ (run_query _ _ _ _ _ _ Hlog)).
    rewrite run_cout, !run_command. unfold mret, M_ret. do 3 eexists.
    split; [reflexivity|]. split; [norm_trace; reflexivity|].
    rewrite Hsl0. constructor; assumption. }
  rewrite !run_command, run_cout. unfold mret, M_ret. do 3 eexists.
  split; [reflexivity|]. split; [norm_trace; reflexivity|].
  constructor; assumption.
Qed.

Lemma createShaderProgramFromSource_shape (w : World) :
  exists h,
    result_of (createShaderProgramFromSource drv) w = Some h /\
    compile_run h (events_of (createShaderProgramFromSource drv) w).
Proof.
  destruct (createShaderProgramFromSource_outcome w) as (h & w' & evs & Hrun & Ht & Hs).
  exists h. unfold result_of, events_of. rewrite Hrun, Ht, drop_app_length. auto.
Qed.

Ltac in_cases H :=
  cbn [In] in H; repeat (destruct H as [H|H]; [try discriminate H|]); try contradiction.

Ltac in_now := cbn [In]; auto 30.

(** X4.  A result other than 0 is a program object created in this call, to which
    the two shaders created in this call were attached, which was linked and
    for which the driver reported a link status other than 0; nothing is
    deleted but the two shaders. *)
Theorem createShaderProgramFromSource_success (w : World) (h : Z) :
  result_of (createShaderProgramFromSource drv) w = Some h ->
  h <> 0 ->
  let evs := events_of (createShaderProgramFromSource drv) w in
  exists v f sl,
    In (E_glCreateShader GL_VERTEX_SHADER v) evs /\
    In (E_glCreateShader GL_FRAGMENT_SHADER f) evs /\
    In (E_glCreateProgram h) evs /\
    In (E_glAttachShader h v) evs /\
    In (E_glAttachShader h f) evs /\
    In (E_glLinkProgram h) evs /\
    sl <> 0 /\ In (E_glGetProgramiv h GL_LINK_STATUS sl) evs /\
    In (E_glDeleteShader v) evs /\
    In (E_glDeleteShader f) evs /\
    Forall (fun e => is_delete e = false) evs.
Proof.
  intros Hres Hh. cbn zeta.
  destruct (createShaderProgramFromSource_shape w) as (h' & Hres' & Hshape).
  rewrite Hres in Hres'. injection Hres' as <-.
  inversion Hshape as [v log|v sv f log Hsv|v sv f sf p log Hsv Hsf|v sv f sf p sl Hsv Hsf Hsl];
    subst; try contradiction.
  exists v, f, sl.
  repeat (split; [first [assumption | in_now]|]).
  repeat constructor.
Qed.

(** X5.  A shader object this function creates is deleted before it returns
    exactly when the driver reported a compile status other than 0 for it: a
    shader that does not compile is not deleted.  A program object this
    function creates is either returned, or deleted after the driver reported
    the link status 0, in which case 0 is returned. *)
Theorem createShaderProgramFromSource_cleanup (w : World) :
  let evs := events_of (createShaderProgramFromSource drv) w in
  (forall ty s,
     In (E_glCreateShader ty s) evs ->
     (In (E_glDeleteShader s) evs <->
      exists st, st <> 0 /\ In (E_glGetShaderiv s GL_COMPILE_STATUS st) evs)) /\
  (forall p,
     In (E_glCreateProgram p) evs ->
     (result_of (createShaderProgramFromSource drv) w = Some p /\
      Forall (fun e => is_delete e = false) evs) \/
     (result_of (createShaderProgramFromSource drv) w = Some 0 /\
      last evs = Some (E_glDeleteProgram p) /\
      In (E_glGetProgramiv p GL_LINK_STATUS 0) evs)).
Proof.
  cbn zeta.
  destruct (createShaderProgramFromSource_shape w) as (h & Hres & Hshape).
  rewrite Hres.
  inversion Hshape as [v log|v sv f log Hsv|v sv f sf p log Hsv Hsf|v sv f sf p sl Hsv Hsf Hsl];
    subst; split.
  - intros ty s Hin. in_cases Hin. injection Hin as _ <-. split.
    + intros Hd. in_cases Hd.
    + intros (st & Hst & Hg). in_cases Hg. injection Hg as <-. contradiction.
  - intros p Hin. in_cases Hin.
  - intros ty s Hin. in_cases Hin.
    + injection Hin as _ <-. split; [intros _; exists sv; split; [assumption|in_now]|intros _; in_now].
    + injection Hin as _ <-. split.
      * intros Hd. in_cases Hd. injection Hd as <-.
        exists sv; split; [assumption|in_now].
      * intros (st & Hst & Hg). in_cases Hg.
        -- injection Hg as <- _. in_now.
        -- injection Hg as <-. contradiction.
  - intros p Hin. in_cases Hin.
  - intros ty s Hin. in_cases Hin.
    + injection Hin as _ <-. split; [intros _; exists sv; split; [assumption|in_now]|intros _; in_now].
    + injection Hin as _ <-. split; [intros _; exists sf; split; [assumption|in_now]|intros _; in_now].
  - intros p0 Hin. in_cases Hin. injection Hin as <-. right.
    split; [reflexivity|]. split; [reflexivity|in_now].
  - intros ty s Hin. in_cases Hin.
    + injection Hin as _ <-. split; [intros _; exists sv; split; [assumption|in_now]|intros _; in_now].
    + injection Hin as _ <-. split; [intros _; exists sf; split; [assumption|in_now]|intros _; in_now].
  - intros p0 Hin. in_cases Hin. injection Hin as <-. left.
    split; [reflexivity|]. repeat constructor.
Qed.

(** X6.  Once the driver reports the compile status 0 for a shader, 0 is returned:
    no program object is created and nothing is linked; after a failed vertex
    shader no fragment shader is created either. *)
Theorem createShaderProgramFromSource_stops (w : World) (s : Z) :
  let evs := events_of (createShaderProgramFromSource drv) w in
  In (E_glGetShaderiv s GL_COMPILE_STATUS 0) evs ->
  result_of (createShaderProgramFromSource drv) w = Some 0 /\
  Forall (fun e => is_create e = false) evs /\
  (forall p, ~ In (E_glLinkProgram p) evs) /\
  (forall f, In (E_glCreateShader GL_FRAGMENT_SHADER f) evs ->
             exists v sv, sv <> 0 /\ In (E_glCreateShader GL_VERTEX_SHADER v) evs /\
                          In (E_glGetShaderiv v GL_COMPILE_STATUS sv) evs).
Proof.
  cbn zeta.
  destruct (createShaderProgramFromSource_shape w) as (h & Hres & Hshape).
  rewrite Hres.
  inversion Hshape as [v log|v sv f log Hsv|v sv f sf p log Hsv Hsf|v sv f sf p sl Hsv Hsf Hsl];
    subst; intros Hin.
  - split; [reflexivity|]. split; [repeat constructor|]. split.
    + intros p Hp. in_cases Hp.
    + intros f Hf. in_cases Hf.
  - split; [reflexivity|]. split; [repeat constructor|]. split.
    + intros p Hp. in_cases Hp.
    + intros f' Hf. exists v, sv. split; [assumption|]. split; in_now.
  - exfalso. in_cases Hin; injection Hin as _ Hz; congruence.
  - exfalso. in_cases Hin; injection Hin as _ Hz; congruence.
Qed.

(** *** Loading *)

Lemma run_ifstream_read_counted {B} (f : ifstream) (n : Z)
      (k : list byte * ifstream -> M (D:=D) B) (w : World) :
  exists got f',
    mbind k (ifstream_read f n) w = k (got, f') (emit (E_read (if_path f) n got) w) /\
    if_open f' = if_open f /\ if_path f' = if_path f /\
    if_gcount f' = Z.of_nat (length got).
Proof.
  unfold mbind, M_bind, ifstream_read. destruct (if_good f); eauto 10.
Qed.

Ltac load_leaf :=
  unfold mret, M_ret; do 3 eexists;
  split; [reflexivity|]; split; [norm_trace; reflexivity|].

Lemma loadProgramBinary_shape_run (filename : string) (w : World) :
  exists h w' evs,
    load filename w = Returns h w' /\
    trace w' = trace w ++ events_of (checkProgramBinarySupport drv) w ++ evs /\
    load_run filename h evs.
Proof.
  unfold events_of at 1. rewrite checkProgramBinarySupport_run.
  unfold loadProgramBinary.
  rewrite (run_bind _ _ _ _ _ (checkProgramBinarySupport_run _)).
  destruct (reported_formats drv w <? 1); cbn [negb].
  { rewrite run_cout. load_leaf. apply load_unsupported. }
  match goal with |- context [(ifstream_open _ ≫= _) ?x] => set (w1 := x) end.
  destruct (files (disk w1) !! filename) as [content|] eqn:Hfile.
  2:{ unfold mbind at 1, M_bind at 1, ifstream_open. rewrite Hfile. cbn [if_open negb].
      rewrite run_cout. subst w1. load_leaf. apply load_not_opened. }
  rewrite (run_ifstream_open _ content) by exact Hfile. cbn [if_open negb].
  match goal with |- context [(ifstream_read ?f ?n ≫= ?k) ?x] =>
    destruct (run_ifstream_read_counted f n k x) as (got1 & f1 & -> & Ho1 & Hp1 & _) end.
  match goal with |- context [(ifstream_read ?f ?n ≫= ?k) ?x] =>
    destruct (run_ifstream_read_counted f n k x) as (got2 & f2 & -> & Ho2 & Hp2 & _) end.
  cbn [if_path if_open] in *.
  match goal with |- context [?len <=? 0] => set (length := len) end.
  destruct (Z.leb_spec length 0) as [Hlen|Hlen].
  { rewrite run_cout.
    destruct (run_ifstream_close_any f2 (fun _ => mret 0)
                (emit (E_cout [Str "Invalid binary length in file: "; Num length])
                   (emit (E_read filename 4 got2)
                      (emit (E_read filename 4 got1)
                         (emit (E_open_in filename true) w1)))))
      as (f3 & Hc & _); [congruence|].
    rewrite Hp1 in *. rewrite Hc, Hp2. subst w1. load_leaf. apply load_bad_length. exact Hlen. }
  match goal with |- context [(ifstream_read ?f ?n ≫= ?k) ?x] =>
    destruct (run_ifstream_read_counted f n k x) as (got3 & f3 & -> & Ho3 & Hp3 & Hg3) end.
  match goal with |- context [(ifstream_close ?f ≫= ?k) ?x] =>
    destruct (run_ifstream_close_any f k x) as (f4 & -> & Hg4); [congruence|] end.
  rewrite Hp3, Hp2, Hp1. cbn [if_path]. rewrite Hg4, Hg3.
  destruct (Z.eqb_spec (Z.of_nat (Datatypes.length got3)) length) as [Hfull|Hfull];
    cbn [negb].
  2:{ rewrite run_cout. subst w1. load_leaf. apply load_short; assumption. }
  rewrite (overlay_full got3)
    by (rewrite length_replicate; rewrite <- Hfull; symmetry; apply Nat2Z.id).
  unfold_gl.
  match goal with |- context [(query ?f u32 ?ev ≫= _) ?x] =>
    destruct (f (gl x)) as [p0 d1] eqn:Hcreate end.
  rewrite (run_bind _ _ _ _ _ (run_query _ _ _ _ _ _ Hcreate)).
  rewrite run_command.
  match goal with |- context [(query ?f u32 ?ev ≫= _) ?x] =>
    destruct (f (gl x)) as [e d2] eqn:Herr end.
  rewrite (run_bind _ _ _ _ _ (run_query _ _ _ _ _ _ Herr)).
  destruct (Z.eqb_spec (u32 e) GL_NO_ERROR) as [He|He]; cbn [negb].
  2:{ rewrite run_cout, run_command. subst w1. load_leaf. apply load_error; assumption. }
  match goal with |- context [(query ?f s32 ?ev ≫= _) ?x] =>
    destruct (f (gl x)) as [st d3] eqn:Hstatus end.
  rewrite (run_bind _ _ _ _ _ (run_query _ _ _ _ _ _ Hstatus)).
  rewrite He.
  destruct (Z.eqb_spec (s32 st) GL_FALSE) as [Hst|Hst].
  - rewrite run_cout.
    match goal with |- context [(query ?f s32 ?ev ≫= _) ?x] =>
      destruct (f (gl x)) as [ll d4] eqn:Hll end.
    rewrite (run_bind _ _ _ _ _ (run_query _ _ _ _ _ _ Hll)).
    rewrite Hst.
    destruct (Z.ltb_spec 0 (s32 ll)) as [Hll0|Hll0].
    + rewrite run_assoc.
      match goal with |- context [(query ?f id ?ev ≫= _) ?x] =>
        destruct (f (gl x)) as [msg d5] eqn:Hmsg end.
      rewrite (run_bind _ _ _ _ _ (run_query _ _ _ _ _ _ Hmsg)).
      rewrite run_cout, run_command. subst w1. load_leaf.
      apply load_refused_log; assumption.
    + rewrite run_ret, run_command. subst w1. load_leaf.
      apply load_refused; assumption.
  - rewrite run_cout. subst w1. load_leaf. apply load_ok; assumption.
Qed.

Lemma loadProgramBinary_shape (filename : string) (w : World) :
  exists h evs,
    result_of (load filename) w = Some h /\
    events_of (load filename) w = events_of (checkProgramBinarySupport drv) w ++ evs /\
    load_run filename h evs.
Proof.
  destruct (loadProgramBinary_shape_run filename w) as (h & w' & evs & Hrun & Ht & Hs).
  exists h, evs. unfold result_of. unfold events_of at 1. rewrite Hrun, Ht, drop_app_length.
  auto.
Qed.

Lemma checkProgramBinarySupport_events (w : World) :
  events_of (checkProgramBinarySupport drv) w =
    [E_glGetIntegerv GL_NUM_PROGRAM_BINARY_FORMATS (reported_formats drv w);
     E_cout (probe_line drv (reported_formats drv w))].
Proof.
  unfold events_of. rewrite checkProgramBinarySupport_run. norm_trace. reflexivity.
Qed.

(** X7.  Whatever the file holds: when [loadProgramBinary] submits a binary to the
    driver, the length it passes is positive and is the number of bytes of the
    buffer it passes, which are the bytes the third read extracted, and the
    object is one it has just created.  A result other than 0 is such an
    object. *)
Theorem loadProgramBinary_submission (filename : string) (w : World) :
  let evs := events_of (load filename) w in
  (forall p fmt data len,
     In (E_glProgramBinary p fmt data len) evs ->
     0 < len /\ Z.of_nat (length data) = len /\
     In (E_read filename len data) evs /\ In (E_glCreateProgram p) evs) /\
  (forall h,
     result_of (load filename) w = Some h -> h <> 0 ->
     In (E_glCreateProgram h) evs /\
     exists fmt data len, In (E_glProgramBinary h fmt data len) evs).
Proof.
  cbn zeta.
  destruct (loadProgramBinary_shape filename w) as (h & evs & Hres & Hevs & Hshape).
  rewrite Hres, Hevs, checkProgramBinarySupport_events. split.
  - intros p fmt data len Hin. apply in_app_or in Hin. destruct Hin as [Hin|Hin].
    { in_cases Hin. }
    assert (Hgoal : 0 < len /\ Z.of_nat (length data) = len /\
                    In (E_read filename len data) evs /\ In (E_glCreateProgram p) evs).
    { inversion Hshape; subst; in_cases Hin; injection Hin as <- <- <- <-;
        (split; [assumption|]); (split; [reflexivity|]); split; in_now. }
    destruct Hgoal as (H1 & H2 & H3 & H4).
    repeat split; try assumption; apply in_or_app; right; assumption.
  - intros h' Hh Hh0. injection Hh as <-.
    assert (Hgoal : In (E_glCreateProgram h) evs /\
                    exists fmt data len, In (E_glProgramBinary h fmt data len) evs).
    { inversion Hshape; subst; try contradiction.
      split; [in_now|]. do 3 eexists. in_now. }
    destruct Hgoal as (H1 & fmt & data & len & H2).
    split; [apply in_or_app; right; assumption|].
    exists fmt, data, len. apply in_or_app; right; assumption.
Qed.

(** X8.  With no file at [filename], [loadProgramBinary] returns 0: after the probe
    it only tries to open the file (not even that when the probe failed). *)
Theorem loadProgramBinary_missing_file (filename : string) (w : World) :
  files (disk w) !! filename = None ->
  result_of (load filename) w = Some 0 /\
  events_of (load filename) w =
    events_of (checkProgramBinarySupport drv) w ++
    (if reported_formats drv w <? 1
     then [E_cout [Str "Program binary not supported, cannot load"]]
     else [E_open_in filename false;
           E_cout [Str "Failed to open file for reading: "; Str filename]]).
Proof.
  intros Hfile. rewrite checkProgramBinarySupport_events.
  unfold events_of, result_of, loadProgramBinary.
  rewrite (run_bind _ _ _ _ _ (checkProgramBinarySupport_run _)).
  destruct (reported_formats drv w <? 1); cbn [negb].
  - unfold mbind, M_bind, cout, mret, M_ret. norm_trace. split; reflexivity.
  - unfold mbind, M_bind, ifstream_open. cbn [disk emit set_gl].
    rewrite Hfile. cbn [if_open negb]. unfold cout, mret, M_ret.
    norm_trace. split; reflexivity.
Qed.

Lemma run_ifstream_read_spec {B} (f : ifstream) (n : Z)
      (k : list byte * ifstream -> M (D:=D) B) (w : World) :
  exists got f',
    mbind k (ifstream_read f n) w = k (got, f') (emit (E_read (if_path f) n got) w) /\
    if_open f' = if_open f /\ if_path f' = if_path f /\
    if_gcount f' = Z.of_nat (length got) /\
    ((if_good f = true /\ got = take (Z.to_nat n) (if_rest f) /\
      if_rest f' = drop (Z.to_nat n) (if_rest f) /\
      if_good f' = bool_decide (Z.of_nat (length got) = n)) \/
     (got = [] /\ if_good f' = false)).
Proof.
  unfold mbind, M_bind, ifstream_read. destruct (if_good f).
  - do 2 eexists. split; [reflexivity|]. cbn [if_open if_path if_gcount if_rest if_good].
    repeat split; left; repeat split; reflexivity.
  - do 2 eexists. split; [reflexivity|]. cbn [if_open if_path if_gcount if_rest if_good].
    repeat split; right; split; reflexivity.
Qed.

Ltac load_miss := unfold mret, M_ret; do 2 eexists; split; [reflexivity|left; reflexivity].

(** Every call either returns 0 or has read a whole, well-formed file. *)
Lemma loadProgramBinary_hit_or_miss (filename : string) (w : World) :
  exists h w',
    load filename w = Returns h w' /\
    (h = 0 \/
     exists fmtb lenb payload extra st,
       files (disk w) !! filename = Some (fmtb ++ lenb ++ payload ++ extra) /\
       length fmtb = 4%nat /\ length lenb = 4%nat /\
       0 < s32 (le_decode lenb) /\
       Z.of_nat (length payload) = s32 (le_decode lenb) /\
       h <> 0 /\ st <> GL_FALSE /\
       trace w' = trace w ++ events_of (checkProgramBinarySupport drv) w ++
         [E_open_in filename true; E_read filename 4 fmtb; E_read filename 4 lenb;
          E_read filename (s32 (le_decode lenb)) payload; E_close_in filename;
          E_glCreateProgram h;
          E_glProgramBinary h (u32 (le_decode fmtb)) payload (s32 (le_decode lenb));
          E_glGetError GL_NO_ERROR; E_glGetProgramiv h GL_LINK_STATUS st;
          E_cout [Str "Program binary loaded successfully: "; Str filename]]).
Proof.
  unfold events_of at 1. rewrite checkProgramBinarySupport_run.
  unfold loadProgramBinary.
  rewrite (run_bind _ _ _ _ _ (checkProgramBinarySupport_run _)).
  destruct (reported_formats drv w <? 1); cbn [negb].
  { rewrite run_cout. load_miss. }
  match goal with |- context [(ifstream_open _ ≫= _) ?x] => set (w1 := x) end.
  assert (Hdisk : disk w1 = disk w) by reflexivity.
  destruct (files (disk w1) !! filename) as [content|] eqn:Hfile.
  2:{ unfold mbind at 1, M_bind at 1, ifstream_open. rewrite Hfile. cbn [if_open negb].
      rewrite run_cout. load_miss. }
  rewrite (run_ifstream_open _ content) by exact Hfile. cbn [if_open negb].
  rewrite run_ifstream_read by reflexivity. cbn [if_rest if_path if_open].
  match goal with |- context [(ifstream_read ?f ?n ≫= ?k) ?x] =>
    destruct (run_ifstream_read_spec f n k x) as (got2 & f2 & -> & Ho2 & Hp2 & _ & Hr2) end.
  cbn [if_path if_open if_good if_rest] in *.
  match goal with |- context [?l <=? 0] => set (len := l) end.
  destruct (Z.leb_spec len 0) as [Hlen|Hlen].
  { rewrite run_cout.
    match goal with |- context [(ifstream_close ?f ≫= ?k) ?x] =>
      destruct (run_ifstream_close_any f k x) as (f3 & -> & _); [congruence|] end.
    load_miss. }
  match goal with |- context [(ifstream_read ?f ?n ≫= ?k) ?x] =>
    destruct (run_ifstream_read_spec f n k x) as (got3 & f3 & -> & Ho3 & Hp3 & Hg3 & Hr3) end.
  match goal with |- context [(ifstream_close ?f ≫= ?k) ?x] =>
    destruct (run_ifstream_close_any f k x) as (f4 & -> & Hg4); [congruence|] end.
  rewrite Hp3, Hp2. rewrite Hg4, Hg3.
  destruct (Z.eqb_spec (Z.of_nat (Datatypes.length got3)) len) as [Hfull|Hfull];
    cbn [negb].
  2:{ rewrite run_cout. load_miss. }
  destruct Hr3 as [(Hgood2 & Hgot3 & _ & _)|[-> _]]; [|cbn in Hfull; lia].
  destruct Hr2 as [(Hgood1 & Hgot2 & Hrest2 & Hgood2')|[_ Hbad]]; [|congruence].
  apply bool_decide_eq_true_1 in Hgood1.
  rewrite Hgood2 in Hgood2'. symmetry in Hgood2'. apply bool_decide_eq_true_1 in Hgood2'.
  assert (H1 : Datatypes.length (take (Z.to_nat 4) content) = 4%nat) by lia.
  assert (H2 : Datatypes.length got2 = 4%nat) by lia.
  assert (Hcontent : content =
            take (Z.to_nat 4) content ++ got2 ++ got3 ++
            drop (Z.to_nat len) (drop (Z.to_nat 4) (drop (Z.to_nat 4) content))).
  { rewrite Hgot3, Hrest2, Hgot2, !take_drop. reflexivity. }
  subst len. rewrite !(overlay_header got2 _ H2) in *.
  rewrite (overlay_header _ _ H1).
  rewrite (overlay_full got3)
    by (rewrite length_replicate; rewrite <- Hfull; symmetry; apply Nat2Z.id).
  unfold_gl.
  match goal with |- context [(query ?f u32 ?ev ≫= _) ?x] =>
    destruct (f (gl x)) as [p0 d1] eqn:Hcreate end.
  rewrite (run_bind _ _ _ _ _ (run_query _ _ _ _ _ _ Hcreate)).
  rewrite run_command.
  match goal with |- context [(query ?f u32 ?ev ≫= _) ?x] =>
    destruct (f (gl x)) as [e d2] eqn:Herr end.
  rewrite (run_bind _ _ _ _ _ (run_query _ _ _ _ _ _ Herr)).
  destruct (Z.eqb_spec (u32 e) GL_NO_ERROR) as [He|He]; cbn [negb].
  2:{ rewrite run_cout, run_command. load_miss. }
  match goal with |- context [(query ?f s32 ?ev ≫= _) ?x] =>
    destruct (f (gl x)) as [st d3] eqn:Hstatus end.
  rewrite (run_bind _ _ _ _ _ (run_query _ _ _ _ _ _ Hstatus)).
  rewrite He.
  destruct (Z.eqb_spec (s32 st) GL_FALSE) as [Hst|Hst].
  - rewrite run_cout.
    match goal with |- context [(query ?f s32 ?ev ≫= _) ?x] =>
      destruct (f (gl x)) as [ll d4] eqn:Hll end.
    rewrite (run_bind _ _ _ _ _ (run_query _ _ _ _ _ _ Hll)).
    destruct (0 <? s32 ll).
    + rewrite run_assoc.
      match goal with |- context [(query ?f id ?ev ≫= _) ?x] =>
        destruct (f (gl x)) as [msg d5] eqn:Hmsg end.
      rewrite (run_bind _ _ _ _ _ (run_query _ _ _ _ _ _ Hmsg)).
      rewrite run_cout, run_command. load_miss.
    + rewrite run_ret, run_command. load_miss.
  - rewrite run_cout. unfold mret, M_ret. do 2 eexists. split; [reflexivity|].
    destruct (Z.eq_dec (u32 p0) 0) as [Hp|Hp]; [left; exact Hp|right].
    exists (take (Z.to_nat 4) content), got2, got3,
      (drop (Z.to_nat (s32 (le_decode got2)))
         (drop (Z.to_nat 4) (drop (Z.to_nat 4) content))), (s32 st).
    split; [rewrite <- Hdisk, Hfile; f_equal; exact Hcontent|].
    do 6 (split; [assumption|]).
    subst w1. norm_trace. reflexivity.
Qed.

Lemma complete_cache_parts (fmtb lenb payload extra : list byte) :
  length fmtb = 4%nat -> length lenb = 4%nat ->
  0 < s32 (le_decode lenb) ->
  Z.of_nat (length payload) = s32 (le_decode lenb) ->
  complete_cache (fmtb ++ lenb ++ payload ++ extra) = true.
Proof.
  intros Hf Hl Hpos Hlen. unfold complete_cache.
  assert (Hd : take 4 (drop 4 (fmtb ++ lenb ++ payload ++ extra)) = lenb).
  { change 4%nat with (Z.to_nat 4).
    rewrite (drop_header _ _ Hf). apply (take_header _ _ Hl). }
  rewrite Hd, length_app, length_app, Hf, Hl.
  repeat (apply andb_true_intro; split);
    [apply Z.leb_le|apply Z.ltb_lt|apply Z.leb_le]; rewrite ?length_app; lia.
Qed.

(** X9.  A result other than 0 has taken a whole cache file: its first four bytes
    are the format submitted, the next four declare a positive length, and
    exactly that many of the bytes that follow are what the driver was given,
    whatever comes after them; the driver reported no error and a link status
    other than [GL_FALSE], and nothing was deleted. *)
Theorem loadProgramBinary_hit (filename : string) (w : World) (h : Z) :
  result_of (load filename) w = Some h ->
  h <> 0 ->
  exists fmtb lenb payload extra st,
    files (disk w) !! filename = Some (fmtb ++ lenb ++ payload ++ extra) /\
    length fmtb = 4%nat /\ length lenb = 4%nat /\
    0 < s32 (le_decode lenb) /\
    Z.of_nat (length payload) = s32 (le_decode lenb) /\
    st <> GL_FALSE /\
    events_of (load filename) w =
      events_of (checkProgramBinarySupport drv) w ++
      [E_open_in filename true; E_read filename 4 fmtb; E_read filename 4 lenb;
       E_read filename (s32 (le_decode lenb)) payload; E_close_in filename;
       E_glCreateProgram h;
       E_glProgramBinary h (u32 (le_decode fmtb)) payload (s32 (le_decode lenb));
       E_glGetError GL_NO_ERROR; E_glGetProgramiv h GL_LINK_STATUS st;
       E_cout [Str "Program binary loaded successfully: "; Str filename]].
Proof.
  intros Hres Hh.
  destruct (loadProgramBinary_hit_or_miss filename w) as (h' & w' & Hrun & Hcase).
  unfold result_of in Hres. unfold events_of at 1. rewrite Hrun in Hres |- *.
  injection Hres as ->.
  destruct Hcase as [Hz|(fmtb & lenb & payload & extra & st & Hfile & Hf & Hl & Hpos &
                         Hlen & _ & Hst & Ht)]; [contradiction|].
  exists fmtb, lenb, payload, extra, st.
  rewrite Ht, drop_app_length. auto 10.
Qed.

(** X10.  A file that is not a complete cache makes [loadProgramBinary] return 0,
    whatever the locals [binaryFormat] and [length] held before the reads:
    in particular a file shorter than the header. *)
Theorem loadProgramBinary_rejects_incomplete
        (filename : string) (w : World) (content : list byte) :
  files (disk w) !! filename = Some content ->
  complete_cache content = false ->
  result_of (load filename) w = Some 0.
Proof.
  intros Hfile Hbad.
  destruct (loadProgramBinary_hit_or_miss filename w) as (h & w' & Hrun & Hcase).
  unfold result_of. rewrite Hrun.
  destruct Hcase as [->|(fmtb & lenb & payload & extra & st & Hfile' & Hf & Hl & Hpos &
                         Hlen & _)]; [reflexivity|].
  rewrite Hfile in Hfile'. injection Hfile' as ->.
  rewrite (complete_cache_parts _ _ _ _ Hf Hl Hpos Hlen) in Hbad. discriminate Hbad.
Qed.

(** *** What a save leaves on the disk *)

Lemma run_ofstream_open_ro {B} (path : string) (k : ofstream -> M (D:=D) B) (w : World) :
  path ∈ readonly (disk w) ->
  mbind k (ofstream_open path) w =
  k {| of_path := path; of_open := false; of_good := false |}
    (emit (E_open_out path false) w).
Proof.
  intros H. unfold mbind, M_bind, ofstream_open.
  rewrite (bool_decide_eq_true_2 _ H). reflexivity.
Qed.

Lemma run_ofstream_open_rw {B} (path : string) (k : ofstream -> M (D:=D) B) (w : World) :
  path ∉ readonly (disk w) ->
  mbind k (ofstream_open path) w =
  k {| of_path := path; of_open := true; of_good := true |}
    (emit (E_open_out path true)
       (set_disk {| files := <[path := []]> (files (disk w));
                    readonly := readonly (disk w); room := room (disk w) |} w)).
Proof.
  intros H. unfold mbind, M_bind, ofstream_open.
  rewrite (bool_decide_eq_false_2 _ H). reflexivity.
Qed.

Lemma run_ofstream_write {B} (f : ofstream) (bytes : list byte)
      (k : ofstream -> M (D:=D) B) (w : World) :
  of_good f = true ->
  mbind k (ofstream_write f bytes) w =
  k {| of_path := of_path f; of_open := of_open f;
       of_good := bool_decide ((length bytes <= room (disk w))%nat) |}
    (emit (E_write (of_path f) (take (room (disk w)) bytes))
       (set_disk
          {| files := <[of_path f := default [] (files (disk w) !! of_path f)
                                       ++ take (room (disk w)) bytes]> (files (disk w));
             readonly := readonly (disk w);
             room := (room (disk w) - length (take (room (disk w)) bytes))%nat |} w)).
Proof. intros H. unfold mbind, M_bind, ofstream_write. rewrite H. reflexivity. Qed.

Lemma run_ofstream_write_bad {B} (f : ofstream) (bytes : list byte)
      (k : ofstream -> M (D:=D) B) (w : World) :
  of_good f = false -> mbind k (ofstream_write f bytes) w = k f w.
Proof. intros H. unfold mbind, M_bind, ofstream_write. rewrite H. reflexivity. Qed.

Lemma run_ofstream_write_n_bad {B} (f : ofstream) (buf : list byte) (n : Z)
      (k : ofstream -> M (D:=D) B) (w : World) :
  of_good f = false -> mbind k (ofstream_write_n f buf n) w = k f w.
Proof. intros H. unfold mbind, M_bind, ofstream_write_n. rewrite H. reflexivity. Qed.

Lemma run_ofstream_close {B} (f : ofstream) (k : ofstream -> M (D:=D) B) (w : World) :
  of_open f = true ->
  mbind k (ofstream_close f) w =
  k {| of_path := of_path f; of_open := false; of_good := of_good f |}
    (emit (E_close_out (of_path f)) w).
Proof. intros H. unfold mbind, M_bind, ofstream_close. rewrite H. reflexivity. Qed.

Lemma complete_cache_short (content : list byte) :
  (length content < 8)%nat -> complete_cache content = false.
Proof.
  intros H. unfold complete_cache.
  destruct (Z.leb_spec 8 (Z.of_nat (length content))) as [|_]; [lia|reflexivity].
Qed.

Lemma complete_cache_torn (b1 b2 rest : list byte) :
  length b1 = 4%nat -> length b2 = 4%nat ->
  Z.of_nat (length rest) < s32 (le_decode b2) ->
  complete_cache (b1 ++ b2 ++ rest) = false.
Proof.
  intros H1 H2 Hlt. unfold complete_cache.
  assert (Hd : take 4 (drop 4 (b1 ++ b2 ++ rest)) = b2).
  { change 4%nat with (Z.to_nat 4).
    rewrite (drop_header _ _ H1). apply (take_header _ _ H2). }
  rewrite Hd, length_app, length_app, H1, H2.
  apply andb_false_intro2. apply Z.leb_gt. lia.
Qed.

Ltac save_same :=
  rewrite ?run_cout; unfold mret, M_ret; cbv iota;
  left; first [reflexivity | assumption].

(** What each outcome of a save says about the disk. *)
Lemma saveProgramBinary_disk (program : Z) (filename : string) (w : World) :
  match saveProgramBinary drv program filename w with
  | Returns true _ => filename ∉ readonly (disk w)
  | Returns false w1 =>
      (disk w1 = disk w \/
       ((filename ∉ readonly (disk w)) /\
        exists content,
          files (disk w1) !! filename = Some content /\ complete_cache content = false))
  | Undefined w1 => (disk w1 = disk w \/ filename ∉ readonly (disk w))
  end.
Proof.
  unfold saveProgramBinary.
  destruct (program =? 0); [save_same|].
  unfold_gl.
  destruct (drv_glGetProgramiv drv (gl w) program GL_LINK_STATUS) as [ls d1] eqn:Hls.
  rewrite (run_bind _ _ _ _ _ (run_query _ _ _ _ _ _ Hls)).
  destruct (s32 ls =? GL_TRUE); cbn [negb]; [|save_same].
  rewrite (run_bind _ _ _ _ _ (checkProgramBinarySupport_run _)).
  destruct (reported_formats _ _ <? 1); cbn [negb]; [save_same|].
  match goal with |- context [(query ?f s32 ?ev ≫= _) ?x] =>
    destruct (f (gl x)) as [len d3] eqn:Hlen end.
  rewrite (run_bind _ _ _ _ _ (run_query _ _ _ _ _ _ Hlen)).
  destruct (Z.leb_spec (s32 len) 0) as [|Hpos]; [save_same|].
  rewrite run_cout.
  destruct (drv_glGetProgramBinary_loaded drv);
    [|unfold mbind, M_bind, undefined; left; reflexivity].
  destruct (drv_glGetProgramBinary drv d3 program (s32 len)) as [r d4] eqn:Hbin.
  erewrite run_bind by (apply run_query; exact Hbin).
  destruct (drv_glGetError drv d4) as [e d5] eqn:Herr.
  erewrite run_bind by (apply run_query; exact Herr).
  destruct (u32 e =? GL_NO_ERROR); cbn [negb]; [|save_same].
  cbn [conv_binary pb_length pb_format pb_bytes].
  fold (retrieved_buffer (s32 len) r).
  match goal with |- context [mbind ?k (if ?c then cout ?l else mret tt) ?x] =>
    assert (Hw : exists w6, mbind k (if c then cout l else mret tt) x = k tt w6 /\
                            disk w6 = disk w)
      by (destruct c; [rewrite run_cout|rewrite run_ret]; eexists; split; reflexivity);
    destruct Hw as (w6 & -> & Hd6)
  end.
  set (n := s32 (pb_length r)).
  destruct (Z.eqb_spec n 0) as [|Hn0]; [save_same|].
  destruct (decide (filename ∈ readonly (disk w6))) as [Hro|Hro].
  { rewrite run_ofstream_open_ro by exact Hro. cbn [of_open negb]. save_same. }
  assert (Hro' : filename ∉ readonly (disk w)) by (rewrite <- Hd6; exact Hro).
  rewrite run_ofstream_open_rw by exact Hro. cbn [of_open negb].
  rewrite run_ofstream_write by reflexivity.
  cbn [of_path of_open disk emit set_disk files readonly room].
  rewrite lookup_insert_eq, insert_insert_eq. cbn [default from_option id app].
  set (b1 := le_encode 4 (u32 (pb_format r))).
  set (b2 := le_encode 4 n).
  assert (Hb1 : length b1 = 4%nat) by apply le_encode_length.
  assert (Hb2 : length b2 = 4%nat) by apply le_encode_length.
  assert (Hdecl : s32 (le_decode b2) = n).
  { unfold b2. rewrite le_decode_s32. unfold n. apply s32_idem. }
  clearbody b1 b2.
  match goal with |- context [bool_decide ?P] => destruct (bool_decide P) eqn:Hw1 end.
  2:{ apply bool_decide_eq_false_1 in Hw1.
      rewrite run_ofstream_write_bad by reflexivity.
      rewrite run_ofstream_write_n_bad by reflexivity.
      rewrite run_ofstream_close by reflexivity. cbn [of_good negb].
      rewrite run_cout. unfold mret, M_ret. cbv iota. right. split; [exact Hro'|].
      eexists. split; [cbn [disk emit set_disk files]; apply lookup_insert_eq|].
      apply complete_cache_short. rewrite length_take. lia. }
  apply bool_decide_eq_true_1 in Hw1. rewrite (take_ge b1) by exact Hw1.
  rewrite run_ofstream_write by reflexivity.
  cbn [of_path of_open disk emit set_disk files readonly room].
  rewrite lookup_insert_eq, insert_insert_eq. cbn [default from_option id].
  match goal with |- context [bool_decide ?P] => destruct (bool_decide P) eqn:Hw2 end.
  2:{ apply bool_decide_eq_false_1 in Hw2.
      rewrite run_ofstream_write_n_bad by reflexivity.
      rewrite run_ofstream_close by reflexivity. cbn [of_good negb].
      rewrite run_cout. unfold mret, M_ret. cbv iota. right. split; [exact Hro'|].
      eexists. split; [cbn [disk emit set_disk files]; apply lookup_insert_eq|].
      apply complete_cache_short. rewrite length_app, length_take. lia. }
  apply bool_decide_eq_true_1 in Hw2. rewrite (take_ge b2) by exact Hw2.
  unfold ofstream_write_n. cbn [of_good]. rewrite retrieved_buffer_length.
  destruct ((0 <=? n) && (n <=? Z.of_nat (Z.to_nat (s32 len)))) eqn:Hbounds.
  2:{ unfold mbind, M_bind, undefined. right. exact Hro'. }
  apply andb_true_iff in Hbounds. destruct Hbounds as [Hn1 Hn2].
  apply Z.leb_le in Hn1, Hn2.
  set (payload := take (Z.to_nat n) (retrieved_buffer (s32 len) r)).
  assert (Hpl : Z.of_nat (length payload) = n).
  { unfold payload. rewrite length_take, retrieved_buffer_length. lia. }
  rewrite run_ofstream_write by reflexivity.
  cbn [of_path of_open disk emit set_disk files readonly room].
  rewrite lookup_insert_eq, insert_insert_eq. cbn [default from_option id].
  rewrite run_ofstream_close by reflexivity. cbn [of_good of_path].
  match goal with |- context [bool_decide ?P] => destruct (bool_decide P) eqn:Hw3 end;
    cbn [negb]; rewrite run_cout; unfold mret, M_ret; cbv iota; [exact Hro'|].
  apply bool_decide_eq_false_1 in Hw3.
  right. split; [exact Hro'|].
  eexists. split; [cbn [disk emit set_disk files]; apply lookup_insert_eq|].
  rewrite <- app_assoc. apply complete_cache_torn; [exact Hb1|exact Hb2|].
  rewrite Hdecl, length_take. lia.
Qed.

(** X11.  [saveProgramBinary] to a path that cannot be written never returns
    [true], and leaves the whole disk as it was. *)
Theorem saveProgramBinary_readonly (program : Z) (filename : string) (w : World) :
  filename ∈ readonly (disk w) ->
  result_of (saveProgramBinary drv program filename) w <> Some true /\
  disk (final_world (saveProgramBinary drv program filename w)) = disk w.
Proof.
  intros Hro. pose proof (saveProgramBinary_disk program filename w) as H.
  unfold result_of.
  destruct (saveProgramBinary drv program filename w) as [[|] w1|w1]; cbn [final_world].
  - contradiction.
  - split; [discriminate|]. destruct H as [H|[H _]]; [exact H|contradiction].
  - split; [discriminate|]. destruct H as [H|H]; [exact H|contradiction].
Qed.

(** X12.  A save that returns [false] leaves either the disk as it was, or a file
    that every later [loadProgramBinary] of the same name rejects: a cache
    half written is never loaded. *)
Theorem saveProgramBinary_failure_never_loaded
        (program : Z) (filename : string) (w w1 : World) :
  saveProgramBinary drv program filename w = Returns false w1 ->
  disk w1 = disk w \/
  forall w2,
    files (disk w2) !! filename = files (disk w1) !! filename ->
    result_of (load filename) w2 = Some 0.
Proof.
  intros Hsave. pose proof (saveProgramBinary_disk program filename w) as H.
  rewrite Hsave in H. destruct H as [H|(_ & content & Hfile & Hbad)]; [left; exact H|].
  right. intros w2 Hsame. rewrite Hfile in Hsame.
  destruct (loadProgramBinary_hit_or_miss filename w2) as (h & w' & Hrun & Hcase).
  unfold result_of. rewrite Hrun.
  destruct Hcase as [->|(fmtb & lenb & payload & extra & st & Hfile' & Hf & Hl & Hpos &
                         Hlen & _)]; [reflexivity|].
  rewrite Hsame in Hfile'. injection Hfile' as ->.
  rewrite (complete_cache_parts _ _ _ _ Hf Hl Hpos Hlen) in Hbad. discriminate Hbad.
Qed.

(** *** The orchestrator, path by path *)

Lemma run_bind_undefined {A B} (m : M (D:=D) A) (k : A -> M (D:=D) B) w w' :
  m w = Undefined w' -> mbind k m w = Undefined w'.
Proof. intros H. unfold mbind, M_bind. rewrite H. reflexivity. Qed.

Lemma static_binarySupported_trace (w : World) :
  exists w1 pre,
    static_binarySupported drv w = Returns (memoised drv w) w1 /\
    trace w1 = trace w ++ pre /\
    (pre = [] \/ exists n, pre = probe_events drv n).
Proof.
  unfold static_binarySupported, memoised.
  destruct (binarySupported w) as [b|].
  - exists w, []. split; [reflexivity|]. split; [symmetry; apply app_nil_r|left; reflexivity].
  - rewrite checkProgramBinarySupport_run. do 2 eexists. split; [reflexivity|].
    split; [norm_trace; reflexivity|]. right. eexists. reflexivity.
Qed.

Lemma createOrLoadShaderProgram_shape (P : Event -> Prop) (w : World) :
  (forall program, emits P any (saveProgramBinary drv program binaryFilename)) ->
  exists pre evs,
    (pre = [] \/ exists n, pre = probe_events drv n) /\
    events_of createOrLoad w = pre ++ evs /\
    cache_run drv P (result_of createOrLoad w) evs.
Proof.
  intros Hsave.
  destruct (static_binarySupported_trace w) as (w1 & pre & Hstatic & Ht1 & Hpre).
  exists pre. unfold events_of, result_of, createOrLoadShaderProgram.
  rewrite (run_bind _ _ _ _ _ Hstatic).
  destruct (memoised drv w).
  - rewrite run_assoc.
    destruct (loadProgramBinary_shape_run binaryFilename w1)
      as (h & w2 & levs & Hload & Ht2 & Hlr).
    rewrite checkProgramBinarySupport_events in Ht2.
    fold (probe_events drv (reported_formats drv w1)) in Ht2.
    rewrite (run_bind _ _ _ _ _ Hload).
    destruct (Z.eqb_spec h 0) as [Hh|Hh]; cbn [negb].
    + rewrite run_assoc, run_cout, run_ret.
      match goal with |- context [(createShaderProgramFromSource drv ≫= _) ?x] =>
        destruct (createShaderProgramFromSource_outcome x)
          as (p & w4 & cevs & Hc & Ht4 & Hcr) end.
      rewrite (run_bind _ _ _ _ _ Hc). cbn [trace emit] in Ht4.
      destruct (Z.eqb_spec p 0) as [Hp|Hp].
      * rewrite run_cout. unfold mret, M_ret. cbn [trace emit].
        eexists. split; [exact Hpre|].
        rewrite Ht4, Ht2, Ht1, <- !app_assoc, drop_app_length. cbn [app].
        split; [reflexivity|]. subst h p. apply cache_miss_failed; assumption.
      * rewrite run_assoc.
        destruct (Hsave p w4) as (sevs & HP & Hts).
        destruct (saveProgramBinary drv p binaryFilename w4) as [saved w5|w5] eqn:Hs.
        -- destruct Hts as [Hts _]. rewrite (run_bind _ _ _ _ _ Hs).
           assert (Hline : forall k : unit -> M (D:=D) Z,
                     ((if negb saved
                       then cout [Str "Warning: Failed to save program binary, but program compiled successfully"]
                       else cout [Str "Program binary cached for future use"]) ≫= k) w5
                     = k tt (emit (E_cout (if saved
                            then [Str "Program binary cached for future use"]
                            else [Str "Warning: Failed to save program binary, but program compiled successfully"])) w5))
             by (intros k; destruct saved; reflexivity).
           rewrite Hline. unfold mret, M_ret. cbn [trace emit].
           eexists. split; [exact Hpre|].
           rewrite Hts, Ht4, Ht2, Ht1, <- !app_assoc, drop_app_length. cbn [app].
           split; [reflexivity|]. subst h. apply cache_miss_saved; assumption.
        -- rewrite (run_bind_undefined _ _ _ _ Hs).
           eexists. split; [exact Hpre|].
           rewrite Hts, Ht4, Ht2, Ht1, <- !app_assoc, drop_app_length. cbn [app].
           split; [reflexivity|]. subst h. apply (cache_miss_undefined drv P _ _ p); assumption.
    + rewrite run_assoc, run_cout, run_ret. unfold mret, M_ret. cbn [trace emit].
      eexists. split; [exact Hpre|].
      rewrite Ht2, Ht1, <- !app_assoc, drop_app_length.
      split; [reflexivity|]. apply cache_hit; assumption.
  - rewrite run_assoc, run_cout, run_ret.
    match goal with |- context [(createShaderProgramFromSource drv ≫= _) ?x] =>
      destruct (createShaderProgramFromSource_outcome x)
        as (p & w4 & cevs & Hc & Ht4 & Hcr) end.
    rewrite (run_bind _ _ _ _ _ Hc). cbn [trace emit] in Ht4.
    pose proof (cache_unsupported drv P p cevs Hcr) as Hrun.
    destruct (Z.eqb_spec p 0) as [Hp|Hp].
    + rewrite run_cout. unfold mret, M_ret. cbn [trace emit].
      eexists. split; [exact Hpre|].
      rewrite Ht4, Ht1, <- !app_assoc, drop_app_length. cbn [app].
      split; [reflexivity|]. rewrite Hp in Hrun at 1. exact Hrun.
    + rewrite run_ret. unfold mret, M_ret.
      eexists. split; [exact Hpre|].
      rewrite Ht4, Ht1, <- !app_assoc, drop_app_length. cbn [app].
      split; [reflexivity|]. rewrite app_nil_r in Hrun. exact Hrun.
Qed.

Ltac in_parts := repeat first [rewrite in_app_iff | progress cbn [In]].
Ltac in_parts_in H := repeat first [rewrite in_app_iff in H | progress cbn [In] in H].

Ltac ex_parts_in H :=
  repeat first [rewrite Exists_app in H | rewrite Exists_cons in H
               | rewrite Exists_nil in H];
  cbn [is_output] in H.

Lemma not_in_of_Forall {A} (x : A) (l : list A) :
  Forall (fun e => e <> x) l -> ~ In x l.
Proof.
  intros H Hin. rewrite Forall_forall in H. apply list_elem_of_In, H in Hin.
  apply Hin. reflexivity.
Qed.

Lemma compile_run_linked (p : Z) (cevs : list Event) :
  compile_run p cevs -> p <> 0 ->
  In (E_glCreateProgram p) cevs /\
  (exists sl, sl <> 0 /\ In (E_glGetProgramiv p GL_LINK_STATUS sl) cevs) /\
  In (E_cout [Str "Shader program compiled and linked successfully from source"]) cevs.
Proof.
  intros H Hp. inversion H; subst; try contradiction.
  split; [in_now|]. split; [|in_now]. eexists. split; [eassumption|in_now].
Qed.

Lemma load_run_linked (filename : string) (h : Z) (levs : list Event) :
  load_run filename h levs -> h <> 0 ->
  In (E_glCreateProgram h) levs /\
  exists st, st <> 0 /\ In (E_glGetProgramiv h GL_LINK_STATUS st) levs.
Proof.
  intros H Hh. inversion H; subst; try contradiction.
  split; [in_now|]. eexists. split; [eassumption|in_now].
Qed.

Lemma saveProgramBinary_emits_any (P : Event -> Prop) (program : Z) (filename : string) :
  (forall e,
     compiles e = false ->
     e <> E_cout [Str "Successfully loaded program from binary cache"] ->
     P e) ->
  emits P any (saveProgramBinary drv program filename).
Proof.
  intros HP. unfold saveProgramBinary, checkProgramBinarySupport. unfold_gl.
  emits_go ltac:(apply HP; [reflexivity|discriminate]).
Qed.

(** X13.  A value other than 0 returned by [createOrLoadShaderProgram] is a program
    object created during the call, by the load or by the compilation, for
    which the driver reported a link status other than 0 during the call. *)
Theorem createOrLoadShaderProgram_returns_linked (w : World) (h : Z) :
  result_of createOrLoad w = Some h ->
  h <> 0 ->
  In (E_glCreateProgram h) (events_of createOrLoad w) /\
  exists st, st <> 0 /\ In (E_glGetProgramiv h GL_LINK_STATUS st) (events_of createOrLoad w).
Proof.
  intros Hres Hh.
  destruct (createOrLoadShaderProgram_shape (fun _ => True) w)
    as (pre & evs & _ & Hev & Hrun).
  { intros program. apply saveProgramBinary_emits_any. intros; exact I. }
  rewrite Hres in Hrun. rewrite Hev. clear Hev Hres.
  inversion Hrun; subst; try congruence;
    match goal with
    | H : compile_run h _ |- _ =>
        destruct (compile_run_linked _ _ H Hh) as (Hc & (st & Hst & Hl) & _)
    | H : load_run _ h _ |- _ =>
        destruct (load_run_linked _ _ _ H Hh) as (Hc & st & Hst & Hl)
    end;
    (split; [|exists st; split; [exact Hst|]]); in_parts; tauto.
Qed.

(** X14.  [createOrLoadShaderProgram] returns 0 only after it has tried to build the
    program from source and got none, which it reports; and then it has
    written nothing: no output stream was opened. *)
Theorem createOrLoadShaderProgram_zero (w : World) :
  result_of createOrLoad w = Some 0 ->
  In (E_cout [Str "Failed to compile shader program from source"])
     (events_of createOrLoad w) /\
  Exists (fun e => compiles e = true) (events_of createOrLoad w) /\
  Forall (fun e => is_output e = false) (events_of createOrLoad w).
Proof.
  intros Hres.
  destruct (createOrLoadShaderProgram_shape (fun _ => True) w)
    as (pre & evs & Hpre & Hev & Hrun).
  { intros program. apply saveProgramBinary_emits_any. intros; exact I. }
  rewrite Hres in Hrun. rewrite Hev. clear Hev Hres.
  assert (Hq : Forall (fun e => is_output e = false) pre).
  { destruct Hpre as [->|[n ->]]; repeat constructor. }
  assert (Hprobe : forall n, Forall (fun e => is_output e = false) (probe_events drv n)).
  { intros n. repeat constructor. }
  assert (Hcompile : forall p cevs, compile_run p cevs ->
            Forall (fun e => is_output e = false) cevs /\
            Exists (fun e => compiles e = true) cevs).
  { intros p cevs H. inversion H; subst;
      (split; [repeat constructor|apply Exists_cons_tl, Exists_cons_hd; reflexivity]). }
  assert (Hload : forall h levs, load_run binaryFilename h levs ->
            Forall (fun e => is_output e = false) levs).
  { intros h levs H. inversion H; subst; repeat constructor. }
  inversion Hrun; subst; try contradiction;
    match goal with H : compile_run _ _ |- _ => destruct (Hcompile _ _ H) as [Hc1 Hc2] end.
  - cbn [Z.eqb]. split; [in_parts; tauto|]. split.
    + apply Exists_app. right. apply Exists_cons_tl, Exists_app. left. exact Hc2.
    + apply Forall_app. split; [exact Hq|]. constructor; [reflexivity|].
      apply Forall_app. split; [exact Hc1|repeat constructor].
  - split; [in_parts; tauto|]. split.
    + apply Exists_app. right. apply Exists_app. right. apply Exists_app. right.
      apply Exists_cons_tl, Exists_app. left. exact Hc2.
    + repeat (apply Forall_app; split); eauto.
      constructor; [reflexivity|]. apply Forall_app. split; [exact Hc1|repeat constructor].
Qed.

(** X15.  The two paths of [createOrLoadShaderProgram] exclude each other: a run
    that reports a cache hit has compiled nothing and opened no output stream;
    a run that has touched an output stream has missed the cache, and has
    compiled and linked a program from source. *)
Theorem createOrLoadShaderProgram_exclusive (w : World) :
  let evs := events_of createOrLoad w in
  (In (E_cout [Str "Successfully loaded program from binary cache"]) evs ->
   Forall (fun e => compiles e = false /\ is_output e = false) evs) /\
  (Exists (fun e => is_output e = true) evs ->
   In (E_cout [Str "Binary cache not found or invalid, compiling from source..."]) evs /\
   In (E_cout [Str "Shader program compiled and linked successfully from source"]) evs).
Proof.
  cbn zeta.
  set (hit := E_cout [Str "Successfully loaded program from binary cache"]).
  destruct (createOrLoadShaderProgram_shape (fun e => e <> hit) w)
    as (pre & evs & Hpre & Hev & Hrun).
  { intros program. apply saveProgramBinary_emits_any. intros e _ He. exact He. }
  rewrite Hev. clear Hev.
  set (quiet := fun e => (compiles e = false /\ is_output e = false) /\ e <> hit).
  assert (Hprobe : forall n, Forall quiet (probe_events drv n)).
  { intros n. unfold probe_events, probe_line.
    destruct (n <? 1); [|destruct (drv_glGetProgramBinary_loaded drv)];
      repeat constructor; discriminate. }
  assert (Hq : Forall quiet pre).
  { destruct Hpre as [->|[n ->]]; [constructor|apply Hprobe]. }
  assert (Hload : forall h levs, load_run binaryFilename h levs -> Forall quiet levs).
  { intros h levs H. inversion H; subst; repeat constructor; discriminate. }
  assert (Hcompile : forall p cevs, compile_run p cevs ->
            Forall (fun e => is_output e = false /\ e <> hit) cevs).
  { intros p cevs H. inversion H; subst; repeat constructor; discriminate. }
  assert (Hno : forall l, Forall quiet l -> ~ In hit l).
  { intros l H. apply not_in_of_Forall. eapply Forall_impl; [exact H|]. intros e He. apply He. }
  assert (Hno' : forall l, Forall (fun e => is_output e = false /\ e <> hit) l -> ~ In hit l).
  { intros l H. apply not_in_of_Forall. eapply Forall_impl; [exact H|]. intros e He. apply He. }
  assert (Hout : forall l, Forall quiet l -> ~ Exists (fun e => is_output e = true) l).
  { intros l H Hex. rewrite Exists_exists in Hex. destruct Hex as (e & Hin & He).
    rewrite Forall_forall in H. apply H in Hin. destruct Hin as [[_ Hin] _]. congruence. }
  assert (Hout' : forall l, Forall (fun e => is_output e = false /\ e <> hit) l ->
                            ~ Exists (fun e => is_output e = true) l).
  { intros l H Hex. rewrite Exists_exists in Hex. destruct Hex as (e & Hin & He).
    rewrite Forall_forall in H. apply H in Hin. destruct Hin as [Hin _]. congruence. }
  pose proof (Hno _ Hq) as Hpre_hit. pose proof (Hout _ Hq) as Hpre_out.
  inversion Hrun; subst;
    repeat match goal with
      | H : load_run _ _ _ |- _ =>
          pose proof (Hno _ (Hload _ _ H)); pose proof (Hout _ (Hload _ _ H));
          pose proof (Hload _ _ H); clear H
      | H : compile_run ?p _ |- _ =>
          pose proof (Hno' _ (Hcompile _ _ H)); pose proof (Hout' _ (Hcompile _ _ H));
          pose proof (fun Hp => compile_run_linked _ _ H Hp); clear H
      end;
    try (pose proof (Hno _ (Hprobe n)); pose proof (Hout _ (Hprobe n)));
    try match goal with H : Forall (fun e => e <> hit) ?l |- _ =>
          pose proof (not_in_of_Forall _ _ H) end.
  all: subst quiet hit; cbv beta in *.
  - destruct (p =? 0);
      (split;
       [intros Hin; in_parts_in Hin; exfalso; intuition congruence
       |intros Hex; ex_parts_in Hex; exfalso; intuition congruence]).
  - split.
    + intros _. repeat (apply Forall_app; split);
        try (eapply Forall_impl; [eauto|cbv beta; intros e He; apply He]).
      repeat constructor.
    + intros Hex. ex_parts_in Hex. exfalso. intuition congruence.
  - split;
      [intros Hin; in_parts_in Hin; exfalso; intuition congruence
      |intros Hex; ex_parts_in Hex; exfalso; intuition congruence].
  - split.
    + intros Hin. in_parts_in Hin. exfalso. destruct saved; intuition congruence.
    + intros _.
      match goal with H : _ -> In (E_glCreateProgram p) cevs /\ _ |- _ =>
        destruct H as (_ & _ & Hc); [assumption|] end.
      split; in_parts; tauto.
  - split.
    + intros Hin. in_parts_in Hin. exfalso. intuition congruence.
    + intros _.
      match goal with H : _ -> In (E_glCreateProgram p) cevs /\ _ |- _ =>
        destruct H as (_ & _ & Hc); [assumption|] end.
      split; in_parts; tauto.
Qed.

(** *** One path for the load and for the save *)

Lemma loadProgramBinary_reads_whole
      (filename : string) (w : World) (fmtb lenb payload extra : list byte) :
  files (disk w) !! filename = Some (fmtb ++ lenb ++ payload ++ extra) ->
  length fmtb = 4%nat -> length lenb = 4%nat ->
  0 < s32 (le_decode lenb) ->
  Z.of_nat (length payload) = s32 (le_decode lenb) ->
  result_of (checkProgramBinarySupport drv) w = Some true ->
  exists h w2 q tail,
    load filename w = Returns h w2 /\
    trace w2 = trace w ++ probe_events drv (reported_formats drv w) ++
      [E_open_in filename true; E_read filename 4 fmtb; E_read filename 4 lenb;
       E_read filename (s32 (le_decode lenb)) payload; E_close_in filename;
       E_glCreateProgram q;
       E_glProgramBinary q (u32 (le_decode fmtb)) payload (s32 (le_decode lenb))] ++ tail.
Proof.
  intros Hfile Hf Hl Hpos Hlen Hprobe.
  unfold result_of in Hprobe. rewrite checkProgramBinarySupport_run in Hprobe.
  injection Hprobe as Hprobe. unfold probe_events.
  unfold loadProgramBinary.
  rewrite (run_bind _ _ _ _ _ (checkProgramBinarySupport_run _)).
  destruct (reported_formats drv w <? 1); [discriminate Hprobe|]; cbn [negb].
  rewrite (run_ifstream_open _ (fmtb ++ lenb ++ payload ++ extra)) by exact Hfile.
  cbn [if_open negb].
  rewrite run_ifstream_read by reflexivity. cbn [if_rest if_path if_open].
  rewrite (take_header _ _ Hf), (drop_header _ _ Hf), Hf.
  rewrite run_ifstream_read by (apply bool_decide_eq_true_2; reflexivity).
  cbn [if_rest if_path if_open].
  rewrite (take_header _ _ Hl), (drop_header _ _ Hl), Hl.
  rewrite (overlay_header _ _ Hl), (overlay_header _ _ Hf).
  destruct (Z.leb_spec (s32 (le_decode lenb)) 0) as [|_]; [lia|].
  rewrite run_ifstream_read by (apply bool_decide_eq_true_2; reflexivity).
  cbn [if_rest if_path if_open].
  assert (Htake : take (Z.to_nat (s32 (le_decode lenb))) (payload ++ extra) = payload)
    by (apply take_app_length'; lia).
  rewrite Htake.
  rewrite run_ifstream_close by reflexivity. cbn [if_open if_gcount if_path].
  rewrite Hlen, Z.eqb_refl. cbn [negb].
  rewrite (overlay_full payload) by (rewrite length_replicate; lia).
  unfold_gl.
  match goal with |- context [(query ?f u32 ?ev ≫= _) ?x] =>
    destruct (f (gl x)) as [p0 d1] eqn:Hcreate end.
  rewrite (run_bind _ _ _ _ _ (run_query _ _ _ _ _ _ Hcreate)).
  rewrite run_command.
  match goal with |- context [(query ?f u32 ?ev ≫= _) ?x] =>
    destruct (f (gl x)) as [e d2] eqn:Herr end.
  rewrite (run_bind _ _ _ _ _ (run_query _ _ _ _ _ _ Herr)).
  destruct (u32 e =? GL_NO_ERROR); cbn [negb].
  2:{ rewrite run_cout, run_command. unfold mret, M_ret. do 4 eexists.
      split; [reflexivity|]. norm_trace. reflexivity. }
  match goal with |- context [(query ?f s32 ?ev ≫= _) ?x] =>
    destruct (f (gl x)) as [st d3] eqn:Hstatus end.
  rewrite (run_bind _ _ _ _ _ (run_query _ _ _ _ _ _ Hstatus)).
  destruct (s32 st =? GL_FALSE).
  - rewrite run_cout.
    match goal with |- context [(query ?f s32 ?ev ≫= _) ?x] =>
      destruct (f (gl x)) as [ll d4] eqn:Hll end.
    rewrite (run_bind _ _ _ _ _ (run_query _ _ _ _ _ _ Hll)).
    destruct (0 <? s32 ll).
    + rewrite run_assoc.
      match goal with |- context [(query ?f id ?ev ≫= _) ?x] =>
        destruct (f (gl x)) as [msg d5] eqn:Hmsg end.
      rewrite (run_bind _ _ _ _ _ (run_query _ _ _ _ _ _ Hmsg)).
      rewrite run_cout, run_command. unfold mret, M_ret. do 4 eexists.
      split; [reflexivity|]. norm_trace. reflexivity.
    + rewrite run_ret, run_command. unfold mret, M_ret. do 4 eexists.
      split; [reflexivity|]. norm_trace. reflexivity.
  - rewrite run_cout. unfold mret, M_ret. do 4 eexists.
    split; [reflexivity|]. norm_trace. reflexivity.
Qed.

Lemma events_of_final {A} (m : M (D:=D) A) (w : World) :
  events_of m w = drop (length (trace w)) (trace (final_world (m w))).
Proof. unfold events_of, final_world. destruct (m w); reflexivity. Qed.

(** With the static [true], the run goes through the load of the one path;
    what follows only appends to the trace. *)
Lemma createOrLoadShaderProgram_after_load (w w1 : World) :
  static_binarySupported drv w = Returns true w1 ->
  exists h w2 after,
    load binaryFilename w1 = Returns h w2 /\
    trace (final_world (createOrLoad w)) = trace w2 ++ after.
Proof.
  intros Hstatic.
  destruct (loadProgramBinary_shape_run binaryFilename w1)
    as (h & w2 & levs & Hload & _ & _).
  exists h, w2. unfold createOrLoadShaderProgram.
  rewrite (run_bind _ _ _ _ _ Hstatic). cbv iota.
  rewrite run_assoc, (run_bind _ _ _ _ _ Hload).
  destruct (Z.eqb_spec h 0) as [Hh|Hh]; cbn [negb].
  - rewrite run_assoc, run_cout, run_ret.
    match goal with |- context [(createShaderProgramFromSource drv ≫= _) ?x] =>
      destruct (createShaderProgramFromSource_outcome x)
        as (p & w4 & cevs & Hc & Ht4 & _) end.
    rewrite (run_bind _ _ _ _ _ Hc). cbn [trace emit] in Ht4.
    destruct (p =? 0).
    + rewrite run_cout. unfold mret, M_ret. cbn [final_world trace emit].
      eexists. split; [exact Hload|]. rewrite Ht4, <- !app_assoc. reflexivity.
    + rewrite run_assoc.
      destruct (saveProgramBinary_emits_any (fun _ => True) p binaryFilename
                  (fun _ _ _ => I) w4) as (sevs & _ & Hts).
      destruct (saveProgramBinary drv p binaryFilename w4) as [saved w5|w5] eqn:Hs.
      * destruct Hts as [Hts _]. rewrite (run_bind _ _ _ _ _ Hs).
        destruct saved; cbn [negb]; rewrite run_cout; unfold mret, M_ret;
          cbn [final_world trace emit]; eexists; (split; [exact Hload|]);
          rewrite Hts, Ht4, <- !app_assoc; reflexivity.
      * rewrite (run_bind_undefined _ _ _ _ Hs). cbn [final_world].
        eexists. split; [exact Hload|]. rewrite Hts, Ht4, <- !app_assoc. reflexivity.
  - rewrite run_assoc, run_cout, run_ret. unfold mret, M_ret.
    cbn [final_world trace emit]. eexists. split; [exact Hload|reflexivity].
Qed.

(** C10.  [createOrLoadShaderProgram] runs [loadProgramBinary] and
    [saveProgramBinary] on the one path "shader_program.bin", which no
    argument can change:
    - every stream event of every run is on that path, so a path one run
      opens for writing is the path any run opens for reading;
    - with the static [true], the run is the load of that path followed, on a
      hit, by one line, and on a miss after which the sources compiled, by the
      save of the program to that path and one line (or by nothing more when
      the save does not return);
    - when the save of a miss returned [true], the run has opened that path
      for writing and written a format, a length and a payload, which are the
      content of the file when it ends; and a later run on a disk with this
      file, whose static and whose probe in the load say supported, opens the
      same path and reads exactly this format, length and payload, which it
      submits to the driver. *)
Theorem createOrLoadShaderProgram_single_path (w : World) :
  Forall (on_path "shader_program.bin") (events_of createOrLoad w) /\
  (forall w' p q ok ok',
     In (E_open_out p ok) (events_of createOrLoad w) ->
     In (E_open_in q ok') (events_of createOrLoad w') ->
     p = q) /\
  (forall w1,
     static_binarySupported drv w = Returns true w1 ->
     exists h w2,
       load "shader_program.bin" w1 = Returns h w2 /\
       (h <> 0 ->
        createOrLoad w =
          Returns h (emit (E_cout [Str "Successfully loaded program from binary cache"]) w2)) /\
       (h = 0 ->
        forall p w3,
          createShaderProgramFromSource drv
            (emit (E_cout [Str "Binary cache not found or invalid, compiling from source..."]) w2)
            = Returns p w3 ->
          p <> 0 ->
          createOrLoad w =
            match saveProgramBinary drv p "shader_program.bin" w3 with
            | Returns saved w4 =>
                Returns p
                  (emit (E_cout (if saved
                                 then [Str "Program binary cached for future use"]
                                 else [Str "Warning: Failed to save program binary, but program compiled successfully"]))
                     w4)
            | Undefined w4 => Undefined w4
            end)) /\
  (forall w1 w2 p w3 w4,
     static_binarySupported drv w = Returns true w1 ->
     load "shader_program.bin" w1 = Returns 0 w2 ->
     createShaderProgramFromSource drv
       (emit (E_cout [Str "Binary cache not found or invalid, compiling from source..."]) w2)
       = Returns p w3 ->
     p <> 0 ->
     saveProgramBinary drv p "shader_program.bin" w3 = Returns true w4 ->
     exists fmtb lenb payload,
       length fmtb = 4%nat /\ length lenb = 4%nat /\
       0 < s32 (le_decode lenb) /\
       Z.of_nat (length payload) = s32 (le_decode lenb) /\
       (exists before line,
          Forall (fun e => is_output e = false) before /\
          events_of createOrLoad w =
            before ++
            [E_open_out "shader_program.bin" true;
             E_write "shader_program.bin" fmtb; E_write "shader_program.bin" lenb;
             E_write "shader_program.bin" payload;
             E_close_out "shader_program.bin";
             E_cout line;
             E_cout [Str "Program binary cached for future use"]]) /\
       files (disk (final_world (createOrLoad w))) !! "shader_program.bin"
         = Some (fmtb ++ lenb ++ payload) /\
       forall w' w1',
         files (disk w') !! "shader_program.bin"
           = files (disk (final_world (createOrLoad w))) !! "shader_program.bin" ->
         static_binarySupported drv w' = Returns true w1' ->
         result_of (checkProgramBinarySupport drv) w1' = Some true ->
         exists before q after,
           Forall (fun e => is_file_event e = false) before /\
           events_of createOrLoad w' =
             before ++
             [E_open_in "shader_program.bin" true;
              E_read "shader_program.bin" 4 fmtb; E_read "shader_program.bin" 4 lenb;
              E_read "shader_program.bin" (s32 (le_decode lenb)) payload;
              E_close_in "shader_program.bin";
              E_glCreateProgram q;
              E_glProgramBinary q (u32 (le_decode fmtb)) payload (s32 (le_decode lenb))]
             ++ after).
Proof.
  assert (Hall : forall w0, Forall (on_path "shader_program.bin") (events_of createOrLoad w0)).
  { intros w0. apply (emits_events_of _ any).
    apply createOrLoadShaderProgram_emits.
    - intros e He p Hp. congruence.
    - intros e He p Hp. unfold binaryFilename in He. congruence. }
  split; [apply Hall|]. split.
  { intros w' p q ok ok' Hout Hin.
    pose proof (Hall w) as H1. pose proof (Hall w') as H2.
    rewrite Forall_forall in H1, H2.
    apply list_elem_of_In, H1 in Hout. apply list_elem_of_In, H2 in Hin.
    rewrite (Hout p eq_refl), (Hin q eq_refl). reflexivity. }
  assert (Hstep : forall w1 w2 p w3,
            static_binarySupported drv w = Returns true w1 ->
            load binaryFilename w1 = Returns 0 w2 ->
            createShaderProgramFromSource drv
              (emit (E_cout [Str "Binary cache not found or invalid, compiling from source..."]) w2)
              = Returns p w3 ->
            p <> 0 ->
            createOrLoad w =
              match saveProgramBinary drv p binaryFilename w3 with
              | Returns saved w4 =>
                  Returns p
                    (emit (E_cout (if saved
                                   then [Str "Program binary cached for future use"]
                                   else [Str "Warning: Failed to save program binary, but program compiled successfully"]))
                       w4)
              | Undefined w4 => Undefined w4
              end).
  { intros w1 w2 p w3 Hstatic Hload Hcompile Hp.
    unfold createOrLoadShaderProgram.
    rewrite (run_bind _ _ _ _ _ Hstatic). cbv iota.
    rewrite run_assoc, (run_bind _ _ _ _ _ Hload). cbn [Z.eqb negb].
    rewrite run_assoc, run_cout, run_ret, (run_bind _ _ _ _ _ Hcompile).
    apply Z.eqb_neq in Hp. rewrite Hp. rewrite run_assoc.
    destruct (saveProgramBinary drv p binaryFilename w3) as [saved w4|w4] eqn:Hs.
    - rewrite (run_bind _ _ _ _ _ Hs). destruct saved; reflexivity.
    - rewrite (run_bind_undefined _ _ _ _ Hs). reflexivity. }
  split.
  { intros w1 Hstatic.
    destruct (loadProgramBinary_shape_run binaryFilename w1)
      as (h & w2 & levs & Hload & _ & _).
    exists h, w2. split; [exact Hload|]. split.
    - intros Hh. unfold createOrLoadShaderProgram.
      rewrite (run_bind _ _ _ _ _ Hstatic). cbv iota.
      rewrite run_assoc, (run_bind _ _ _ _ _ Hload).
      apply Z.eqb_neq in Hh. rewrite Hh. cbn [negb].
      rewrite run_assoc, run_cout, run_ret. reflexivity.
    - intros -> p w3 Hcompile Hp. exact (Hstep w1 w2 p w3 Hstatic Hload Hcompile Hp). }
  intros w1 w2 p w3 w4 Hstatic Hload Hcompile Hp Hsave.
  change (load binaryFilename w1 = Returns 0 w2) in Hload.
  change (saveProgramBinary drv p binaryFilename w3 = Returns true w4) in Hsave.
  pose proof (Hstep w1 w2 p w3 Hstatic Hload Hcompile Hp) as Hrun.
  rewrite Hsave in Hrun. cbv iota in Hrun.
  destruct (saveProgramBinary_true_inv _ _ _ _ Hsave)
    as (ls & d1 & wp & len & d3 & r & d4 & e & d5 & _ & Hls & Hlink
        & Hprobe & Hlen & Hpos & Hloaded & Hbin & Herr & He & Hn & H).
  cbn zeta in H. destruct H as (_ & Hfiles & Htrace).
  rewrite checkProgramBinarySupport_run in Hprobe. injection Hprobe as _ <-.
  set (quiet := fun e => is_output e = false).
  destruct (static_binarySupported_trace w) as (wx & pre & Hx & Ht1 & Hpre).
  rewrite Hstatic in Hx. injection Hx as _ <-.
  assert (Hq1 : Forall quiet pre).
  { destruct Hpre as [->|[n ->]]; repeat constructor. }
  assert (Hload_e : emits quiet any (load binaryFilename)).
  { unfold loadProgramBinary, checkProgramBinarySupport. unfold_gl.
    emits_go ltac:(reflexivity). }
  destruct (Hload_e w1) as (e2 & Hq2 & Ht2). rewrite Hload in Ht2. destruct Ht2 as [Ht2 _].
  assert (Hcompile_e : emits quiet any (createShaderProgramFromSource drv)).
  { unfold createShaderProgramFromSource. unfold_gl. emits_go ltac:(reflexivity). }
  match type of Hcompile with _ ?x = _ =>
    destruct (Hcompile_e x) as (e3 & Hq3 & Ht3) end.
  rewrite Hcompile in Ht3. destruct Ht3 as [Ht3 _]. cbn [trace emit] in Ht3.
  set (n := s32 (pb_length r)) in *.
  exists (le_encode 4 (u32 (pb_format r))), (le_encode 4 n),
    (take (Z.to_nat n) (retrieved_buffer (s32 len) r)).
  assert (Hdecl : s32 (le_decode (le_encode 4 n)) = n).
  { rewrite le_decode_s32. unfold n. apply s32_idem. }
  rewrite Hdecl.
  split; [apply le_encode_length|]. split; [apply le_encode_length|].
  split; [lia|].
  split; [rewrite length_take, retrieved_buffer_length; lia|].
  split.
  { exists (pre ++ e2 ++
            [E_cout [Str "Binary cache not found or invalid, compiling from source..."]]
            ++ e3 ++
            [E_glGetProgramiv p GL_LINK_STATUS (s32 ls);
             E_glGetIntegerv GL_NUM_PROGRAM_BINARY_FORMATS
               (reported_formats drv
                  (emit (E_glGetProgramiv p GL_LINK_STATUS (s32 ls)) (set_gl d1 w3)));
             E_cout (probe_line drv
               (reported_formats drv
                  (emit (E_glGetProgramiv p GL_LINK_STATUS (s32 ls)) (set_gl d1 w3))));
             E_glGetProgramiv p GL_PROGRAM_BINARY_LENGTH (s32 len);
             E_cout [Str "Program binary length: "; Num (s32 len); Str " bytes"];
             E_glGetProgramBinary p (s32 len) (conv_binary r);
             E_glGetError (u32 e)] ++
            (if n =? s32 len then []
             else [E_cout [Str "Warning: Actual binary length ("; Num n;
                           Str ") differs from reported length ("; Num (s32 len);
                           Str ")"]])).
    eexists. split.
    - repeat (apply Forall_app; split); try assumption;
        try destruct (n =? s32 len); repeat constructor.
    - unfold events_of. rewrite Hrun. cbn [trace emit]. rewrite Htrace.
      cbn [trace emit set_gl]. rewrite Ht3, Ht2, Ht1.
      rewrite <- !app_assoc, drop_app_length. cbn [app].
      destruct (n =? s32 len); cbn [app]; reflexivity. }
  assert (Hfinal : files (disk (final_world (createOrLoad w))) !! "shader_program.bin"
                   = Some (le_encode 4 (u32 (pb_format r)) ++ le_encode 4 n ++
                           take (Z.to_nat n) (retrieved_buffer (s32 len) r))).
  { rewrite Hrun. cbn [final_world disk emit]. rewrite Hfiles. apply lookup_insert_eq. }
  split; [exact Hfinal|].
  intros w' w1' Hfile' Hstatic' Hprobe'. rewrite Hfinal in Hfile'.
  destruct (static_binarySupported_run w') as (wy & Hy & _ & Hdy & _).
  rewrite Hstatic' in Hy. injection Hy as _ <-.
  destruct (static_binarySupported_trace w') as (wz & pre' & Hz & Htz & Hpre').
  rewrite Hstatic' in Hz. injection Hz as _ <-.
  destruct (loadProgramBinary_reads_whole binaryFilename w1'
              (le_encode 4 (u32 (pb_format r))) (le_encode 4 n)
              (take (Z.to_nat n) (retrieved_buffer (s32 len) r)) [])
    as (h' & w2' & q & tail & Hload' & Ht2').
  { rewrite app_nil_r, Hdy. exact Hfile'. }
  { apply le_encode_length. }
  { apply le_encode_length. }
  { rewrite Hdecl. lia. }
  { rewrite Hdecl, length_take, retrieved_buffer_length. lia. }
  { exact Hprobe'. }
  rewrite Hdecl in Ht2'.
  destruct (createOrLoadShaderProgram_after_load w' w1' Hstatic')
    as (h2 & w2x & after & Hload2 & Hfin).
  rewrite Hload' in Hload2. injection Hload2 as <- <-.
  exists (pre' ++ probe_events drv (reported_formats drv w1')), q, (tail ++ after).
  split.
  - apply Forall_app. split; [|repeat constructor].
    destruct Hpre' as [->|[n' ->]]; repeat constructor.
  - rewrite events_of_final, Hfin, Ht2', Htz, <- !app_assoc, drop_app_length.
    reflexivity.
Qed.

End Proofs.

(** ** The reference driver keeps the contract *)

Lemma Ref_retrieved (bufSize : Z) (r : ProgramBinary) :
  pb_bytes r = Ref.blob -> 5 <= bufSize ->
  take 5 (retrieved_buffer bufSize r) = Ref.blob.
Proof.
  intros Hb Hle. unfold retrieved_buffer, overlay. rewrite Hb.
  rewrite take_take. replace (5 `min` Z.to_nat bufSize)%nat with 5%nat by lia.
  reflexivity.
Qed.

Lemma Ref_accepts_own_binaries : accepts_own_binaries (Ref.driver true true).
Proof.
  intros d program bufSize r d1 e d2 Hbin Herr He Hn. cbn zeta.
  cbn [Ref.driver drv_glGetProgramBinary drv_glGetError] in Hbin, Herr.
  destruct (Ref.is_linked program d && (Z.of_nat (length Ref.blob) <=? bufSize)
            && (1 <=? s32 (Ref.formats d))) eqn:Hc.
  2:{ injection Hbin as <- _. cbn [pb_length] in Hn. change (s32 0) with 0 in Hn. lia. }
  injection Hbin as <- <-. injection Herr as <- <-.
  apply andb_true_iff in Hc. destruct Hc as [Hc Hfmt].
  apply andb_true_iff in Hc. destruct Hc as [_ Hbuf].
  apply Z.leb_le in Hfmt, Hbuf. cbn in Hbuf.
  cbn [pb_length pb_format pb_bytes].
  change (s32 (Z.of_nat (length Ref.blob))) with 5.
  change (Z.to_nat 5) with 5%nat.
  rewrite Ref_retrieved by (reflexivity || lia).
  cbn [Ref.driver drv_glGetIntegerv drv_glCreateProgram drv_glProgramBinary
       drv_glGetError drv_glGetProgramiv Ref.fresh].
  set (p := Ref.next d mod 4294967295 + 1).
  assert (Hp : u32 p = p).
  { unfold u32. apply Z.mod_small. subst p.
    pose proof (Z.mod_pos_bound (Ref.next d) 4294967295). lia. }
  assert (Hp0 : p <> 0).
  { subst p. pose proof (Z.mod_pos_bound (Ref.next d) 4294967295). lia. }
  change (u32 Ref.format =? Ref.format) with true.
  change (Ref.bytes_eqb Ref.blob Ref.blob) with true. cbn [negb andb].
  do 8 eexists.
  split; [reflexivity|]. split; [exact Hfmt|].
  split; [reflexivity|]. cbn [Ref.next Ref.set_error]. fold p.
  split; [rewrite Hp; exact Hp0|].
  split; [reflexivity|]. split; [reflexivity|].
  split; [reflexivity|].
  rewrite Hp. unfold Ref.is_linked. cbn [Ref.linked Ref.set_linked Ref.set_error].
  rewrite bool_decide_eq_true_2 by (left). reflexivity.
Qed.

(** ** The theorems at concrete inputs *)

Lemma save_then_load_witness :
  exists h,
    result_of (loadProgramBinary Runs.drv 0 0 "cache.bin") Runs.after_save = Some h /\
    h <> 0 /\
    last (filter is_driver_event
            (events_of (loadProgramBinary Runs.drv 0 0 "cache.bin") Runs.after_save))
      = Some (E_glGetProgramiv h GL_LINK_STATUS GL_TRUE) /\
    Forall (fun e => is_delete e = false)
           (events_of (loadProgramBinary Runs.drv 0 0 "cache.bin") Runs.after_save).
Proof.
  apply (save_then_load Runs.drv 0 0 7 "cache.bin" Runs.before_save Runs.after_save).
  - exact Ref_accepts_own_binaries.
  - vm_compute. reflexivity.
Defined.

Lemma createOrLoadShaderProgram_save_failure_witness :
  createOrLoadShaderProgram Runs.drv 0 0 Runs.cold =
    Returns 3
      (emit (E_cout [Str "Warning: Failed to save program binary, but program compiled successfully"])
         Runs.cold_saved) /\
  Forall (fun e => is_delete e = false)
         (events_of (saveProgramBinary Runs.drv 3 binaryFilename) Runs.cold_compiled).
Proof.
  apply (createOrLoadShaderProgram_save_failure Runs.drv 0 0
           Runs.cold Runs.cold_probed Runs.cold_missed Runs.cold_compiled Runs.cold_saved
           3 false).
  - vm_compute. reflexivity.
  - vm_compute. reflexivity.
  - vm_compute. reflexivity.
  - lia.
  - vm_compute. reflexivity.
Defined.

Lemma createOrLoadShaderProgram_unsupported_witness :
  exists p w2,
    createShaderProgramFromSource Runs.drv
      (emit (E_cout [Str "Program binary not supported, compiling from source..."])
         Runs.bare_probed)
      = Returns p w2 /\
    result_of (createOrLoadShaderProgram Runs.drv 0 0) Runs.bare = Some p /\
    Forall (fun e => is_file_event e = false /\ is_binary_call e = false)
           (events_of (createOrLoadShaderProgram Runs.drv 0 0) Runs.bare).
Proof.
  apply (createOrLoadShaderProgram_unsupported Runs.drv 0 0 Runs.bare Runs.bare_probed).
  vm_compute. reflexivity.
Defined.

Lemma loadProgramBinary_rejects_truncated_witness :
  result_of (loadProgramBinary Runs.drv 0 0 "cache.bin") Runs.truncated = Some 0 /\
  Forall (fun e => is_create e = false /\ is_submission e = false)
         (events_of (loadProgramBinary Runs.drv 0 0 "cache.bin") Runs.truncated) /\
  exists supported,
    result_of (checkProgramBinarySupport Runs.drv) Runs.truncated = Some supported /\
    (supported = true ->
     events_of (loadProgramBinary Runs.drv 0 0 "cache.bin") Runs.truncated =
       events_of (checkProgramBinarySupport Runs.drv) Runs.truncated ++
       [E_open_in "cache.bin" true; E_read "cache.bin" 4 Runs.tag;
        E_read "cache.bin" 4 [x05; x00; x00; x00];
        E_read "cache.bin" 5 [xde; xad]; E_close_in "cache.bin";
        E_cout [Str "File read incomplete. Expected: "; Num 5;
                Str ", Actual: "; Num 2]]).
Proof.
  apply (loadProgramBinary_rejects_truncated Runs.drv 0 0 "cache.bin" Runs.truncated
           Runs.tag [x05; x00; x00; x00] [xde; xad]).
  - vm_compute. reflexivity.
  - reflexivity.
  - reflexivity.
  - vm_compute. reflexivity.
  - vm_compute. reflexivity.
Defined.

Lemma loadProgramBinary_rejects_nonpositive_length_witness :
  result_of (loadProgramBinary Runs.drv 0 0 "cache.bin") Runs.zero_length = Some 0 /\
  exists supported,
    result_of (checkProgramBinarySupport Runs.drv) Runs.zero_length = Some supported /\
    filter is_file_event
      (events_of (loadProgramBinary Runs.drv 0 0 "cache.bin") Runs.zero_length) =
      if supported
      then [E_open_in "cache.bin" true; E_read "cache.bin" 4 Runs.tag;
            E_read "cache.bin" 4 [x00; x00; x00; x00]; E_close_in "cache.bin"]
      else [].
Proof.
  apply (loadProgramBinary_rejects_nonpositive_length Runs.drv 0 0 "cache.bin"
           Runs.zero_length Runs.tag [x00; x00; x00; x00] [xde]).
  - vm_compute. reflexivity.
  - reflexivity.
  - reflexivity.
  - vm_compute. discriminate.
Defined.

Lemma createShaderProgramFromSource_success_witness :
  exists v f sl,
    In (E_glCreateShader GL_VERTEX_SHADER v)
       (events_of (createShaderProgramFromSource Runs.drv) Runs.fresh_start) /\
    In (E_glCreateShader GL_FRAGMENT_SHADER f)
       (events_of (createShaderProgramFromSource Runs.drv) Runs.fresh_start) /\
    In (E_glCreateProgram 3)
       (events_of (createShaderProgramFromSource Runs.drv) Runs.fresh_start) /\
    In (E_glAttachShader 3 v)
       (events_of (createShaderProgramFromSource Runs.drv) Runs.fresh_start) /\
    In (E_glAttachShader 3 f)
       (events_of (createShaderProgramFromSource Runs.drv) Runs.fresh_start) /\
    In (E_glLinkProgram 3)
       (events_of (createShaderProgramFromSource Runs.drv) Runs.fresh_start) /\
    sl <> 0 /\
    In (E_glGetProgramiv 3 GL_LINK_STATUS sl)
       (events_of (createShaderProgramFromSource Runs.drv) Runs.fresh_start) /\
    In (E_glDeleteShader v)
       (events_of (createShaderProgramFromSource Runs.drv) Runs.fresh_start) /\
    In (E_glDeleteShader f)
       (events_of (createShaderProgramFromSource Runs.drv) Runs.fresh_start) /\
    Forall (fun e => is_delete e = false)
           (events_of (createShaderProgramFromSource Runs.drv) Runs.fresh_start).
Proof.
  apply (createShaderProgramFromSource_success Runs.drv Runs.fresh_start 3).
  - vm_compute. reflexivity.
  - lia.
Defined.

Lemma createShaderProgramFromSource_stops_witness :
  result_of (createShaderProgramFromSource Runs.drv) Runs.broken = Some 0 /\
  Forall (fun e => is_create e = false)
         (events_of (createShaderProgramFromSource Runs.drv) Runs.broken) /\
  (forall p,
     ~ In (E_glLinkProgram p)
          (events_of (createShaderProgramFromSource Runs.drv) Runs.broken)) /\
  (forall f,
     In (E_glCreateShader GL_FRAGMENT_SHADER f)
        (events_of (createShaderProgramFromSource Runs.drv) Runs.broken) ->
     exists v sv,
       sv <> 0 /\
       In (E_glCreateShader GL_VERTEX_SHADER v)
          (events_of (createShaderProgramFromSource Runs.drv) Runs.broken) /\
       In (E_glGetShaderiv v GL_COMPILE_STATUS sv)
          (events_of (createShaderProgramFromSource Runs.drv) Runs.broken)).
Proof.
  apply (createShaderProgramFromSource_stops Runs.drv Runs.broken 1).
  vm_compute. do 4 right. left. reflexivity.
Defined.

Lemma loadProgramBinary_missing_file_witness :
  result_of (loadProgramBinary Runs.drv 0 0 "cache.bin") Runs.fresh_start = Some 0 /\
  events_of (loadProgramBinary Runs.drv 0 0 "cache.bin") Runs.fresh_start =
    events_of (checkProgramBinarySupport Runs.drv) Runs.fresh_start ++
    (if reported_formats Runs.drv Runs.fresh_start <? 1
     then [E_cout [Str "Program binary not supported, cannot load"]]
     else [E_open_in "cache.bin" false;
           E_cout [Str "Failed to open file for reading: "; Str "cache.bin"]]).
Proof.
  apply (loadProgramBinary_missing_file Runs.drv 0 0 "cache.bin" Runs.fresh_start).
  vm_compute. reflexivity.
Defined.

Lemma loadProgramBinary_hit_witness :
  exists fmtb lenb payload extra st,
    files (disk Runs.after_save) !! "cache.bin" = Some (fmtb ++ lenb ++ payload ++ extra) /\
    length fmtb = 4%nat /\ length lenb = 4%nat /\
    0 < s32 (le_decode lenb) /\
    Z.of_nat (length payload) = s32 (le_decode lenb) /\
    st <> GL_FALSE /\
    events_of (loadProgramBinary Runs.drv 0 0 "cache.bin") Runs.after_save =
      events_of (checkProgramBinarySupport Runs.drv) Runs.after_save ++
      [E_open_in "cache.bin" true; E_read "cache.bin" 4 fmtb; E_read "cache.bin" 4 lenb;
       E_read "cache.bin" (s32 (le_decode lenb)) payload; E_close_in "cache.bin";
       E_glCreateProgram 8;
       E_glProgramBinary 8 (u32 (le_decode fmtb)) payload (s32 (le_decode lenb));
       E_glGetError GL_NO_ERROR; E_glGetProgramiv 8 GL_LINK_STATUS st;
       E_cout [Str "Program binary loaded successfully: "; Str "cache.bin"]].
Proof.
  apply (loadProgramBinary_hit Runs.drv 0 0 "cache.bin" Runs.after_save 8).
  - vm_compute. reflexivity.
  - lia.
Defined.

Lemma loadProgramBinary_rejects_incomplete_witness :
  result_of (loadProgramBinary Runs.drv 5 7 "cache.bin") Runs.short_header = Some 0.
Proof.
  apply (loadProgramBinary_rejects_incomplete Runs.drv 5 7 "cache.bin" Runs.short_header
           (Runs.tag ++ [x05; x00])).
  - vm_compute. reflexivity.
  - vm_compute. reflexivity.
Defined.

Lemma saveProgramBinary_readonly_witness :
  result_of (saveProgramBinary Runs.drv 7 binaryFilename) Runs.unwritable <> Some true /\
  disk (final_world (saveProgramBinary Runs.drv 7 binaryFilename Runs.unwritable))
    = disk Runs.unwritable.
Proof.
  apply (saveProgramBinary_readonly Runs.drv 7 binaryFilename Runs.unwritable).
  apply (bool_decide_unpack _). vm_compute. exact I.
Defined.

Lemma saveProgramBinary_failure_never_loaded_witness :
  disk Runs.torn = disk Runs.cramped \/
  forall w2,
    files (disk w2) !! "cache.bin" = files (disk Runs.torn) !! "cache.bin" ->
    result_of (loadProgramBinary Runs.drv 0 0 "cache.bin") w2 = Some 0.
Proof.
  apply (saveProgramBinary_failure_never_loaded Runs.drv 0 0 7 "cache.bin"
           Runs.cramped Runs.torn).
  vm_compute. reflexivity.
Defined.

Lemma createOrLoadShaderProgram_returns_linked_witness :
  In (E_glCreateProgram 3)
     (events_of (createOrLoadShaderProgram Runs.drv 0 0) Runs.fresh_start) /\
  exists st,
    st <> 0 /\
    In (E_glGetProgramiv 3 GL_LINK_STATUS st)
       (events_of (createOrLoadShaderProgram Runs.drv 0 0) Runs.fresh_start).
Proof.
  apply (createOrLoadShaderProgram_returns_linked Runs.drv 0 0 Runs.fresh_start 3).
  - vm_compute. reflexivity.
  - lia.
Defined.

Lemma createOrLoadShaderProgram_zero_witness :
  In (E_cout [Str "Failed to compile shader program from source"])
     (events_of (createOrLoadShaderProgram Runs.drv 0 0) Runs.broken) /\
  Exists (fun e => compiles e = true)
         (events_of (createOrLoadShaderProgram Runs.drv 0 0) Runs.broken) /\
  Forall (fun e => is_output e = false)
         (events_of (createOrLoadShaderProgram Runs.drv 0 0) Runs.broken).
Proof.
  apply (createOrLoadShaderProgram_zero Runs.drv 0 0 Runs.broken).
  vm_compute. reflexivity.
Defined.

Lemma createOrLoadShaderProgram_single_path_witness :
  exists fmtb lenb payload,
    length fmtb = 4%nat /\ length lenb = 4%nat /\
    0 < s32 (le_decode lenb) /\
    Z.of_nat (length payload) = s32 (le_decode lenb) /\
    (exists before line,
       Forall (fun e => is_output e = false) before /\
       events_of (createOrLoadShaderProgram Runs.drv 0 0) Runs.fresh_start =
         before ++
         [E_open_out "shader_program.bin" true;
          E_write "shader_program.bin" fmtb; E_write "shader_program.bin" lenb;
          E_write "shader_program.bin" payload;
          E_close_out "shader_program.bin";
          E_cout line;
          E_cout [Str "Program binary cached for future use"]]) /\
    files (disk (final_world (createOrLoadShaderProgram Runs.drv 0 0 Runs.fresh_start)))
      !! "shader_program.bin" = Some (fmtb ++ lenb ++ payload) /\
    forall w' w1',
      files (disk w') !! "shader_program.bin"
        = files (disk (final_world (createOrLoadShaderProgram Runs.drv 0 0 Runs.fresh_start)))
            !! "shader_program.bin" ->
      static_binarySupported Runs.drv w' = Returns true w1' ->
      result_of (checkProgramBinarySupport Runs.drv) w1' = Some true ->
      exists before q after,
        Forall (fun e => is_file_event e = false) before /\
        events_of (createOrLoadShaderProgram Runs.drv 0 0) w' =
          before ++
          [E_open_in "shader_program.bin" true;
           E_read "shader_program.bin" 4 fmtb; E_read "shader_program.bin" 4 lenb;
           E_read "shader_program.bin" (s32 (le_decode lenb)) payload;
           E_close_in "shader_program.bin";
           E_glCreateProgram q;
           E_glProgramBinary q (u32 (le_decode fmtb)) payload (s32 (le_decode lenb))]
          ++ after.
Proof.
  destruct (createOrLoadShaderProgram_single_path Runs.drv 0 0 Runs.fresh_start)
    as (_ & _ & _ & H).
  apply (H Runs.fresh_probed Runs.fresh_missed 3 Runs.fresh_compiled Runs.fresh_saved).
  - vm_compute. reflexivity.
  - vm_compute. reflexivity.
  - vm_compute. reflexivity.
  - lia.
  - vm_compute. reflexivity.
Defined.

(** ** The save through a null pointer *)

(** C3.  The state in which the claim fails.  The driver reports one binary
    format and the pointer [glGetProgramBinary] is null: the probe prints that
    the function is not available and still says supported, so the static is
    [true]; the cache misses, the sources compile and link to program 3, and
    the save, after its checks, calls through the null pointer.  The last
    thing the run does is print the queried length; it returns no handle.
    With the pointer loaded the same start returns 3. *)
Theorem createOrLoadShaderProgram_null_pointer :
  result_of (static_binarySupported Runs.null_drv) Runs.fresh_start = Some true /\
  In (E_cout [Str "glGetProgramBinary function not available"])
     (events_of (createOrLoadShaderProgram Runs.null_drv 0 0) Runs.fresh_start) /\
  In (E_glCreateProgram 3)
     (events_of (createOrLoadShaderProgram Runs.null_drv 0 0) Runs.fresh_start) /\
  In (E_cout [Str "Shader program compiled and linked successfully from source"])
     (events_of (createOrLoadShaderProgram Runs.null_drv 0 0) Runs.fresh_start) /\
  last (events_of (createOrLoadShaderProgram Runs.null_drv 0 0) Runs.fresh_start)
    = Some (E_cout [Str "Program binary length: "; Num 5; Str " bytes"]) /\
  Forall (fun e => is_retrieval e = false /\ is_output e = false)
         (events_of (createOrLoadShaderProgram Runs.null_drv 0 0) Runs.fresh_start) /\
  result_of (createOrLoadShaderProgram Runs.null_drv 0 0) Runs.fresh_start = None /\
  result_of (createOrLoadShaderProgram Runs.drv 0 0) Runs.fresh_start = Some 3.
Proof.
  split; [vm_compute; reflexivity|].
  split; [vm_compute; repeat (first [left; reflexivity | right])|].
  split; [vm_compute; repeat (first [left; reflexivity | right])|].
  split; [vm_compute; repeat (first [left; reflexivity | right])|].
  split; [vm_compute; reflexivity|].
  split; [vm_compute; repeat constructor|].
  split; vm_compute; reflexivity.
Qed.

(** ** Sample runs *)

(** With a format reported and the pointer [glGetProgramBinary] null, the probe
    says supported and the save that follows a successful compilation calls
    through the null pointer. *)
Example run_null_pointer :
  result_of (checkProgramBinarySupport (Ref.driver false true))
            (Ref.world (Ref.boot 1) Ref.empty_disk) = Some true /\
  result_of (createOrLoadShaderProgram (Ref.driver false true) 0 0)
            (Ref.world (Ref.boot 1) Ref.empty_disk) = None.
Proof. split; vm_compute; reflexivity. Qed.

(** The driver reports 8 bytes and hands out 5: the header and the payload
    follow the 5. *)
Example run_save_shorter_binary :
  files (disk Runs.after_save) !! "cache.bin" =
    Some ([x21; x8e; x00; x00] ++ [x05; x00; x00; x00] ++ Ref.blob).
Proof. vm_compute. reflexivity. Qed.

(** A driver that does not take the blob back: the new object is deleted. *)
Example run_reload_refused :
  result_of (loadProgramBinary (Ref.driver true false) 0 0 "cache.bin") Runs.after_save
    = Some 0 /\
  last (events_of (loadProgramBinary (Ref.driver true false) 0 0 "cache.bin")
          Runs.after_save)
    = Some (E_glDeleteProgram 8).
Proof. split; vm_compute; reflexivity. Qed.

(** A file shorter than its header: whatever [length] held, 0 is returned. *)
Example run_short_header :
  result_of (loadProgramBinary Runs.drv 5 7 "cache.bin")
            (Ref.world (Ref.boot 1) (Ref.disk_with "cache.bin" [x21; x8e; x00; x00; x05; x00]))
    = Some 0.
Proof. vm_compute. reflexivity. Qed.

(** A cold start writes the cache; the next start loads it. *)
Example run_miss_then_hit :
  let first := createOrLoadShaderProgram Runs.drv 0 0 (Ref.world (Ref.boot 1) Ref.empty_disk) in
  let restart := Ref.world (Ref.boot 1) (disk (final_world first)) in
  result_of (createOrLoadShaderProgram Runs.drv 0 0) (Ref.world (Ref.boot 1) Ref.empty_disk)
    = Some 3 /\
  result_of (createOrLoadShaderProgram Runs.drv 0 0) restart = Some 1 /\
  Forall (fun e => match e with E_glCreateShader _ _ => False | _ => True end)
         (events_of (createOrLoadShaderProgram Runs.drv 0 0) restart).
Proof. cbn zeta. split; [|split]; vm_compute; [reflexivity|reflexivity|repeat constructor]. Qed.

(** The four refusals of [saveProgramBinary], in order: handle 0; a program
    that is not linked; no binary format; a binary length of 0. *)
Example run_save_refusals :
  events_of (saveProgramBinary Runs.drv 0 "cache.bin") Runs.before_save
    = [E_cout [Str "Invalid program object"]] /\
  events_of (saveProgramBinary Runs.drv 9 "cache.bin") Runs.before_save
    = [E_glGetProgramiv 9 GL_LINK_STATUS 0;
       E_cout [Str "Program is not successfully linked"]] /\
  filter is_driver_event
    (events_of (saveProgramBinary Runs.drv 7 "cache.bin")
       (Ref.world (Ref.set_linked [7] (Ref.boot 0)) Ref.empty_disk))
    = [E_glGetProgramiv 7 GL_LINK_STATUS 1;
       E_glGetIntegerv GL_NUM_PROGRAM_BINARY_FORMATS 0] /\
  filter is_driver_event
    (events_of (saveProgramBinary Runs.drv 7 "cache.bin")
       (Ref.world (Ref.with_program (-5)) Ref.empty_disk))
    = [E_glGetProgramiv 7 GL_LINK_STATUS 1;
       E_glGetIntegerv GL_NUM_PROGRAM_BINARY_FORMATS 1;
       E_glGetProgramiv 7 GL_PROGRAM_BINARY_LENGTH 0].
Proof. repeat split; vm_compute; reflexivity. Qed.

Lemma Ref_respects_buffer (loaded accepts : bool) :
  respects_buffer (Ref.driver loaded accepts).
Proof.
  intros d program bufSize r d' Hpos H. cbn [Ref.driver drv_glGetProgramBinary] in H.
  destruct (Ref.is_linked program d && (Z.of_nat (length Ref.blob) <=? bufSize)
            && (1 <=? s32 (Ref.formats d))) eqn:Hc.
  - injection H as <- _. cbn [pb_length].
    apply andb_true_iff in Hc. destruct Hc as [Hc _].
    apply andb_true_iff in Hc. destruct Hc as [_ Hc]. apply Z.leb_le in Hc.
    change (Z.of_nat (length Ref.blob)) with 5 in Hc.
    change (s32 (Z.of_nat 5)) with 5. lia.
  - injection H as <- _. cbn [pb_length]. change (s32 0) with 0. lia.
Qed.
